(** * AFQ-Insight, [afqinsight/datasets.py]: loading and inverse projection

    A shallow embedding of [load_afq_data] and [output_beta_to_afq].

    Conventions of the embedding.
    - A Python exception is a value of [PyError]; code that may raise
      returns a [result].
    - A pandas [DataFrame] is kept column-major: the row labels and, for each
      column in order, its name and its cells.
    - A cell is a Python scalar: an [int], a [str] or a binary64 [float];
      the missing marker of pandas is the float [nan].  A column all of
      whose cells are integers has the dtype [int64]; when the left join
      gives such a column a missing entry, pandas stores it as [float64],
      and so does the embedding.
    - [pd.read_csv] and [DataFrame.to_csv] are the boundary: a CSV file is
      its parsed table. *)

From Stdlib Require Import ZArith String Ascii Lia.
From Stdlib Require Import Floats.SpecFloat.
From Stdlib Require OrderedTypeEx.
From stdpp Require Import base option list sorting gmap strings pretty.

Local Open Scope string_scope.
Local Open Scope list_scope.
Local Open Scope Z_scope.

(** ** Exceptions *)

Inductive PyError : Type :=
| KeyError (key : string)
| ValueError (msg : string)
| TypeError (msg : string)
| UnboundLocalError (name : string)
| FileNotFoundError (path : string).

Inductive result (A : Type) : Type :=
| Ok (a : A)
| Err (e : PyError).
Arguments Ok {A} a.
Arguments Err {A} e.

#[global] Instance result_ret : MRet result := fun _ a => Ok a.
#[global] Instance result_bind : MBind result := fun _ _ k r =>
  match r with
  | Ok a => k a
  | Err e => Err e
  end.

(** [for x in xs: st = body(x, st)], stopping at the first exception. *)
Fixpoint for_each {A S} (body : A -> S -> result S) (xs : list A) (st : S)
  : result S :=
  match xs with
  | [] => Ok st
  | x :: xs' => st' ← body x st; for_each body xs' st'
  end.

(** [[f(x) for x in xs]], stopping at the first exception. *)
Fixpoint traverse {A B} (f : A -> result B) (xs : list A) : result (list B) :=
  match xs with
  | [] => Ok []
  | x :: xs' => y ← f x; ys ← traverse f xs'; Ok (y :: ys)
  end.

(** [series.unique()]: the distinct entries in first-seen order. *)
Fixpoint distinct `{EqDecision A} (vs : list A) : list A :=
  match vs with
  | [] => []
  | v :: vs' => v :: filter (fun w => w ≠ v) (distinct vs')
  end.

(** ** Scalars *)

Definition float64 : Type := spec_float.

Inductive value : Type :=
| Int (z : Z)
| Str (s : string)
| Flt (f : float64).

Definition NaN : value := Flt S754_nan.

#[global] Instance spec_float_eq_dec : EqDecision spec_float.
Proof. solve_decision. Defined.
#[global] Instance value_eq_dec : EqDecision value.
Proof. solve_decision. Defined.
#[global] Instance PyError_eq_dec : EqDecision PyError.
Proof. solve_decision. Defined.

Definition is_missing (v : value) : bool :=
  match v with Flt S754_nan => true | _ => false end.

Definition is_int (v : value) : bool :=
  match v with Int _ => true | _ => false end.

(** The number held by a numeric cell, as a binary64 float. *)
Definition to_float (v : value) : float64 :=
  match v with
  | Int z => binary_normalize 53 1024 z 0 false
  | Flt f => f
  | Str _ => S754_nan
  end.

(** [series.astype("float64")] on a column of dtype [int64] (every cell an
    integer): each integer becomes the nearest binary64 float.  A column of
    another dtype is left as it is. *)
Definition is_int64 (data : list value) : bool := forallb is_int data.

Definition to_float64 (data : list value) : list value :=
  if is_int64 data then map (fun v => Flt (to_float v)) data else data.

(** ** Data frames *)

Record DataFrame : Type := mkDF {
  df_index : list value;
  df_cols : list (string * list value)
}.

Definition columns (df : DataFrame) : list string := (df_cols df).*1.
Definition n_rows (df : DataFrame) : nat := length (df_index df).
Definition n_cols (df : DataFrame) : nat := length (df_cols df).

(** [name in df.columns] *)
Definition has_column (df : DataFrame) (name : string) : bool :=
  bool_decide (name ∈ columns df).

(** The columns labelled [name], in frame order. *)
Definition cols_named (name : string) (df : DataFrame)
  : list (string * list value) :=
  filter (fun c => c.1 = name) (df_cols df).

(** [df[name]] for a label carried by one column; [KeyError] when no column
    has the label.  ([pd.read_csv] renames the repeated names of a header,
    so the labels of a loaded table are distinct.) *)
Definition getitem (df : DataFrame) (name : string) : result (list value) :=
  match cols_named name df with
  | [] => Err (KeyError name)
  | c :: _ => Ok c.2
  end.

(** [df[names]] and [df.loc[:, names]] for a list of labels: for each label
    in turn the columns that carry it; [KeyError] on a label of no column. *)
Fixpoint select_cols (names : list string) (df : DataFrame)
  : result (list (string * list value)) :=
  match names with
  | [] => Ok []
  | name :: names' =>
      match cols_named name df with
      | [] => Err (KeyError name)
      | cs => rest ← select_cols names' df; Ok (cs ++ rest)
      end
  end.

Definition getitem_list (df : DataFrame) (names : list string)
  : result DataFrame :=
  cs ← select_cols names df; Ok (mkDF (df_index df) cs).

(** [df.drop(names, axis="columns")] for labels that are known to be
    columns, and [df.drop(name, axis="columns", errors="ignore")]. *)
Definition drop_columns (names : list string) (df : DataFrame) : DataFrame :=
  mkDF (df_index df) (filter (fun c => c.1 ∉ names) (df_cols df)).

(** [df[name] = data]: overwrite the columns labelled [name], or add a new
    last column. *)
Definition setitem (df : DataFrame) (name : string) (data : list value)
  : DataFrame :=
  if has_column df name
  then mkDF (df_index df)
         (map (fun c => if decide (c.1 = name) then (name, data) else c)
              (df_cols df))
  else mkDF (df_index df) (df_cols df ++ [(name, data)]).

(** ["Unnamed:" in col] *)
Definition is_unnamed (col : string) : bool :=
  match String.index 0 "Unnamed:" col with
  | Some _ => true
  | None => false
  end.

Definition unnamed_cols (df : DataFrame) : list string :=
  List.filter is_unnamed (columns df).

(** [pd.read_csv(..., index_col=name)] on the parsed table: the named column
    becomes the row labels and leaves the columns. *)
Definition set_index_col (name : string) (raw : DataFrame)
  : result DataFrame :=
  match cols_named name raw with
  | [] => Err (ValueError ("Index " +:+ name +:+ " invalid"))
  | c :: _ => Ok (mkDF c.2 (filter (fun c => c.1 ≠ name) (df_cols raw)))
  end.

(** *** Left join on the row labels

    [pd.DataFrame(index=keys).merge(right, how="left", left_index=True,
    right_index=True)].  The left keys keep their order.  A key matched by
    several rows of [right] yields one row per match, in the order of
    [right]; a key matched by none yields one row of missing cells, and
    then every [int64] column of [right] is stored as [float64]. *)

Fixpoint positions_from (i : nat) (key : value) (labels : list value)
  : list nat :=
  match labels with
  | [] => []
  | l :: labels' =>
      if decide (l = key) then i :: positions_from (S i) key labels'
      else positions_from (S i) key labels'
  end.

Definition positions (key : value) (labels : list value) : list nat :=
  positions_from 0 key labels.

Definition join_plan (keys labels : list value)
  : list (value * option nat) :=
  keys ≫= (fun k =>
    match positions k labels with
    | [] => [(k, None)]
    | ps => map (fun p => (k, Some p)) ps
    end).

Definition take_cell (data : list value) (src : option nat) : value :=
  match src with
  | Some p => default NaN (data !! p)
  | None => NaN
  end.

(** Some key of the plan is matched by no row. *)
Definition unmatched (plan : list (value * option nat)) : bool :=
  existsb (fun row => match row.2 with None => true | Some _ => false end)
          plan.

Definition merge_left_index (keys : list value) (right : DataFrame)
  : DataFrame :=
  let plan := join_plan keys (df_index right) in
  mkDF (plan.*1)
       (map (fun c =>
               let data := if unmatched plan then to_float64 c.2 else c.2 in
               (c.1, map (fun row => take_cell data row.2) plan))
            (df_cols right)).

(** ** numpy arrays of at most two dimensions *)

Inductive ndarray : Type :=
| Array0 (v : value)
| Array1 (cells : list value)
| Array2 (n k : nat) (rows : list (list value)).

Definition shape (a : ndarray) : list nat :=
  match a with
  | Array0 _ => []
  | Array1 cells => [length cells]
  | Array2 n k _ => [n; k]
  end.

(** Row [i] of a frame. *)
Definition row_at (df : DataFrame) (i : nat) : list value :=
  map (fun c => default NaN (c.2 !! i)) (df_cols df).

Definition frame_rows (df : DataFrame) : list (list value) :=
  map (row_at df) (seq 0 (n_rows df)).

(** [df.to_numpy()]: always two-dimensional, of shape (rows, columns). *)
Definition to_numpy (df : DataFrame) : ndarray :=
  Array2 (n_rows df) (n_cols df) (frame_rows df).

(** [np.squeeze]: every axis of length one is removed. *)
Definition squeeze (a : ndarray) : ndarray :=
  match a with
  | Array2 n k rows =>
      if decide (n = 1%nat) then
        if decide (k = 1%nat)
        then Array0 (default NaN (head (concat rows)))
        else Array1 (concat rows)
      else if decide (k = 1%nat) then Array1 (concat rows)
      else Array2 n k rows
  | Array1 cells =>
      match cells with
      | [v] => Array0 v
      | _ => Array1 cells
      end
  | Array0 v => Array0 v
  end.

(** ** scikit-learn's [LabelEncoder]

    [fit_transform] stores in [classes_] the distinct values of its argument
    in ascending order, the missing marker last (scikit-learn 0.24 and
    later), and returns for every entry its position in [classes_].  Values
    that are not uniformly strings or uniformly numbers raise [TypeError]. *)

Definition is_str (v : value) : bool :=
  match v with Str _ => true | _ => false end.

(** Python's ordering of two strings, or of two numbers. *)
Definition value_compare (a b : value) : comparison :=
  match a, b with
  | Str s, Str t => String.compare s t
  | Int x, Int y => Z.compare x y
  | Str _, _ => Gt
  | _, Str _ => Lt
  | _, _ => default Eq (SFcompare (to_float a) (to_float b))
  end.

Definition uniform (vs : list value) : bool :=
  forallb is_str vs || forallb (fun v => negb (is_str v)) vs.

(** Insertion into an ascending list without repetition, and the ascending
    list of the distinct entries of a list, for an ordering [cmp]. *)
Fixpoint insert_unique {A} (cmp : A -> A -> comparison) (x : A) (l : list A)
  : list A :=
  match l with
  | [] => [x]
  | y :: l' =>
      match cmp x y with
      | Lt => x :: y :: l'
      | Eq => y :: l'
      | Gt => y :: insert_unique cmp x l'
      end
  end.

Definition sorted_unique {A} (cmp : A -> A -> comparison) (vs : list A)
  : list A :=
  foldr (insert_unique cmp) [] vs.

Definition unique_values (vs : list value) : result (list value) :=
  let present := List.filter (fun v => negb (is_missing v)) vs in
  if uniform present
  then Ok (sorted_unique value_compare present
           ++ (if existsb is_missing vs then [NaN] else []))
  else Err (TypeError
    ("Encoders require their input argument must be "
     +:+ "uniformly strings or numbers.")).

Definition same_value (v c : value) : bool :=
  if is_missing v then is_missing c
  else negb (is_missing c) && bool_decide (value_compare v c = Eq).

Fixpoint index_of (v : value) (classes : list value) : nat :=
  match classes with
  | [] => 0
  | c :: classes' => if same_value v c then 0 else S (index_of v classes')
  end.

Record LabelEncoder : Type := mkLE { classes_ : option (list value) }.

Definition LabelEncoder_new : LabelEncoder := mkLE None.

(** [le.fit_transform(y)]: the codes and the encoder with its new
    [classes_] (a fresh array on every fit). *)
Definition LabelEncoder_fit_transform (le : LabelEncoder) (y : list value)
  : result (list value * LabelEncoder) :=
  cl ← unique_values y;
  Ok (map (fun v => Int (Z.of_nat (index_of v cl))) y, mkLE (Some cl)).

(** [le.inverse_transform] on one code: the class at that position. *)
Definition decode (classes : list value) (code : value) : option value :=
  match code with
  | Int z => if decide (0 <= z) then classes !! Z.to_nat z else None
  | _ => None
  end.

(** ** [load_afq_data] *)

(** A column key of the feature matrix: (tractID, metric, nodeID). *)
Definition ColumnKey : Type := string * string * Z.

(** What [load_afq_data] reads from the fitted [AFQDataFrameMapper]. *)
Record MapperFit : Type := mkFit {
  fit_X : list (list value);
  groups_ : list (list nat);
  feature_names_ : list ColumnKey;
  subjects_ : list value
}.

Record LoadArgs : Type := mkArgs {
  dwi_metrics : option (list string);
  target_cols : option (list string);
  label_encode_cols : option (list string);
  index_col : string;
  unsupervised : bool;
  concat_subject_session : bool;
  return_sessions : bool
}.

(** The returned tuple; a component absent from the tuple is [None].  The
    session component, when returned, is the Python value [sessions], which
    is itself [None] for a table without a sessionID column. *)
Record LoadOutput : Type := mkOut {
  out_X : list (list value);
  out_y : option ndarray;
  out_groups : list (list nat);
  out_feature_names : list ColumnKey;
  out_group_names : list (string * string);
  out_subjects : list value;
  out_sessions : option (option (list value));
  out_classes : option (gmap string (list value))
}.

(** Python's [repr] of a string: in single quotes, or in double quotes when
    the string has a single quote and no double quote; a backslash and the
    enclosing quote are written with a backslash before them, newline,
    carriage return and tab as [\n], [\r] and [\t], and any other ASCII
    control character as [\x] and two hexadecimal digits.  (Characters
    outside ASCII are kept as they are, as Python keeps the printable
    ones.) *)
Definition hex_digit (n : N) : ascii :=
  ascii_of_N (if (n <? 10)%N then 48 + n else 87 + n).

Fixpoint repr_chars (quote : ascii) (s : string) : string :=
  match s with
  | EmptyString => EmptyString
  | String c s' =>
      let rest := repr_chars quote s' in
      let code := N_of_ascii c in
      if Ascii.eqb c "\"%char || Ascii.eqb c quote
      then String "\" (String c rest)
      else if Ascii.eqb c "010"%char then "\n" +:+ rest
      else if Ascii.eqb c "013"%char then "\r" +:+ rest
      else if Ascii.eqb c "009"%char then "\t" +:+ rest
      else if (code <? 32)%N || (code =? 127)%N
      then String "\" (String "x" (String (hex_digit (code / 16))
                                      (String (hex_digit (code mod 16)) rest)))
      else String c rest
  end.

Definition has_char (c : ascii) (s : string) : bool :=
  existsb (Ascii.eqb c) (list_ascii_of_string s).

Definition repr_str (s : string) : string :=
  let quote := if has_char "'" s && negb (has_char "034" s)
               then "034"%char else "'"%char in
  String quote (repr_chars quote s +:+ String quote EmptyString).

(** ['{0}'.format(names)] for a list of strings. *)
Definition repr_list (names : list string) : string :=
  "[" +:+ String.concat ", " (map repr_str names) +:+ "]".

Definition subset_message (names : list string) : string :=
  "label_encode_cols must be a subset of target_cols; got "
    +:+ repr_list names +:+ " instead.".

(** [left + right] on two object columns of one frame: string
    concatenation, a missing left entry staying missing. *)
Definition add_str (a : value) (b : string) : result value :=
  match a with
  | Str s => Ok (Str (s +:+ b))
  | Flt S754_nan => Ok NaN
  | _ => Err (TypeError "unsupported operand type(s) for +")
  end.

Fixpoint add_str_series (left : list value) (right : list string)
  : result (list value) :=
  match left, right with
  | a :: left', b :: right' =>
      v ← add_str a b; vs ← add_str_series left' right'; Ok (v :: vs)
  | _, _ => Ok []
  end.

(** [[tup[0:2] for tup in feature_names if tup[2] == 0]] *)
Definition group_names_of (feature_names : list ColumnKey)
  : list (string * string) :=
  map (fun tup : ColumnKey => (tup.1.1, tup.1.2))
      (List.filter (fun tup : ColumnKey => Z.eqb tup.2 0) feature_names).

(** The state of the label encoding loop: the bound value of [y] (if any),
    the encoder object and the [classes] dictionary. *)
Definition EncState : Type :=
  option DataFrame * LabelEncoder * gmap string (list value).

(** One iteration: [y.loc[:, col] = le.fit_transform(y[col])] and
    [classes[col] = le.classes_].  [y[col]] is a frame, which the encoder
    rejects, when [col] labels several columns of [y]. *)
Definition encode_column (col : string) (st : EncState) : result EncState :=
  let '(y, le, classes) := st in
  match y with
  | None => Err (UnboundLocalError "y")
  | Some yf =>
      match cols_named col yf with
      | [] => Err (KeyError col)
      | [c] =>
          '(codes, le') ← LabelEncoder_fit_transform le c.2;
          Ok (Some (setitem yf col codes), le',
              match classes_ le' with
              | Some cl => <[col := cl]> classes
              | None => classes
              end)
      | _ => Err (ValueError "y should be a 1d array")
      end
  end.

Section Loader.

(** [str(x)] of a float cell, which the embedding does not compute. *)
Variable float_repr : float64 -> string.

(** [AFQDataFrameMapper().fit_transform(nodes)] together with the
    attributes read afterwards ([transform.py] is outside this file). *)
Variable fit_transform : DataFrame -> result MapperFit.

(** [series.astype(str)] on one cell. *)
Definition astype_str (v : value) : string :=
  match v with
  | Int z => pretty z
  | Str s => s
  | Flt f => float_repr f
  end.

(** Lines 115-126: the nodes table handed to the mapper, and [sessions]. *)
Definition prepare_nodes (args : LoadArgs) (nodes_csv : DataFrame)
  : result (DataFrame * option (list value)) :=
  let nodes := drop_columns (unnamed_cols nodes_csv) nodes_csv in
  sessions ← (if has_column nodes "sessionID"
              then s ← getitem nodes "sessionID"; Ok (Some s)
              else Ok None);
  nodes ← (if concat_subject_session args
           then sid ← getitem nodes "subjectID";
                ses ← getitem nodes "sessionID";
                new ← add_str_series sid (map astype_str ses);
                Ok (setitem nodes "subjectID" new)
           else Ok nodes);
  let nodes := drop_columns ["sessionID"] nodes in
  nodes ← match dwi_metrics args with
          | Some ms =>
              getitem_list nodes (["tractID"; "nodeID"; "subjectID"] ++ ms)
          | None => Ok nodes
          end;
  Ok (nodes, sessions).

(** Lines 142-153: the phenotype table aligned with [subjects]. *)
Definition align_targets (args : LoadArgs) (subjects : list value)
    (subjects_csv : DataFrame) : result DataFrame :=
  targets ← set_index_col (index_col args) subjects_csv;
  let targets := drop_columns (unnamed_cols targets) targets in
  Ok (merge_left_index subjects targets).

(** Lines 156-157: [y] is bound only when [target_cols] is given. *)
Definition select_targets (args : LoadArgs) (targets : DataFrame)
  : result (option DataFrame) :=
  match target_cols args with
  | Some tc => y ← getitem_list targets tc; Ok (Some y)
  | None => Ok None
  end.

(** Lines 160-171. *)
Definition label_encode (args : LoadArgs) (y : option DataFrame)
  : result (option DataFrame * gmap string (list value)) :=
  match label_encode_cols args with
  | Some lec =>
      tc ← match target_cols args with
           | Some tc => Ok tc
           | None => Err (TypeError "'NoneType' object is not iterable")
           end;
      if bool_decide (lec ⊆ tc)
      then '(y', _, classes) ←
             for_each encode_column lec (y, LabelEncoder_new, ∅);
           Ok (y', classes)
      else Err (ValueError (subset_message lec))
  | None => Ok (y, ∅)
  end.

(** Line 173: [y = np.squeeze(y.to_numpy())]. *)
Definition squeeze_target (y : option DataFrame) : result ndarray :=
  match y with
  | Some yf => Ok (squeeze (to_numpy yf))
  | None => Err (UnboundLocalError "y")
  end.

(** Lines 140-187: the supervised branch up to the target and classes. *)
Definition load_targets (args : LoadArgs) (subjects : list value)
    (subjects_csv : DataFrame)
  : result (ndarray * gmap string (list value)) :=
  targets ← align_targets args subjects subjects_csv;
  y ← select_targets args targets;
  '(y, classes) ← label_encode args y;
  y ← squeeze_target y;
  Ok (y, classes).

Definition load_afq_data (args : LoadArgs)
    (nodes_csv subjects_csv : DataFrame) : result LoadOutput :=
  '(nodes, sessions) ← prepare_nodes args nodes_csv;
  fit ← fit_transform nodes;
  let X := fit_X fit in
  let groups := groups_ fit in
  let feature_names := feature_names_ fit in
  let group_names := group_names_of feature_names in
  let subjects := subjects_ fit in
  let sessions_out := if return_sessions args then Some sessions else None in
  if unsupervised args
  then Ok (mkOut X None groups feature_names group_names subjects
             sessions_out None)
  else '(y, classes) ← load_targets args subjects subjects_csv;
       Ok (mkOut X (Some y) groups feature_names group_names subjects
             sessions_out (Some classes)).

End Loader.

(** ** The pivot, for running the loader on concrete tables *)

Module Pivot.

(** The cells of the key columns, as the pivot reads them. *)
Definition as_tract (v : value) : result string :=
  match v with
  | Str s => Ok s
  | _ => Err (TypeError "tractID must be a string")
  end.

Definition as_node (v : value) : result Z :=
  match v with
  | Int z => Ok z
  | _ => Err (TypeError "nodeID must be an integer")
  end.

(** The cell of metric column [data] in the first long row of subject
    [s], tract [t] and node [n]; missing when there is no such row. *)
Fixpoint cell_of (s : value) (t : string) (n : Z)
    (sid tid nid data : list value) : value :=
  match sid, tid, nid, data with
  | s' :: sid', t' :: tid', n' :: nid', d :: data' =>
      if decide (s' = s /\ t' = Str t /\ n' = Int n) then d
      else cell_of s t n sid' tid' nid' data'
  | _, _, _, _ => NaN
  end.

Definition column_data (df : DataFrame) (name : string) : list value :=
  match getitem df name with Ok d => d | Err _ => [] end.

(** Modelled from the spec: [AFQDataFrameMapper.fit_transform] and the
    attributes [groups_], [feature_names_] and [subjects_], whose source
    ([transform.py]) is not part of this development.  Following sections
    3, 4.1 and 4.2 of the specification: one row per distinct subject, in
    ascending order, so that the row order does not depend on the order of
    the long rows; one column per (tract, metric, node) of the Cartesian
    product of the distinct tracts, the metric columns and the full node
    range from 0 to the largest node present, ordered by tract, then
    metric, then node; a combination that does not occur being a missing
    cell; one group of column indices per (tract, metric).  The imputation
    of section 4.3 belongs to an external estimator and is left out:
    [fit_X] is the pivoted matrix. *)
Definition fit_transform (nodes : DataFrame) : result MapperFit :=
  sid ← getitem nodes "subjectID";
  tid ← getitem nodes "tractID";
  nid ← getitem nodes "nodeID";
  tracts ← traverse as_tract tid;
  node_ids ← traverse as_node nid;
  let tracts := sorted_unique String.compare tracts in
  let node_ids :=
    map Z.of_nat (seq 0 (Z.to_nat (foldr Z.max (-1) node_ids + 1))) in
  let metrics :=
    sorted_unique String.compare
      (List.filter
         (fun m => negb (bool_decide (m ∈ ["subjectID"; "tractID"; "nodeID"])))
         (columns nodes)) in
  let names : list ColumnKey :=
    t ← tracts; m ← metrics; n ← node_ids; [(t, m, n)] in
  let subjects := sorted_unique value_compare sid in
  let width := length node_ids in
  Ok (mkFit
        (map (fun s =>
                map (fun k : ColumnKey =>
                       cell_of s k.1.1 k.2 sid tid nid
                         (column_data nodes k.1.2))
                    names)
             subjects)
        (map (fun g => seq (g * width) width)
             (seq 0 (length tracts * length metrics)))
        names
        subjects).

(** Python's [str] of a float that is nan, infinite, a zero or a whole
    number below 10^16 in absolute value, as a session column of whole
    numbers holds them when pandas stores it as [float64].  The shortest
    round-trip digits that Python prints for another float are not
    computed: for those the text is left empty. *)
Definition float_repr (f : float64) : string :=
  match f with
  | S754_nan => "nan"
  | S754_infinity false => "inf"
  | S754_infinity true => "-inf"
  | S754_zero false => "0.0"
  | S754_zero true => "-0.0"
  | S754_finite s m e =>
      let whole :=
        if decide (0 <= e) then Some (Z.pos m * 2 ^ e)
        else if decide (Z.pos m mod 2 ^ (- e) = 0)
        then Some (Z.pos m / 2 ^ (- e))
        else None in
      match whole with
      | Some z =>
          if decide (z < 10 ^ 16)
          then (if s then "-" else "") +:+ pretty z +:+ ".0"
          else ""
      | None => ""
      end
  end.

End Pivot.

(** ** binary64 arithmetic and the column statistics of pandas *)

Definition fadd : float64 -> float64 -> float64 := SFadd 53 1024.
Definition fsub : float64 -> float64 -> float64 := SFsub 53 1024.
Definition fmul : float64 -> float64 -> float64 := SFmul 53 1024.
Definition fdiv : float64 -> float64 -> float64 := SFdiv 53 1024.
Definition fsqrt : float64 -> float64 := SFsqrt 53 1024.
Definition float_of_Z (z : Z) : float64 := binary_normalize 53 1024 z 0 false.
Definition float_of_nat (n : nat) : float64 := float_of_Z (Z.of_nat n).

Definition is_nan (f : float64) : bool :=
  match f with S754_nan => true | _ => false end.
Definition is_inf (f : float64) : bool :=
  match f with S754_infinity _ => true | _ => false end.

(** The number held by a cell of a numeric column. *)
Definition as_float (v : value) : result float64 :=
  match v with
  | Int z => Ok (float_of_Z z)
  | Flt f => Ok f
  | Str _ => Err (TypeError "could not convert string to float")
  end.

(** [ndarray.sum()] over a contiguous run of binary64 numbers, as the
    [add.reduce] of NumPy computes it: the pairwise summation of its inner
    loop, added to the initial value 0.  Fewer than 8 numbers are added
    from first to last.  Up to 128 numbers are added into 8 running sums,
    the numbers of every full block of 8 each into its own sum; the 8 sums
    are added in pairs, and the numbers after the last full block are added
    to the result one by one.  A longer run is cut in two, the first part
    half as long rounded down to a multiple of 8, and the sums of the two
    parts are added. *)
Fixpoint add_blocks (fuel : nat) (r xs : list float64)
  : list float64 * list float64 :=
  match fuel with
  | O => (r, xs)
  | S fuel' =>
      if decide (8 <= length xs)%nat
      then add_blocks fuel' (zip_with fadd r (take 8 xs)) (drop 8 xs)
      else (r, xs)
  end.

Definition block_sum (xs : list float64) : float64 :=
  let '(r, rest) := add_blocks (length xs) (take 8 xs) (drop 8 xs) in
  match r with
  | [r0; r1; r2; r3; r4; r5; r6; r7] =>
      fold_left fadd rest
        (fadd (fadd (fadd r0 r1) (fadd r2 r3))
              (fadd (fadd r4 r5) (fadd r6 r7)))
  | _ => S754_nan
  end.

Fixpoint pairwise_sum (fuel : nat) (xs : list float64) : float64 :=
  let n := length xs in
  if decide (n < 8)%nat then fold_left fadd xs (S754_zero true)
  else if decide (n <= 128)%nat then block_sum xs
  else
    match fuel with
    | O => S754_nan
    | S fuel' =>
        let n2 := (n / 2 - (n / 2) mod 8)%nat in
        fadd (pairwise_sum fuel' (take n2 xs))
             (pairwise_sum fuel' (drop n2 xs))
    end.

Definition fsum (xs : list float64) : float64 :=
  fadd (S754_zero false) (pairwise_sum (length xs) xs).

Definition zero_missing (x : float64) : float64 :=
  if is_nan x then S754_zero false else x.

Definition count_present (xs : list float64) : nat :=
  length (List.filter (fun x => negb (is_nan x)) xs).

(** [Series.mean()] with [skipna=True], as [pandas.core.nanops] computes it
    with NumPy: the sum of the cells, a missing one counting as 0, over
    the number of cells present. *)
Definition nanmean (xs : list float64) : float64 :=
  let n := count_present xs in
  if decide (n = 0%nat) then S754_nan
  else fdiv (fsum (map zero_missing xs)) (float_of_nat n).

(** [Series.std()] with [skipna=True] and [ddof=1], as
    [pandas.core.nanops] computes it with NumPy, in two passes: missing
    when fewer than two entries are present. *)
Definition nanvar (xs : list float64) : float64 :=
  let n := count_present xs in
  if decide (n <= 1)%nat then S754_nan
  else
    let avg := fdiv (fsum (map zero_missing xs)) (float_of_nat n) in
    let sqr := map (fun x => if is_nan x then S754_zero false
                             else fmul (fsub avg x) (fsub avg x)) xs in
    fdiv (fsum sqr) (float_of_nat (n - 1)).

Definition nanstd (xs : list float64) : float64 := fsqrt (nanvar xs).

(** ** [output_beta_to_afq] *)

(** Python's [==] on two cells of one column: a missing cell equals
    nothing. *)
Definition py_eq (a b : value) : bool :=
  negb (is_missing a) && negb (is_missing b) && bool_decide (a = b).

(** The entries of [data] at the rows selected by a boolean mask. *)
Fixpoint select_rows {A} (mask : list bool) (data : list A) : list A :=
  match mask, data with
  | b :: mask', d :: data' =>
      if b then d :: select_rows mask' data' else select_rows mask' data'
  | _, _ => []
  end.

(** [df.drop(names, axis="columns")]: every label must be a column. *)
Definition drop_strict (names : list string) (df : DataFrame)
  : result DataFrame :=
  match List.filter (fun n => negb (has_column df n)) names with
  | [] => Ok (drop_columns names df)
  | n :: _ => Err (KeyError n)
  end.

Definition key_columns : list string := ["tractID"; "subjectID"; "nodeID"].

(** [df["tractID"] == tract] *)
Definition tract_mask (df : DataFrame) (tract : value) : result (list bool) :=
  t ← getitem df "tractID"; Ok (map (fun v => py_eq v tract) t).

(** [df.drop(key_columns, axis="columns").loc[df["tractID"] == tract].stat()]:
    a series labelled by the remaining columns. *)
Definition tract_stat (stat : list float64 -> float64) (df : DataFrame)
    (tract : value) : result (list (string * float64)) :=
  d ← drop_strict key_columns df;
  mask ← tract_mask df tract;
  traverse (fun c : string * list value =>
              xs ← traverse as_float (select_rows mask c.2);
              Ok (c.1, stat xs))
           (df_cols d).

(** [series[label]], missing for an absent label. *)
Fixpoint series_get (label : string) (s : list (string * float64)) : float64 :=
  match s with
  | [] => S754_nan
  | (l, x) :: s' => if decide (l = label) then x else series_get label s'
  end.

(** [f_std.divide(b_std).replace([np.inf, -np.inf], 1)] *)
Definition scale_factor (f_std b_std : list (string * float64))
  : list (string * float64) :=
  map (fun '(m, fs) =>
         let r := fdiv fs (series_get m b_std) in
         (m, if is_inf r then float_of_Z 1 else r))
      f_std.

(** [f_mean + (x - b_mean) * factor] *)
Definition rescale (f_mean b_mean factor x : float64) : float64 :=
  fadd f_mean (fmul (fsub x b_mean) factor).

Fixpoint update_rows (mask : list bool) (f : value -> value)
    (data : list value) : list value :=
  match mask, data with
  | b :: mask', d :: data' =>
      (if b then f d else d) :: update_rows mask' f data'
  | _, _ => data
  end.

Section Scaling.

(** [DataFrame.mean()] and [DataFrame.std()] on the cells of one column,
    the reductions of pandas that the loop calls: [mean] and [std] on the
    nodes table, whose columns [pd.read_csv] has read, [mean_b] and [std_b]
    on the synthetic rows, whose columns were filled from [beta_hat]. *)
Variables mean std mean_b std_b : list float64 -> float64.

(** One iteration of the loop of lines 269-297. *)
Definition scale_tract_with (df_nodes : DataFrame) (tract : value)
    (df_beta : DataFrame) : result DataFrame :=
  f_mean ← tract_stat mean df_nodes tract;
  f_std ← tract_stat std df_nodes tract;
  b_mean ← tract_stat mean_b df_beta tract;
  b_std ← tract_stat std_b df_beta tract;
  let metrics := b_mean.*1 in
  mask ← tract_mask df_beta tract;
  let factor := scale_factor f_std b_std in
  Ok (mkDF (df_index df_beta)
        (map (fun c : string * list value =>
                if bool_decide (c.1 ∈ metrics)
                then (c.1,
                      update_rows mask
                        (fun v => Flt (rescale (series_get c.1 f_mean)
                                         (series_get c.1 b_mean)
                                         (series_get c.1 factor)
                                         (to_float v)))
                        c.2)
                else c)
             (df_cols df_beta))).

Definition scale_beta_frame_with (df_nodes df_beta : DataFrame)
  : result DataFrame :=
  tracts ← getitem df_nodes "tractID";
  for_each (scale_tract_with df_nodes) (distinct tracts) df_beta.

End Scaling.

(** The loop with the reductions as pandas computes them. *)
Definition scale_tract : DataFrame -> value -> DataFrame -> result DataFrame :=
  scale_tract_with nanmean nanstd nanmean nanstd.

Definition scale_beta_frame : DataFrame -> DataFrame -> result DataFrame :=
  scale_beta_frame_with nanmean nanstd nanmean nanstd.

(** The ordering of the (tractID, nodeID) row labels after [unstack]. *)
Definition pair_compare (a b : string * Z) : comparison :=
  match String.compare a.1 b.1 with
  | Eq => Z.compare a.2 b.2
  | c => c
  end.

(** The coefficient stored under a column key. *)
Fixpoint coefficient (key : ColumnKey) (cells : list (ColumnKey * value))
  : value :=
  match cells with
  | [] => NaN
  | (k, v) :: cells' =>
      if decide (k = key) then v else coefficient key cells'
  end.

Definition range_index (n : nat) : list value :=
  map (fun i => Int (Z.of_nat i)) (seq 0 n).

(** Lines 253-260: the long-format rows of the synthetic subject, with the
    columns of the nodes table. *)
Definition beta_frame (beta_hat : list value) (cols : list ColumnKey)
    (nodes_columns : list string) : result DataFrame :=
  (* df_beta = pd.DataFrame(columns=columns); df_beta.loc["value"] = beta_hat *)
  cells ← (if decide (cols = [])
           then Err (ValueError "cannot set a frame with no defined columns")
           else if decide (length beta_hat = length cols)
           then Ok (zip cols beta_hat)
           else Err (ValueError "cannot set a row with mismatched columns"));
  (* df_beta.transpose().unstack(level="metric") *)
  _ ← (if decide (NoDup cols) then Ok ()
       else Err (ValueError "Index contains duplicate entries, cannot reshape"));
  let rows := sorted_unique pair_compare
                (map (fun k : ColumnKey => (k.1.1, k.2)) cols) in
  let metrics := sorted_unique String.compare
                   (map (fun k : ColumnKey => k.1.2) cols) in
  (* df_beta.columns = [t[-1] for t in df_beta.columns] *)
  let metric_cols :=
    map (fun m => (m, map (fun r : string * Z => coefficient (r.1, m, r.2) cells)
                          rows))
        metrics in
  (* df_beta.reset_index(inplace=True) *)
  _ ← (if bool_decide ("nodeID" ∈ metrics)
       then Err (ValueError "cannot insert nodeID, already exists")
       else if bool_decide ("tractID" ∈ metrics)
       then Err (ValueError "cannot insert tractID, already exists")
       else Ok ());
  let df := mkDF (range_index (length rows))
              (("tractID", map (fun r : string * Z => Str r.1) rows)
               :: ("nodeID", map (fun r : string * Z => Int r.2) rows)
               :: metric_cols) in
  (* df_beta["subjectID"] = "beta_hat" *)
  let df := setitem df "subjectID" (replicate (length rows) (Str "beta_hat")) in
  (* df_beta = df_beta[df_nodes.columns] *)
  getitem_list df nodes_columns.

(** [pd.concat([a, b], axis="rows", ignore_index=True)] for two frames with
    the same column labels in the same order. *)
Definition concat_rows (a b : DataFrame) : DataFrame :=
  mkDF (range_index (n_rows a + n_rows b))
       (map (fun c : string * list value =>
               (c.1, c.2 ++ match getitem b c.1 with
                            | Ok d => d
                            | Err _ => replicate (n_rows b) NaN
                            end))
            (df_cols a)).

(** [df.loc[label] = row] for a dictionary [row]: the rows labelled [label]
    are overwritten; when there is none, a row is appended (pandas 1.5 and
    later: the dictionary is aligned with the columns, a key that is no
    column is ignored and a column that is no key gets a missing cell). *)
Definition row_cell (row : gmap string value) (name : string) : value :=
  default NaN (row !! name).

Definition loc_set_row (df : DataFrame) (label : value)
    (row : gmap string value) : result DataFrame :=
  if bool_decide (label ∈ df_index df)
  then Ok (mkDF (df_index df)
             (map (fun c : string * list value =>
                     (c.1, update_rows
                             (map (fun l => bool_decide (l = label))
                                  (df_index df))
                             (fun _ => row_cell row c.1) c.2))
                  (df_cols df)))
  else if decide (df_cols df = [])
  then Err (ValueError "cannot set a frame with no defined columns")
  else Ok (mkDF (df_index df ++ [label])
             (map (fun c : string * list value =>
                     (c.1, c.2 ++ [row_cell row c.1]))
                  (df_cols df))).

(** Lines 302-305 on the parsed subjects table: the first column is the
    index ([index_col=0]); the result is the table written by
    [to_csv(index=True)]. *)
Definition add_subject_row (table : list (string * list value))
  : result (list (string * list value)) :=
  match table with
  | [] => Err (ValueError "Index 0 invalid")
  | (index_name, index) :: cols =>
      let df_subjects := mkDF index cols in
      let subject_row : gmap string value :=
        <["subjectID" := Str "beta_hat"]>
          (list_to_map (map (fun key => (key, Str "")) (columns df_subjects))) in
      df ← loc_set_row df_subjects
             (Int (Z.of_nat (n_rows df_subjects))) subject_row;
      Ok ((index_name, df_index df) :: df_cols df)
  end.

(** *** Files *)

Inductive FileContent : Type :=
| CsvFile (table : list (string * list value))
| DataFile (bytes : string).

Inductive IOEvent : Type :=
| ReadFile (path : string)
| WriteFile (path : string).

(** The directories that exist, each with the identity [os.stat] reports
    for it, the regular files, and the file accesses made so far. *)
Record World : Type := mkWorld {
  dirs : gmap string nat;
  files : gmap string FileContent;
  trace : list IOEvent
}.

Record IO (A : Type) : Type := mkIO { run : World -> result A * World }.
Arguments mkIO {A} run.
Arguments run {A} _ _.

#[global] Instance IO_ret : MRet IO := fun _ a => mkIO (fun w => (Ok a, w)).
#[global] Instance IO_bind : MBind IO := fun _ _ k m =>
  mkIO (fun w => match run m w with
                 | (Ok a, w') => run (k a) w'
                 | (Err e, w') => (Err e, w')
                 end).

Definition raise {A} (e : PyError) : IO A := mkIO (fun w => (Err e, w)).

Definition lift {A} (r : result A) : IO A := mkIO (fun w => (r, w)).

Definition log (ev : IOEvent) (w : World) : World :=
  mkWorld (dirs w) (files w) (trace w ++ [ev]).

(** [os.path.join(a, b)] *)
Definition path_join (a b : string) : string :=
  if String.prefix "/" b then b
  else if bool_decide (a = "") then b
  else if bool_decide (String.substring (String.length a - 1) 1 a = "/")
  then a +:+ b
  else a +:+ "/" +:+ b.

(** [os.path.samefile(p, q)]: both paths are examined with [os.stat]. *)
Definition samefile (p q : string) : IO bool :=
  mkIO (fun w =>
    match dirs w !! p with
    | None => (Err (FileNotFoundError p), w)
    | Some i =>
        match dirs w !! q with
        | None => (Err (FileNotFoundError q), w)
        | Some j => (Ok (bool_decide (i = j)), w)
        end
    end).

Definition table_rows (table : list (string * list value)) : nat :=
  match table with
  | [] => 0
  | c :: _ => length c.2
  end.

(** [pd.read_csv(path)] without an index column. *)
Definition read_csv (path : string) : IO DataFrame :=
  mkIO (fun w =>
    match files w !! path with
    | None => (Err (FileNotFoundError path), w)
    | Some (DataFile _) =>
        (Err (ValueError "Error tokenizing data"), log (ReadFile path) w)
    | Some (CsvFile t) =>
        (Ok (mkDF (range_index (table_rows t)) t), log (ReadFile path) w)
    end).

(** [df.to_csv(path, index=False)] with the table of the frame's columns:
    the file is created or replaced.  (The directory of [path] is taken to
    exist; [to_csv] raises [OSError] otherwise.) *)
Definition write_file (path : string) (content : FileContent) : IO unit :=
  mkIO (fun w =>
    (Ok (), mkWorld (dirs w) (<[path := content]> (files w))
              (trace w ++ [WriteFile path]))).

(** [shutil.copyfile(src, dst)] *)
Definition copyfile (src dst : string) : IO unit :=
  mkIO (fun w =>
    match files w !! src with
    | None => (Err (FileNotFoundError src), w)
    | Some content =>
        (Ok (), mkWorld (dirs w) (<[dst := content]> (files w))
                  (trace w ++ [ReadFile src; WriteFile dst]))
    end).

Record BetaArgs : Type := mkBetaArgs {
  workdir_in : string;
  workdir_out : string;
  fn_nodes_in : string;
  fn_subjects_in : string;
  fn_nodes_out : string;
  fn_subjects_out : string;
  scale_beta : bool
}.

Record OutputFiles : Type := mkOutputFiles {
  nodes_file : string;
  subjects_file : string
}.

Section Beta.

(** [os.path.abspath], which depends on the working directory. *)
Variable abspath : string -> string.

Definition output_beta_to_afq (beta_hat : list value)
    (cols : list ColumnKey) (args : BetaArgs) : IO OutputFiles :=
  let workdir_in := abspath (workdir_in args) in
  let fn_nodes_in := path_join workdir_in (fn_nodes_in args) in
  let fn_subjects_in := path_join workdir_in (fn_subjects_in args) in
  let workdir_out := abspath (workdir_out args) in
  let fn_nodes_out := path_join workdir_out (fn_nodes_out args) in
  let fn_subjects_out := path_join workdir_out (fn_subjects_out args) in
  same ← samefile workdir_in workdir_out;
  if (same : bool)
  then raise (ValueError
         ("output directory equals input directory, please "
          +:+ "output to a different directory to avoid "
          +:+ "overwriting your files."))
  else
    df_nodes ← read_csv fn_nodes_in;
    df_beta ← lift (beta_frame beta_hat cols (columns df_nodes));
    df_beta ← (if scale_beta args
               then lift (scale_beta_frame df_nodes df_beta)
               else mret df_beta);
    let df_nodes := concat_rows df_nodes df_beta in
    _ ← write_file fn_nodes_out (CsvFile (df_cols df_nodes));
    df_subjects ← read_csv fn_subjects_in;
    table ← lift (add_subject_row (df_cols df_subjects));
    _ ← write_file fn_subjects_out (CsvFile table);
    _ ← copyfile (path_join workdir_in "streamlines.json")
                 (path_join workdir_out "streamlines.json");
    _ ← copyfile (path_join workdir_in "params.json")
                 (path_join workdir_out "params.json");
    mret (mkOutputFiles fn_nodes_out fn_subjects_out).

End Beta.

(** ** Predicates used in the statements *)

(** The strict order decided by a comparison. *)
Definition cmp_lt {A} (cmp : A -> A -> comparison) (x y : A) : Prop :=
  cmp x y = Lt.

(** A comparison that decides a strict total order. *)
Class OrderCompare {A} (cmp : A -> A -> comparison) : Prop := {
  compare_eq x y : cmp x y = Eq <-> x = y;
  compare_antisym x y : cmp x y = CompOpp (cmp y x);
  compare_trans x y z : cmp x y = Lt -> cmp y z = Lt -> cmp x z = Lt
}.

(** A cell that is missing or of the kind embedded by [f]. *)
Definition of_kind {A} (f : A -> value) (v : value) : Prop :=
  is_missing v = true \/ exists a, v = f a.


(** A categorical column of the aligned phenotype table: strings with
    missing entries, or integers (a column of dtype [int64], which has no
    missing entry). *)
Definition categorical_column (col : list value) : Prop :=
  Forall (fun v => is_missing v = true \/ is_str v = true) col \/
  Forall (fun v => is_int v = true) col.

(** The order of [classes_]: ascending, the missing marker last. *)
Definition class_lt (a b : value) : Prop :=
  is_missing a = false /\ (is_missing b = true \/ value_compare a b = Lt).

Definition codes_of (classes col : list value) : list value :=
  map (fun v => Int (Z.of_nat (index_of v classes))) col.

(** What the loop has done to column [col] of [y0]. *)
Definition encoded (y0 y1 : DataFrame) (classes : gmap string (list value))
    (col : string) : Prop :=
  exists data cl,
    cols_named col y0 = [(col, data)] /\
    unique_values data = Ok cl /\
    classes !! col = Some cl /\
    cols_named col y1 = [(col, codes_of cl data)].

(** Exceptions of the loop of label encoding (the message abridged). *)
Definition raised_by_encoder (e : PyError) : Prop :=
  match e with
  | ValueError msg => msg = "y should be a 1d array"
  | FileNotFoundError _ => False
  | _ => True
  end.



(** The (tractID, nodeID) row labels of the synthetic subject. *)
Definition beta_rows (cols : list ColumnKey) : list (string * Z) :=
  sorted_unique pair_compare (map (fun k : ColumnKey => (k.1.1, k.2)) cols).


(** The cell of the placeholder row in column [c] of the subjects table. *)
Definition placeholder_cell (c : string) : value :=
  if decide (c = "subjectID") then Str "beta_hat" else Str "".

(** The metric labels of the column keys, ascending. *)
Definition metric_names (cols : list ColumnKey) : list string :=
  sorted_unique String.compare (map (fun k : ColumnKey => k.1.2) cols).

(** ** Concrete tables and calls *)

Module Example.

Definition F (z : Z) : value := Flt (float_of_Z z).

(** Two subjects, one tract, two nodes, two metrics; an index artifact
    column and a session column. *)
Definition nodes_csv : DataFrame :=
  mkDF (range_index 4)
    [("Unnamed: 0", [Int 0; Int 1; Int 2; Int 3]);
     ("subjectID", [Str "A"; Str "A"; Str "B"; Str "B"]);
     ("sessionID", [Int 1; Int 1; Int 2; Int 2]);
     ("tractID", [Str "CST"; Str "CST"; Str "CST"; Str "CST"]);
     ("nodeID", [Int 0; Int 1; Int 0; Int 1]);
     ("fa", [F 5; F 6; F 7; F 8]);
     ("md", [F 1; F 2; F 3; F 4])].

(** One subject only. *)
Definition nodes_one : DataFrame :=
  mkDF (range_index 2)
    [("subjectID", [Str "A"; Str "A"]);
     ("sessionID", [Int 1; Int 1]);
     ("tractID", [Str "CST"; Str "CST"]);
     ("nodeID", [Int 0; Int 1]);
     ("fa", [F 5; F 6])].

(** A phenotype table with one row for each of the subjects A and B. *)
Definition subjects_csv : DataFrame :=
  mkDF (range_index 2)
    [("Unnamed: 0", [Int 0; Int 1]);
     ("subjectID", [Str "A"; Str "B"]);
     ("sex", [Str "M"; Str "F"]);
     ("age", [Int 20; Int 30])].

(** A phenotype table without subject A, with a subject C that the nodes
    table does not have, twice. *)
Definition subjects_partial : DataFrame :=
  mkDF (range_index 3)
    [("Unnamed: 0", [Int 0; Int 1; Int 2]);
     ("subjectID", [Str "B"; Str "C"; Str "C"]);
     ("sex", [Str "M"; Str "F"; Str "F"]);
     ("age", [Int 20; Int 30; Int 40])].

(** A phenotype table with two rows for subject A and none for B. *)
Definition subjects_repeated : DataFrame :=
  mkDF (range_index 2)
    [("subjectID", [Str "A"; Str "A"]);
     ("sex", [Str "M"; Str "F"]);
     ("age", [Int 20; Int 21])].

Definition args (dwi target encode : option (list string)) : LoadArgs :=
  mkArgs dwi target encode "subjectID" false false true.

Definition load (a : LoadArgs) (nodes subjects : DataFrame)
  : result LoadOutput :=
  load_afq_data Pivot.float_repr Pivot.fit_transform a nodes subjects.

(** The input directory of the inverse projection: the real subjects have
    the constant value 5 of metric fa along the tract. *)
Definition nodes_table : list (string * list value) :=
  [("subjectID", [Str "A"; Str "A"; Str "B"; Str "B"]);
   ("tractID", [Str "CST"; Str "CST"; Str "CST"; Str "CST"]);
   ("nodeID", [Int 0; Int 1; Int 0; Int 1]);
   ("fa", [F 5; F 5; F 5; F 5])].

(** The subjects file in the layout written with a leading index column. *)
Definition subjects_table : list (string * list value) :=
  [("", [Int 0; Int 1]);
   ("subjectID", [Str "A"; Str "B"]);
   ("age", [Int 20; Int 30])].


Definition world (subjects : list (string * list value)) : World :=
  mkWorld {[ "/in" := 1%nat; "/out" := 2%nat ]}
    {[ "/in/nodes.csv" := CsvFile nodes_table;
       "/in/subjects.csv" := CsvFile subjects;
       "/in/streamlines.json" := DataFile "{}";
       "/in/params.json" := DataFile "{}" ]}
    [].

Definition beta_args (dir_out : string) (scale : bool) : BetaArgs :=
  mkBetaArgs "/in" dir_out "nodes.csv" "subjects.csv" "nodes.csv"
    "subjects.csv" scale.

Definition cols : list ColumnKey := [("CST", "fa", 0); ("CST", "fa", 1)].

(** Absolute paths are passed, which [os.path.abspath] leaves unchanged. *)
Definition project (beta_hat : list value) (a : BetaArgs)
    (subjects : list (string * list value)) : result OutputFiles * World :=
  run (output_beta_to_afq id beta_hat cols a) (world subjects).

End Example.

(** ** Further predicates and tables *)

(** The number of components of the returned tuple. *)
Definition tuple_length (out : LoadOutput) : nat :=
  (5 + match out_y out with Some _ => 1 | None => 0 end
     + match out_sessions out with Some _ => 1 | None => 0 end
     + match out_classes out with Some _ => 1 | None => 0 end)%nat.

(** The paths [output_beta_to_afq] reads and writes. *)
Definition input_path (abspath : string -> string) (args : BetaArgs)
    (name : string) : string :=
  path_join (abspath (workdir_in args)) name.

Definition output_path (abspath : string -> string) (args : BetaArgs)
    (name : string) : string :=
  path_join (abspath (workdir_out args)) name.

Definition output_paths (abspath : string -> string) (args : BetaArgs)
  : list string :=
  [output_path abspath args (fn_nodes_out args);
   output_path abspath args (fn_subjects_out args);
   output_path abspath args "streamlines.json";
   output_path abspath args "params.json"].

(** The file accesses of a complete run, in order. *)
Definition full_trace (abspath : string -> string) (args : BetaArgs)
  : list IOEvent :=
  [ReadFile (input_path abspath args (fn_nodes_in args));
   WriteFile (output_path abspath args (fn_nodes_out args));
   ReadFile (input_path abspath args (fn_subjects_in args));
   WriteFile (output_path abspath args (fn_subjects_out args));
   ReadFile (input_path abspath args "streamlines.json");
   WriteFile (output_path abspath args "streamlines.json");
   ReadFile (input_path abspath args "params.json");
   WriteFile (output_path abspath args "params.json")].

(** [w'] is [w] after the file accesses [t]: the directories are the same,
    the trace has grown by [t], no file has gone, and a file that [t] does
    not write is as it was. *)
Definition after_accesses (w : World) (t : list IOEvent) (w' : World)
  : Prop :=
  dirs w' = dirs w /\
  trace w' = trace w ++ t /\
  (forall p, is_Some (files w !! p) -> is_Some (files w' !! p)) /\
  (forall p, WriteFile p ∉ t -> files w' !! p = files w !! p).

(** What the scaling loop may do to a column [c] of the synthetic rows,
    giving [c']: the label, the length and every key column are kept, and
    so is the cell of a row whose tract (in [tcol]) is none of [tracts]. *)
Definition rescaled_column (tracts tcol : list value)
    (c c' : string * list value) : Prop :=
  c'.1 = c.1 /\
  length c'.2 = length c.2 /\
  (c.1 ∈ key_columns -> c'.2 = c.2) /\
  (forall p v, tcol !! p = Some v ->
     (forall t, t ∈ tracts -> py_eq v t = false) ->
     c'.2 !! p = c.2 !! p).

(** What the scaling loop does to a column [c] of the synthetic rows at the
    rows of tract [t], giving [c']: a cell of a metric column becomes
    [f_mean + (x - b_mean) * factor] for the statistics of its metric. *)
Definition scaled_column (t : value) (tcol : list value)
    (f_mean f_std b_mean b_std : list (string * float64))
    (c c' : string * list value) : Prop :=
  forall p v x,
    tcol !! p = Some v -> py_eq v t = true ->
    c.2 !! p = Some x -> c.1 ∈ b_mean.*1 ->
    c'.2 !! p
    = Some (Flt (rescale (series_get c.1 f_mean) (series_get c.1 b_mean)
                   (series_get c.1 (scale_factor f_std b_std)) (to_float x))).

Module More.

Import Example.

(** A nodes table without a session column. *)
Definition nodes_plain : DataFrame :=
  mkDF (range_index 4)
    [("Unnamed: 0", [Int 0; Int 1; Int 2; Int 3]);
     ("subjectID", [Str "A"; Str "A"; Str "B"; Str "B"]);
     ("tractID", [Str "CST"; Str "CST"; Str "CST"; Str "CST"]);
     ("nodeID", [Int 0; Int 1; Int 0; Int 1]);
     ("fa", [F 5; F 6; F 7; F 8])].

(** A nodes file that carries a session column. *)
Definition nodes_table_sessions : list (string * list value) :=
  [("subjectID", [Str "A"; Str "A"]);
   ("sessionID", [Int 1; Int 1]);
   ("tractID", [Str "CST"; Str "CST"]);
   ("nodeID", [Int 0; Int 1]);
   ("fa", [F 5; F 6])].

(** A subjects file whose row index starts at one. *)
Definition subjects_one_based : list (string * list value) :=
  [("", [Int 1; Int 2]);
   ("subjectID", [Str "A"; Str "B"]);
   ("age", [Int 20; Int 30])].

(** The example world with some of its files replaced or removed. *)
Definition world_with (nodes : option FileContent)
    (subjects : option FileContent) (streamlines : option FileContent)
  : World :=
  mkWorld {[ "/in" := 1%nat; "/out" := 2%nat ]}
    (let with_file p (c : option FileContent) (m : gmap string FileContent) :=
       match c with Some x => <[p := x]> m | None => m end in
     with_file "/in/nodes.csv" nodes
       (with_file "/in/subjects.csv" subjects
          (with_file "/in/streamlines.json" streamlines
             {[ "/in/params.json" := DataFile "{}" ]})))
    [].

(** The nodes table of the example directory as a frame, and the synthetic
    rows of the coefficients 1 and 3. *)
Definition nodes_frame : DataFrame := mkDF (range_index 4) nodes_table.

Definition synthetic_rows : DataFrame :=
  mkDF [Int 0; Int 1]
    [("subjectID", [Str "beta_hat"; Str "beta_hat"]);
     ("tractID", [Str "CST"; Str "CST"]);
     ("nodeID", [Int 0; Int 1]);
     ("fa", [F 1; F 3])].

End More.

(** * Properties *)

Lemma for_each_cons {A S} (body : A -> S -> result S) x xs st :
  for_each body (x :: xs) st = body x st ≫= for_each body xs.
Proof. reflexivity. Qed.

Section LoadProperties.

Context (float_repr : float64 -> string).
Context (fit_transform : DataFrame -> result MapperFit).


Lemma load_afq_data_supervised args nodes_csv subjects_csv nodes sessions fit :
  unsupervised args = false ->
  prepare_nodes float_repr args nodes_csv = Ok (nodes, sessions) ->
  fit_transform nodes = Ok fit ->
  load_afq_data float_repr fit_transform args nodes_csv subjects_csv =
    '(y, classes) ← load_targets args (subjects_ fit) subjects_csv;
    Ok (mkOut (fit_X fit) (Some y) (groups_ fit) (feature_names_ fit)
          (group_names_of (feature_names_ fit)) (subjects_ fit)
          (if return_sessions args then Some sessions else None)
          (Some classes)).
Proof.
  intros Hu Hp Hf. unfold load_afq_data. rewrite Hp. simpl. rewrite Hf. simpl.
  rewrite Hu. reflexivity.
Qed.

Lemma load_targets_without_target_cols args subjects subjects_csv :
  target_cols args = None ->
  exists e, load_targets args subjects subjects_csv = Err e /\
    forall targets, align_targets args subjects subjects_csv = Ok targets ->
      e = match label_encode_cols args with
          | None => UnboundLocalError "y"
          | Some _ => TypeError "'NoneType' object is not iterable"
          end.
Proof.
  intros Ht. unfold load_targets.
  destruct (align_targets args subjects subjects_csv) as [t|e]; simpl.
  - unfold select_targets, label_encode. rewrite Ht. simpl.
    destruct (label_encode_cols args); simpl; eexists; split; eauto.
  - exists e. split; [done | intros ? [=]].
Qed.

(** C10, amended.  A supervised call without [target_cols] never returns.
    Once the nodes are pivoted and the phenotype table is aligned, it raises
    the unbound-variable error for [y] when [label_encode_cols] is omitted
    too, and a [TypeError] from [set(None)] when [label_encode_cols] is
    given. *)
Theorem load_afq_data_target_cols_omitted args nodes_csv subjects_csv :
  unsupervised args = false ->
  target_cols args = None ->
  (exists e, load_afq_data float_repr fit_transform args nodes_csv subjects_csv = Err e) /\
  (forall nodes sessions fit targets,
     prepare_nodes float_repr args nodes_csv = Ok (nodes, sessions) ->
     fit_transform nodes = Ok fit ->
     align_targets args (subjects_ fit) subjects_csv = Ok targets ->
     load_afq_data float_repr fit_transform args nodes_csv subjects_csv =
       Err (match label_encode_cols args with
            | None => UnboundLocalError "y"
            | Some _ => TypeError "'NoneType' object is not iterable"
            end)).
Proof.
  intros Hu Ht. split.
  - destruct (prepare_nodes float_repr args nodes_csv) as [[nodes sessions]|e] eqn:Hp.
    + destruct (fit_transform nodes) as [fit|e] eqn:Hf.
      * rewrite (load_afq_data_supervised _ _ _ _ _ _ Hu Hp Hf).
        destruct (load_targets_without_target_cols args (subjects_ fit)
                    subjects_csv Ht) as (e & -> & _).
        eauto.
      * exists e. unfold load_afq_data. rewrite Hp. simpl. rewrite Hf. done.
    + exists e. unfold load_afq_data. rewrite Hp. done.
  - intros nodes sessions fit targets Hp Hf Ha.
    rewrite (load_afq_data_supervised _ _ _ _ _ _ Hu Hp Hf).
    destruct (load_targets_without_target_cols args (subjects_ fit)
                subjects_csv Ht) as (e & -> & He).
    simpl. f_equal. eauto.
Qed.

End LoadProperties.

Lemma encode_column_error col st e :
  encode_column col st = Err e -> raised_by_encoder e.
Proof.
  destruct st as [[[yf|] le] classes]; simpl; [|intros [= <-]; exact I].
  destruct (cols_named col yf) as [|c [|c' cs]]; [intros [= <-]; exact I| |intros [= <-]; reflexivity].
  unfold LabelEncoder_fit_transform, unique_values.
  destruct (uniform _); simpl; [discriminate | intros [= <-]; exact I].
Qed.

Lemma for_each_encode_error cols st e :
  for_each encode_column cols st = Err e -> raised_by_encoder e.
Proof.
  revert st. induction cols as [|col cols IH]; intros st; simpl; [discriminate|].
  destruct (encode_column col st) as [st'|e'] eqn:Hc; simpl.
  - apply IH.
  - intros [= <-]. eapply encode_column_error; eauto.
Qed.

Lemma subset_message_not_encoder lec :
  ~ raised_by_encoder (ValueError (subset_message lec)).
Proof. simpl. unfold subset_message. simpl. discriminate. Qed.

Lemma set_index_col_error name raw e lec :
  set_index_col name raw = Err e -> e <> ValueError (subset_message lec).
Proof.
  unfold set_index_col. destruct (cols_named name raw); [|discriminate].
  intros [= <-]. unfold subset_message. simpl. discriminate.
Qed.

Lemma select_cols_error names df e :
  select_cols names df = Err e -> exists k, e = KeyError k /\ k ∈ names /\ k ∉ columns df.
Proof.
  induction names as [|n names IH]; simpl; [discriminate|].
  destruct (cols_named n df) as [|c cs] eqn:Hn.
  - intros [= <-]. exists n. split; [done|]. split; [left|].
    intros Hin. unfold columns in Hin. apply list_elem_of_fmap in Hin as ([n' d] & -> & Hin).
    assert (Hc : (n', d) ∈ cols_named n' df) by (apply list_elem_of_filter; done).
    simpl in Hn. rewrite Hn in Hc. by apply not_elem_of_nil in Hc.
  - destruct (select_cols names df) as [rest|e'] eqn:Hs; simpl; [discriminate|].
    intros [= <-]. destruct (IH eq_refl) as (k & -> & Hk & Hnk).
    exists k. split; [done|]. split; [by right|done].
Qed.

Section LoadValidation.

Context (float_repr : float64 -> string).
Context (fit_transform : DataFrame -> result MapperFit).

Lemma label_encode_not_subset args y lec tc :
  label_encode_cols args = Some lec ->
  target_cols args = Some tc ->
  ~ lec ⊆ tc ->
  label_encode args y = Err (ValueError (subset_message lec)).
Proof.
  intros Hl Ht Hn. unfold label_encode. rewrite Hl, Ht. simpl.
  rewrite bool_decide_eq_false_2 by done. reflexivity.
Qed.

Lemma label_encode_subset args y lec tc :
  label_encode_cols args = Some lec ->
  target_cols args = Some tc ->
  lec ⊆ tc ->
  label_encode args y <> Err (ValueError (subset_message lec)).
Proof.
  intros Hl Ht Hs. unfold label_encode. rewrite Hl, Ht. simpl.
  rewrite bool_decide_eq_true_2 by done.
  destruct (for_each encode_column lec (y, LabelEncoder_new, ∅))
    as [[[y' le] cl]|e] eqn:Hf; simpl; [discriminate|].
  intros [= ->]. apply for_each_encode_error in Hf.
  by apply subset_message_not_encoder in Hf.
Qed.

Lemma load_targets_subset args subjects subjects_csv lec tc :
  label_encode_cols args = Some lec ->
  target_cols args = Some tc ->
  lec ⊆ tc ->
  load_targets args subjects subjects_csv <> Err (ValueError (subset_message lec)).
Proof.
  intros Hl Ht Hs. unfold load_targets.
  destruct (align_targets args subjects subjects_csv) as [t|e] eqn:Ha; simpl.
  - unfold select_targets. rewrite Ht.
    destruct (getitem_list t tc) as [y|e] eqn:Hg; simpl.
    + pose proof (label_encode_subset args (Some y) lec tc Hl Ht Hs) as Hne.
      destruct (label_encode args (Some y)) as [[y' cl]|e]; simpl.
      * destruct y'; simpl; discriminate.
      * congruence.
    + unfold getitem_list in Hg.
      destruct (select_cols tc t) as [cs|e'] eqn:Hsel; simpl in Hg; [discriminate|].
      injection Hg as <-. apply select_cols_error in Hsel as (k & -> & _). discriminate.
  - unfold align_targets in Ha.
    destruct (set_index_col (index_col args) subjects_csv) as [t|e'] eqn:Hi;
      simpl in Ha; [discriminate|].
    injection Ha as <-. intros [= ->]. by eapply set_index_col_error.
Qed.

End LoadValidation.

Section LoadValidationTheorem.

Context (float_repr : float64 -> string).
Context (fit_transform : DataFrame -> result MapperFit).

(** C2.  When [label_encode_cols] is not a subset of [target_cols] the call
    fails, and it fails with the [ValueError] of the check as soon as the
    target columns have been selected; when it is a subset the call does
    not raise that error. *)
Theorem label_encode_cols_must_be_subset args nodes_csv subjects_csv lec tc :
  unsupervised args = false ->
  label_encode_cols args = Some lec ->
  target_cols args = Some tc ->
  (~ lec ⊆ tc ->
     (exists e, load_afq_data float_repr fit_transform args nodes_csv subjects_csv
                = Err e) /\
     (forall nodes sessions fit targets y,
        prepare_nodes float_repr args nodes_csv = Ok (nodes, sessions) ->
        fit_transform nodes = Ok fit ->
        align_targets args (subjects_ fit) subjects_csv = Ok targets ->
        getitem_list targets tc = Ok y ->
        load_afq_data float_repr fit_transform args nodes_csv subjects_csv
        = Err (ValueError (subset_message lec)))) /\
  (lec ⊆ tc ->
     forall nodes sessions fit,
       prepare_nodes float_repr args nodes_csv = Ok (nodes, sessions) ->
       fit_transform nodes = Ok fit ->
       load_afq_data float_repr fit_transform args nodes_csv subjects_csv
       <> Err (ValueError (subset_message lec))).
Proof.
  intros Hu Hl Ht. split.
  - intros Hn. split.
    + destruct (prepare_nodes float_repr args nodes_csv) as [[nodes sessions]|e] eqn:Hp;
        [|exists e; unfold load_afq_data; by rewrite Hp].
      destruct (fit_transform nodes) as [fit|e] eqn:Hf;
        [|exists e; unfold load_afq_data; rewrite Hp; simpl; by rewrite Hf].
      rewrite (load_afq_data_supervised _ _ _ _ _ _ _ _ Hu Hp Hf).
      unfold load_targets.
      destruct (align_targets _ _ _) as [t|e]; simpl; [|eauto].
      destruct (select_targets args t) as [y|e]; simpl; [|eauto].
      rewrite (label_encode_not_subset _ _ _ _ Hl Ht Hn). simpl. eauto.
    + intros nodes sessions fit targets y Hp Hf Ha Hg.
      rewrite (load_afq_data_supervised _ _ _ _ _ _ _ _ Hu Hp Hf).
      unfold load_targets. rewrite Ha. simpl.
      unfold select_targets. rewrite Ht, Hg. simpl.
      by rewrite (label_encode_not_subset _ _ _ _ Hl Ht Hn).
  - intros Hs nodes sessions fit Hp Hf.
    rewrite (load_afq_data_supervised _ _ _ _ _ _ _ _ Hu Hp Hf).
    pose proof (load_targets_subset args (subjects_ fit) subjects_csv lec tc Hl Ht Hs) as Hne.
    destruct (load_targets args (subjects_ fit) subjects_csv) as [[y cl]|e];
      simpl; [discriminate | congruence].
Qed.

End LoadValidationTheorem.

(** ** The left join *)

Lemma positions_from_spec i key labels p :
  p ∈ positions_from i key labels <->
  exists j, p = (i + j)%nat /\ labels !! j = Some key.
Proof.
  revert i. induction labels as [|l labels IH]; intros i; simpl.
  - split; [intros H; by apply not_elem_of_nil in H | intros (j & _ & H); done].
  - destruct (decide (l = key)) as [->|Hne].
    + rewrite elem_of_cons, IH. split.
      * intros [->|(j & -> & Hj)]; [exists 0%nat | exists (S j)]; split; auto; lia.
      * intros ([|j] & -> & Hj); [left; lia | right; exists j; split; [lia|done]].
    + rewrite IH. split.
      * intros (j & -> & Hj). exists (S j). split; [lia|done].
      * intros ([|j] & -> & Hj); simpl in Hj; [congruence|].
        exists j. split; [lia|done].
Qed.




Lemma NoDup_positions_from i key labels :
  NoDup labels -> (length (positions_from i key labels) <= 1)%nat.
Proof.
  intros Hnd. revert i. induction Hnd as [|l labels Hl Hnd IH]; intros i; simpl; [lia|].
  destruct (decide (l = key)) as [->|]; [|apply IH].
  simpl. destruct (positions_from (S i) key labels) as [|q qs] eqn:Hq; [simpl; lia|].
  exfalso. apply Hl.
  assert (Hin : q ∈ positions_from (S i) key labels) by (rewrite Hq; left).
  apply positions_from_spec in Hin as (j & _ & Hj).
  eapply list_elem_of_lookup_2; eauto.
Qed.

Lemma NoDup_positions key labels :
  NoDup labels -> (length (positions key labels) <= 1)%nat.
Proof. apply NoDup_positions_from. Qed.





(** ** Row labels through the supervised branch *)

Lemma getitem_cols_named df name data :
  getitem df name = Ok data -> exists cs, cols_named name df = (name, data) :: cs.
Proof.
  unfold getitem. destruct (cols_named name df) as [|[n d] cs] eqn:Hc; [discriminate|].
  intros [= <-]. exists cs. f_equal.
  assert (Hin : (n, d) ∈ cols_named name df) by (rewrite Hc; left).
  apply list_elem_of_filter in Hin as [Hn _]. simpl in Hn. by subst.
Qed.

Lemma set_index_col_getitem name raw labels :
  getitem raw name = Ok labels ->
  set_index_col name raw =
    Ok (mkDF labels (filter (fun c : string * list value => c.1 ≠ name) (df_cols raw))).
Proof.
  intros Hg. apply getitem_cols_named in Hg as [cs Hc].
  unfold set_index_col. by rewrite Hc.
Qed.

Lemma getitem_list_index df names y :
  getitem_list df names = Ok y -> df_index y = df_index df.
Proof.
  unfold getitem_list. destruct (select_cols names df); simpl; [|discriminate].
  by intros [= <-].
Qed.

Lemma setitem_index df name data : df_index (setitem df name data) = df_index df.
Proof. unfold setitem. by destruct (has_column df name). Qed.

Lemma encode_column_index col yf le classes st' :
  encode_column col (Some yf, le, classes) = Ok st' ->
  exists yf', st'.1.1 = Some yf' /\ df_index yf' = df_index yf.
Proof.
  simpl. destruct (cols_named col yf) as [|c [|c' cs]]; [discriminate| |discriminate].
  destruct (LabelEncoder_fit_transform le c.2) as [[codes le']|e]; simpl; [|discriminate].
  intros H. inversion H; subst. simpl. eexists. split; [done|]. apply setitem_index.
Qed.

Lemma for_each_encode_index cols yf le classes st' :
  for_each encode_column cols (Some yf, le, classes) = Ok st' ->
  exists yf', st'.1.1 = Some yf' /\ df_index yf' = df_index yf.
Proof.
  revert yf le classes. induction cols as [|col cols IH]; intros yf le classes.
  - intros H. inversion H; subst. eauto.
  - rewrite for_each_cons.
    destruct (encode_column col (Some yf, le, classes)) as [[[y1 le1] cl1]|e] eqn:Hc;
      [|discriminate]. cbn [mbind result_bind].
    apply encode_column_index in Hc as (yf1 & Hy & Hi). simpl in Hy. subst y1.
    intros Hf. apply IH in Hf as (yf' & ? & ?). exists yf'. split; [done|congruence].
Qed.

Lemma label_encode_index args yf y' classes :
  label_encode args (Some yf) = Ok (y', classes) ->
  exists yf', y' = Some yf' /\ df_index yf' = df_index yf.
Proof.
  unfold label_encode. destruct (label_encode_cols args) as [lec|]; [|intros [= <- <-]; eauto].
  destruct (target_cols args) as [tc|]; simpl; [|discriminate].
  destruct (bool_decide (lec ⊆ tc)); [|discriminate].
  destruct (for_each encode_column lec (Some yf, LabelEncoder_new, ∅))
    as [[[y1 le1] cl1]|e] eqn:Hf; simpl; [|discriminate].
  intros [= <- <-]. apply for_each_encode_index in Hf as (yf' & ? & ?). eauto.
Qed.

Lemma load_targets_Ok_inv args subjects subjects_csv y classes :
  load_targets args subjects subjects_csv = Ok (y, classes) ->
  exists targets tc y0 y1,
    target_cols args = Some tc /\
    align_targets args subjects subjects_csv = Ok targets /\
    getitem_list targets tc = Ok y0 /\
    label_encode args (Some y0) = Ok (Some y1, classes) /\
    y = squeeze (to_numpy y1).
Proof.
  unfold load_targets.
  destruct (align_targets args subjects subjects_csv) as [targets|] eqn:Ha; simpl;
    [|discriminate].
  unfold select_targets. destruct (target_cols args) as [tc|] eqn:Ht.
  - destruct (getitem_list targets tc) as [y0|] eqn:Hg; simpl; [|discriminate].
    destruct (label_encode args (Some y0)) as [[y1 cl]|] eqn:Hl; simpl; [|discriminate].
    destruct (label_encode_index _ _ _ _ Hl) as (yf' & -> & _). simpl.
    intros [= <- <-]. exists targets, tc, y0, yf'. done.
  - simpl. unfold label_encode. rewrite Ht.
    destruct (label_encode_cols args); simpl; discriminate.
Qed.

Section LoadInversion.

Context (float_repr : float64 -> string).
Context (fit_transform : DataFrame -> result MapperFit).

Lemma load_afq_data_Ok_inv args nodes_csv subjects_csv out :
  load_afq_data float_repr fit_transform args nodes_csv subjects_csv = Ok out ->
  exists nodes sessions fit,
    prepare_nodes float_repr args nodes_csv = Ok (nodes, sessions) /\
    fit_transform nodes = Ok fit /\
    out_X out = fit_X fit /\
    out_subjects out = subjects_ fit /\
    out_sessions out = (if return_sessions args then Some sessions else None) /\
    (unsupervised args = false ->
     exists y classes,
       load_targets args (subjects_ fit) subjects_csv = Ok (y, classes) /\
       out_y out = Some y /\ out_classes out = Some classes).
Proof.
  unfold load_afq_data.
  destruct (prepare_nodes float_repr args nodes_csv) as [[nodes sessions]|] eqn:Hp;
    simpl; [|discriminate].
  destruct (fit_transform nodes) as [fit|] eqn:Hf; simpl; [|discriminate].
  destruct (unsupervised args).
  - intros [= <-]. exists nodes, sessions, fit. simpl. repeat split; done.
  - destruct (load_targets args (subjects_ fit) subjects_csv) as [[y cl]|] eqn:Ht;
      simpl; [|discriminate].
    intros [= <-]. exists nodes, sessions, fit. simpl. repeat split; eauto.
Qed.

End LoadInversion.


(** ** Columns through drop and selection *)

Lemma elem_of_columns df name :
  name ∈ columns df <-> exists data, (name, data) ∈ df_cols df.
Proof.
  unfold columns. rewrite list_elem_of_fmap. split.
  - intros ([n d] & -> & H). eauto.
  - intros (d & H). exists (name, d). done.
Qed.

Lemma cols_named_nil df name : cols_named name df = [] <-> name ∉ columns df.
Proof.
  rewrite elem_of_columns. split.
  - intros Hnil (d & Hd).
    assert (Hin : (name, d) ∈ cols_named name df) by (by apply list_elem_of_filter).
    rewrite Hnil in Hin. by apply not_elem_of_nil in Hin.
  - intros Hn. destruct (cols_named name df) as [|[n d] cs] eqn:Hc; [done|].
    assert (Hin : (n, d) ∈ cols_named name df) by (rewrite Hc; left).
    apply list_elem_of_filter in Hin as [Heq Hin]. simpl in Heq. subst.
    exfalso. eauto.
Qed.

Lemma cols_named_drop name names df :
  name ∉ names -> cols_named name (drop_columns names df) = cols_named name df.
Proof.
  intros Hn. unfold cols_named, drop_columns. simpl.
  induction (df_cols df) as [|[n d] cs IH]; [done|].
  rewrite !filter_cons. simpl.
  destruct (decide (n ∉ names)) as [Hin|Hin].
  - rewrite filter_cons. simpl. destruct (decide (n = name)); by rewrite IH.
  - destruct (decide (n = name)) as [->|]; [|done].
    exfalso. apply Hin. done.
Qed.

Lemma getitem_drop name names df :
  name ∉ names -> getitem (drop_columns names df) name = getitem df name.
Proof. intros H. unfold getitem. by rewrite cols_named_drop. Qed.

Lemma elem_of_columns_drop names df name :
  name ∈ columns (drop_columns names df) <-> name ∈ columns df /\ name ∉ names.
Proof.
  rewrite !elem_of_columns. unfold drop_columns. simpl. split.
  - intros (d & Hd). apply list_elem_of_filter in Hd as [Hn Hd]. eauto.
  - intros [(d & Hd) Hn]. exists d. by apply list_elem_of_filter.
Qed.

Lemma unnamed_cols_spec df name :
  name ∈ unnamed_cols df -> is_unnamed name = true.
Proof.
  unfold unnamed_cols. rewrite list_elem_of_In, filter_In. tauto.
Qed.

Lemma has_column_true df name : has_column df name = true <-> name ∈ columns df.
Proof. unfold has_column. by rewrite bool_decide_eq_true. Qed.

Lemma getitem_has_column df name data :
  getitem df name = Ok data -> has_column df name = true.
Proof.
  intros Hg. apply has_column_true. apply getitem_cols_named in Hg as [cs Hc].
  destruct (decide (name ∈ columns df)) as [|Hn]; [done|].
  apply cols_named_nil in Hn. congruence.
Qed.

Lemma columns_setitem df name data :
  name ∈ columns df -> columns (setitem df name data) = columns df.
Proof.
  intros Hin. unfold setitem. rewrite (proj2 (has_column_true _ _) Hin).
  unfold columns. simpl. rewrite <- list_fmap_compose.
  apply list_fmap_ext. intros i [n d] _. simpl.
  by destruct (decide (n = name)).
Qed.

Lemma select_cols_members names df cs :
  select_cols names df = Ok cs -> forall c, c ∈ cs -> c ∈ df_cols df.
Proof.
  revert cs. induction names as [|n names IH]; simpl; intros cs.
  - intros [= <-] c Hc. by apply not_elem_of_nil in Hc.
  - destruct (cols_named n df) as [|c0 cs0] eqn:Hn; [discriminate|].
    destruct (select_cols names df) as [rest|]; simpl; [|discriminate].
    intros [= <-] c Hc. change (c ∈ (c0 :: cs0) ++ rest) in Hc.
    apply elem_of_app in Hc as [Hc|Hc]; [|by eapply IH].
    rewrite <- Hn in Hc. by apply list_elem_of_filter in Hc as [_ Hc].
Qed.


(** ** Sessions *)

Lemma sessionID_not_unnamed df : "sessionID" ∉ unnamed_cols df.
Proof. intros H. apply unnamed_cols_spec in H. discriminate. Qed.

Lemma getitem_list_columns df names y name :
  getitem_list df names = Ok y -> name ∈ columns y -> name ∈ columns df.
Proof.
  unfold getitem_list. destruct (select_cols names df) as [cs|] eqn:Hs; simpl;
    [|discriminate].
  intros [= <-]. rewrite !elem_of_columns. simpl. intros (d & Hd).
  exists d. eapply select_cols_members; eauto.
Qed.

Section Sessions.

Context (float_repr : float64 -> string).
Context (fit_transform : DataFrame -> result MapperFit).

Lemma prepare_nodes_sessions args nodes_csv ses nodes sessions :
  getitem nodes_csv "sessionID" = Ok ses ->
  prepare_nodes float_repr args nodes_csv = Ok (nodes, sessions) ->
  sessions = Some ses /\ "sessionID" ∉ columns nodes.
Proof.
  intros Hg. unfold prepare_nodes.
  set (nodes0 := drop_columns (unnamed_cols nodes_csv) nodes_csv).
  assert (Hg0 : getitem nodes0 "sessionID" = Ok ses).
  { unfold nodes0. rewrite getitem_drop; [done | apply sessionID_not_unnamed]. }
  rewrite (getitem_has_column _ _ _ Hg0), Hg0. cbn [mbind result_bind].
  match goal with
  | |- context [if concat_subject_session args then ?a else ?b] =>
      destruct (if concat_subject_session args then a else b) as [nodes1|]
  end; cbn [mbind result_bind]; [|discriminate].
  assert (Hdrop : "sessionID" ∉ columns (drop_columns ["sessionID"] nodes1)).
  { rewrite elem_of_columns_drop. intros [_ H]. apply H. left. }
  destruct (dwi_metrics args) as [ms|].
  - destruct (getitem_list _ _) as [nodes3|] eqn:Hsel; cbn [mbind result_bind];
      [|discriminate].
    intros [= <- <-]. split; [done|].
    intros Hin. apply Hdrop. eapply getitem_list_columns; eauto.
  - cbn [mbind result_bind]. intros [= <- <-]. done.
Qed.

(** C9, amended.  For a nodes table with a sessionID column and
    [return_sessions] set, the table handed to the mapper has no sessionID
    column, and the sessions returned are the sessionID column of the nodes
    table as read: one entry per long-format row, in file order. *)
Theorem sessions_are_the_long_format_column args nodes_csv subjects_csv ses :
  getitem nodes_csv "sessionID" = Ok ses ->
  return_sessions args = true ->
  (forall nodes sessions,
     prepare_nodes float_repr args nodes_csv = Ok (nodes, sessions) ->
     sessions = Some ses /\ "sessionID" ∉ columns nodes) /\
  (forall out,
     load_afq_data float_repr fit_transform args nodes_csv subjects_csv = Ok out ->
     out_sessions out = Some (Some ses) /\
     exists nodes fit,
       fit_transform nodes = Ok fit /\ ("sessionID" ∉ columns nodes) /\
       out_X out = fit_X fit /\ out_subjects out = subjects_ fit) /\
  (concat_subject_session args = false -> dwi_metrics args = None ->
   exists nodes, prepare_nodes float_repr args nodes_csv = Ok (nodes, Some ses)).
Proof.
  intros Hg Hr. split; [|split].
  - intros nodes sessions. by apply prepare_nodes_sessions.
  - intros out Hload.
    apply load_afq_data_Ok_inv in Hload
      as (nodes & sessions & fit & Hp & Hf & HX & Hsub & Hses & _).
    destruct (prepare_nodes_sessions _ _ _ _ _ Hg Hp) as [-> Hn].
    rewrite Hr in Hses. split; [done|]. exists nodes, fit. done.
  - intros Hc Hd. unfold prepare_nodes. rewrite Hc, Hd.
    set (nodes0 := drop_columns (unnamed_cols nodes_csv) nodes_csv).
    assert (Hg0 : getitem nodes0 "sessionID" = Ok ses).
    { unfold nodes0. rewrite getitem_drop; [done | apply sessionID_not_unnamed]. }
    rewrite (getitem_has_column _ _ _ Hg0), Hg0. cbn [mbind result_bind].
    eauto.
Qed.

End Sessions.

(** ** Metric selection *)


Lemma cols_named_unique df name data :
  NoDup (columns df) -> (name, data) ∈ df_cols df ->
  cols_named name df = [(name, data)].
Proof.
  unfold cols_named, columns.
  induction (df_cols df) as [|[n d] cs IH]; intros Hnd Hin.
  - by apply not_elem_of_nil in Hin.
  - rewrite fmap_cons in Hnd. apply NoDup_cons in Hnd as [Hn Hnd]. simpl in Hn.
    rewrite filter_cons. simpl. apply elem_of_cons in Hin as [[= <- <-]|Hin].
    + rewrite decide_True by done. f_equal.
      destruct (filter (fun c : string * list value => c.1 = name) cs)
        as [|[n' d'] cs'] eqn:Hf; [done|].
      assert (Hc : (n', d') ∈ filter (fun c : string * list value => c.1 = name) cs)
        by (rewrite Hf; left).
      apply list_elem_of_filter in Hc as [Heq Hc]. simpl in Heq. subst n'.
      exfalso. apply Hn. apply list_elem_of_fmap. by exists (name, d').
    + destruct (decide (n = name)) as [->|]; [|by apply IH].
      exfalso. apply Hn. apply list_elem_of_fmap. by exists (name, data).
Qed.

Lemma select_cols_present names df :
  NoDup (columns df) ->
  (forall n, n ∈ names -> n ∈ columns df) ->
  exists cs, select_cols names df = Ok cs /\ cs.*1 = names /\
             forall c, c ∈ cs -> c ∈ df_cols df.
Proof.
  intros Hnd. induction names as [|n names IH]; intros Hall.
  - exists []. split; [done|]. split; [done|]. intros c Hc. by apply not_elem_of_nil in Hc.
  - destruct IH as (rest & Hrest & Hnames & Hmem).
    { intros m Hm. apply Hall. by right. }
    assert (Hn : n ∈ columns df) by (apply Hall; left).
    apply elem_of_columns in Hn as (d & Hd).
    exists ((n, d) :: rest). simpl.
    rewrite (cols_named_unique _ _ _ Hnd Hd), Hrest.
    split; [done|]. split; [change (n :: rest.*1 = n :: names); by rewrite Hnames|].
    intros c Hc. apply elem_of_cons in Hc as [->|Hc]; auto.
Qed.

Lemma select_cols_absent names df m :
  m ∈ names -> m ∉ columns df ->
  exists k, select_cols names df = Err (KeyError k) /\ k ∈ names /\ k ∉ columns df.
Proof.
  intros Hm Hn.
  destruct (select_cols names df) as [cs|e] eqn:Hs.
  - exfalso. revert cs Hs. induction names as [|n names IH]; intros cs; simpl.
    + by apply not_elem_of_nil in Hm.
    + destruct (cols_named n df) as [|c0 cs0] eqn:Hc; [discriminate|].
      destruct (select_cols names df) as [rest|]; simpl; [|discriminate].
      intros _. apply elem_of_cons in Hm as [->|Hm].
      * apply cols_named_nil in Hn. congruence.
      * by eapply IH.
  - apply select_cols_error in Hs as (k & -> & ? & ?). eauto.
Qed.


Section MetricSelection.

Context (float_repr : float64 -> string).
Context (fit_transform : DataFrame -> result MapperFit).








End MetricSelection.

(** ** Ascending lists without repetition *)


Section SortedUnique.

Context {A : Type} (cmp : A -> A -> comparison) `{!OrderCompare cmp}.


Lemma cmp_refl x : cmp x x = Eq.
Proof. by apply compare_eq. Qed.

Lemma cmp_lt_irrefl x : ~ cmp_lt cmp x x.
Proof. unfold cmp_lt. rewrite cmp_refl. discriminate. Qed.

Lemma cmp_gt_lt x y : cmp x y = Gt -> cmp_lt cmp y x.
Proof. unfold cmp_lt. intros H. rewrite compare_antisym, H. done. Qed.

Lemma elem_of_insert_unique x l z :
  z ∈ insert_unique cmp x l <-> z = x \/ z ∈ l.
Proof.
  induction l as [|y l IH]; simpl.
  - rewrite list_elem_of_singleton, elem_of_nil. tauto.
  - destruct (cmp x y) eqn:Hc.
    + apply compare_eq in Hc as ->. rewrite elem_of_cons. tauto.
    + rewrite !elem_of_cons. tauto.
    + rewrite !elem_of_cons, IH. tauto.
Qed.

Lemma insert_unique_sorted x l :
  StronglySorted (cmp_lt cmp) l -> StronglySorted (cmp_lt cmp) (insert_unique cmp x l).
Proof.
  induction 1 as [|y l Hs IH Hy]; simpl.
  - repeat constructor.
  - destruct (cmp x y) eqn:Hc.
    + by constructor.
    + constructor; [by constructor|]. constructor; [done|].
      eapply Forall_impl; [exact Hy|]. intros z Hz. eapply compare_trans; eauto.
    + constructor; [done|]. apply Forall_forall. intros z Hz.
      apply elem_of_insert_unique in Hz as [->|Hz].
      * by apply cmp_gt_lt.
      * rewrite Forall_forall in Hy. auto.
Qed.

Lemma elem_of_sorted_unique l z : z ∈ sorted_unique cmp l <-> z ∈ l.
Proof.
  unfold sorted_unique. induction l as [|x l IH]; simpl; [done|].
  rewrite elem_of_insert_unique, elem_of_cons, IH. done.
Qed.

Lemma sorted_unique_sorted l : StronglySorted (cmp_lt cmp) (sorted_unique cmp l).
Proof.
  unfold sorted_unique. induction l as [|x l IH]; simpl; [constructor|].
  by apply insert_unique_sorted.
Qed.

Lemma sorted_NoDup l : StronglySorted (cmp_lt cmp) l -> NoDup l.
Proof.
  induction 1 as [|y l Hs IH Hy]; constructor; [|done].
  intros Hin. rewrite Forall_forall in Hy. by apply (cmp_lt_irrefl y), Hy.
Qed.

Lemma sorted_unique_NoDup l : NoDup (sorted_unique cmp l).
Proof. apply sorted_NoDup, sorted_unique_sorted. Qed.

End SortedUnique.

(** Insertion commutes with an embedding that preserves the ordering. *)
Lemma insert_unique_fmap {A B} (f : A -> B) cmpA cmpB x l :
  (forall a b, cmpB (f a) (f b) = cmpA a b) ->
  insert_unique cmpB (f x) (f <$> l) = f <$> insert_unique cmpA x l.
Proof.
  intros H. induction l as [|y l IH]; [done|].
  cbn [fmap list_fmap insert_unique]. rewrite H.
  destruct (cmpA x y); [done|done|]. by rewrite IH.
Qed.

Lemma sorted_unique_fmap {A B} (f : A -> B) cmpA cmpB l :
  (forall a b, cmpB (f a) (f b) = cmpA a b) ->
  sorted_unique cmpB (f <$> l) = f <$> sorted_unique cmpA l.
Proof.
  intros H. unfold sorted_unique. induction l as [|x l IH]; [done|].
  cbn [fmap list_fmap foldr]. rewrite IH. by apply insert_unique_fmap.
Qed.

#[global] Instance Z_order_compare : OrderCompare Z.compare.
Proof.
  split.
  - apply Z.compare_eq_iff.
  - intros x y. apply Z.compare_antisym.
  - intros x y z. rewrite !Z.compare_lt_iff. lia.
Qed.

Lemma string_compare_lt s t :
  String.compare s t = Lt <-> OrderedTypeEx.String_as_OT.lt s t.
Proof. apply OrderedTypeEx.String_as_OT.cmp_lt. Qed.

#[global] Instance string_order_compare : OrderCompare String.compare.
Proof.
  split.
  - intros x y. split; [apply String.compare_eq_iff | intros ->].
    apply OrderedTypeEx.String_as_OT.cmp_eq. done.
  - apply String.compare_antisym.
  - intros x y z. rewrite !string_compare_lt.
    apply OrderedTypeEx.String_as_OT.lt_trans.
Qed.

#[global] Instance pair_order_compare : OrderCompare pair_compare.
Proof.
  split.
  - intros [s x] [t y]. unfold pair_compare. simpl.
    destruct (String.compare s t) eqn:Hc.
    + apply compare_eq in Hc as ->. rewrite Z.compare_eq_iff.
      split; [by intros -> | by intros [= ->]].
    + split; [discriminate | intros [= -> ->]].
      rewrite cmp_refl in Hc; [discriminate | apply _].
    + split; [discriminate | intros [= -> ->]].
      rewrite cmp_refl in Hc; [discriminate | apply _].
  - intros [s x] [t y]. unfold pair_compare. simpl.
    rewrite (compare_antisym (cmp := String.compare) s t).
    destruct (String.compare t s); simpl; [apply (Z.compare_antisym y x)|done|done].
  - intros [s x] [t y] [u z]. unfold pair_compare. simpl.
    destruct (String.compare s t) eqn:Hst; [|
      |discriminate].
    + apply compare_eq in Hst as ->.
      destruct (String.compare t u); [|done|discriminate].
      rewrite !Z.compare_lt_iff. lia.
    + intros _. destruct (String.compare t u) eqn:Htu; [| |discriminate].
      * apply compare_eq in Htu as ->. by rewrite Hst.
      * by rewrite (compare_trans (cmp := String.compare) s t u Hst Htu).
Qed.

(** ** The label encoder on a categorical column *)

Lemma is_missing_NaN v : is_missing v = true <-> v = NaN.
Proof.
  split; [|by intros ->]. destruct v as [| |[]]; simpl; try discriminate. done.
Qed.

Lemma existsb_is_missing col : existsb is_missing col = true <-> NaN ∈ col.
Proof.
  rewrite existsb_exists. split.
  - intros (v & Hin & Hv). apply is_missing_NaN in Hv as ->.
    by apply list_elem_of_In.
  - intros Hin. exists NaN. split; [by apply list_elem_of_In|done].
Qed.

Lemma index_of_lookup classes v :
  (forall c, c ∈ classes -> same_value v c = true -> c = v) ->
  v ∈ classes -> classes !! index_of v classes = Some v.
Proof.
  induction classes as [|c classes IH]; intros Hr Hin.
  - by apply not_elem_of_nil in Hin.
  - simpl. destruct (same_value v c) eqn:Hs.
    + simpl. f_equal. apply Hr; [left|done].
    + simpl. apply IH.
      * intros c' Hc'. apply Hr. by right.
      * apply elem_of_cons in Hin as [->|Hin]; [|done].
        exfalso. revert Hs. unfold same_value.
        destruct (is_missing c) eqn:Hm; [done|]. simpl.
        assert (Hrefl : forall x, is_missing x = false -> value_compare x x = Eq).
        { intros [z|s|f] Hx; simpl.
          - apply Z.compare_refl.
          - apply (cmp_refl String.compare).
          - clear -Hx. destruct f as [[]|[]| |[] m e]; simpl in *; try done;
              unfold SFcompare; rewrite ?Z.compare_refl, ?Pos.compare_refl;
              try done; simpl; by rewrite ?Pos.compare_cont_refl, ?Pos.compare_refl. }
        rewrite Hrefl by done. by rewrite bool_decide_eq_true_2.
Qed.

Lemma decode_index_of classes v :
  decode classes (Int (Z.of_nat (index_of v classes)))
  = classes !! index_of v classes.
Proof.
  unfold decode. rewrite decide_True by lia. by rewrite Nat2Z.id.
Qed.

Section Embedded.

(** Cells of one kind: the image of [f], ordered by [cmp]. *)
Context {A : Type} (f : A -> value) (cmp : A -> A -> comparison).
Context `{!OrderCompare cmp}.
Context (f_compare : forall a b, value_compare (f a) (f b) = cmp a b).
Context (f_present : forall a, is_missing (f a) = false).
Context (f_uniform : forall l, uniform (f <$> l) = true).


Lemma f_inj a b : f a = f b -> a = b.
Proof.
  intros H. apply (compare_eq (cmp := cmp)). rewrite <- f_compare, H, f_compare.
  apply cmp_refl. done.
Qed.

Lemma present_of_kind col :
  Forall (of_kind f) col ->
  exists l, List.filter (fun v => negb (is_missing v)) col = f <$> l /\
            forall a, a ∈ l <-> f a ∈ col.
Proof.
  induction 1 as [|v col Hv _ (l & Hl & Hmem)].
  - exists []. split; [done|]. intros a. rewrite !elem_of_nil. done.
  - destruct Hv as [Hv|(a & ->)].
    + exists l. simpl. rewrite Hv. simpl. split; [done|].
      intros a. rewrite elem_of_cons, Hmem. apply is_missing_NaN in Hv as ->.
      split; [tauto|]. intros [Ha|Ha]; [|done].
      pose proof (f_present a) as Hp. rewrite Ha in Hp. done.
    + exists (a :: l). simpl. rewrite f_present. simpl. rewrite Hl.
      split; [done|]. intros b. rewrite !elem_of_cons, Hmem.
      split; intros [Hb|Hb]; auto; left; [by subst | by apply f_inj].
Qed.

Lemma same_value_of_kind v c :
  of_kind f v -> of_kind f c -> same_value v c = true -> c = v.
Proof.
  unfold same_value. intros [Hv|(a & ->)] Hc.
  - rewrite Hv. intros Hm. apply is_missing_NaN in Hv, Hm. congruence.
  - rewrite f_present. destruct Hc as [Hc|(b & ->)].
    + by rewrite Hc.
    + rewrite f_present, f_compare. simpl. rewrite bool_decide_eq_true.
      intros H. apply compare_eq in H. by subst.
Qed.

Lemma unique_values_of_kind col :
  Forall (of_kind f) col ->
  exists classes,
    unique_values col = Ok classes /\
    (forall v, v ∈ classes <-> v ∈ col) /\
    StronglySorted class_lt classes /\
    NoDup classes /\
    Forall2 (fun code v => decode classes code = Some v)
            (codes_of classes col) col.
Proof.
  intros Hcol. destruct (present_of_kind col Hcol) as (l & Hl & Hmem).
  unfold unique_values. rewrite Hl, f_uniform.
  rewrite (sorted_unique_fmap f cmp value_compare l f_compare).
  set (su := sorted_unique cmp l).
  set (tail := if existsb is_missing col then [NaN] else []).
  assert (Htail : forall v, v ∈ tail <-> v = NaN /\ NaN ∈ col).
  { intros v. unfold tail. destruct (existsb is_missing col) eqn:He.
    - apply existsb_is_missing in He. rewrite list_elem_of_singleton. tauto.
    - rewrite elem_of_nil. split; [done|]. intros [_ Hin].
      apply existsb_is_missing in Hin. congruence. }
  assert (Hin : forall v, v ∈ (f <$> su) ++ tail <-> v ∈ col).
  { intros v. rewrite elem_of_app, Htail, list_elem_of_fmap. split.
    - intros [(a & -> & Ha)|[-> Hn]]; [|done].
      apply Hmem. unfold su in Ha. by rewrite (elem_of_sorted_unique cmp) in Ha.
    - intros Hv. rewrite Forall_forall in Hcol.
      destruct (Hcol v Hv) as [Hm|(a & ->)].
      + apply is_missing_NaN in Hm as ->. by right.
      + left. exists a. split; [done|]. unfold su.
        rewrite (elem_of_sorted_unique cmp). by apply Hmem. }
  assert (Hsorted : StronglySorted class_lt ((f <$> su) ++ tail)).
  { apply StronglySorted_app_2.
    - intros x1 x2 Hx1 Hx2. apply list_elem_of_fmap in Hx1 as (a & -> & _).
      apply Htail in Hx2 as [-> _]. split; [apply f_present | by left].
    - apply (StronglySorted_fmap f (cmp_lt cmp)); [|apply sorted_unique_sorted; done].
      intros x y Hxy. split; [apply f_present|]. right. by rewrite f_compare.
    - unfold tail. destruct (existsb is_missing col); repeat constructor. }
  assert (Hnd : NoDup ((f <$> su) ++ tail)).
  { apply NoDup_app. split; [|split].
    - apply NoDup_fmap_2; [intros a b; apply f_inj | by apply sorted_unique_NoDup].
    - intros v Hv Ht. apply list_elem_of_fmap in Hv as (a & -> & _).
      apply Htail in Ht as [Ht _]. pose proof (f_present a) as Hp.
      rewrite Ht in Hp. done.
    - unfold tail. destruct (existsb is_missing col); repeat constructor.
      apply not_elem_of_nil. }
  eexists. split; [reflexivity|]. split; [done|]. split; [done|]. split; [done|].
  unfold codes_of. apply Forall2_fmap_l, Forall_Forall2_diag, Forall_forall.
  intros v Hv. unfold compose. cbv beta.
  rewrite decode_index_of. apply index_of_lookup; [|by apply Hin].
  intros c Hc. apply same_value_of_kind.
  - rewrite Forall_forall in Hcol. auto.
  - apply Hin in Hc. rewrite Forall_forall in Hcol. auto.
Qed.

End Embedded.

Lemma uniform_Str l : uniform (Str <$> l) = true.
Proof.
  unfold uniform. apply orb_true_intro. left. apply forallb_forall.
  intros v Hv. apply list_elem_of_In, list_elem_of_fmap in Hv as (s & -> & _). done.
Qed.

Lemma uniform_Int l : uniform (Int <$> l) = true.
Proof.
  unfold uniform. apply orb_true_intro. right. apply forallb_forall.
  intros v Hv. apply list_elem_of_In, list_elem_of_fmap in Hv as (s & -> & _). done.
Qed.

Lemma unique_values_categorical col :
  categorical_column col ->
  exists classes,
    unique_values col = Ok classes /\
    (forall v, v ∈ classes <-> v ∈ col) /\
    StronglySorted class_lt classes /\
    NoDup classes /\
    Forall2 (fun code v => decode classes code = Some v)
            (codes_of classes col) col.
Proof.
  intros [H|H].
  - apply (unique_values_of_kind Str String.compare); auto using uniform_Str.
    eapply Forall_impl; [exact H|]. intros v [Hv|Hv]; [by left|right].
    destruct v; try discriminate. eauto.
  - apply (unique_values_of_kind Int Z.compare); auto using uniform_Int.
    eapply Forall_impl; [exact H|]. intros v Hv. right.
    destruct v; try discriminate. eauto.
Qed.

(** ** The label encoding loop *)

Lemma filter_replace_same (col : string) (d : list value)
    (l : list (string * list value)) :
  filter (fun c : string * list value => c.1 = col)
    (map (fun c : string * list value =>
            if decide (c.1 = col) then (col, d) else c) l)
  = map (fun _ => (col, d)) (filter (fun c : string * list value => c.1 = col) l).
Proof.
  induction l as [|[n x] l IH]; [done|].
  cbn [map]. rewrite !filter_cons. simpl.
  destruct (decide (n = col)) as [->|Hn]; simpl.
  - rewrite decide_True by done. by rewrite IH.
  - rewrite decide_False by done. done.
Qed.

Lemma filter_replace_other (col c' : string) (d : list value)
    (l : list (string * list value)) :
  c' <> col ->
  filter (fun c : string * list value => c.1 = c')
    (map (fun c : string * list value =>
            if decide (c.1 = col) then (col, d) else c) l)
  = filter (fun c : string * list value => c.1 = c') l.
Proof.
  intros Hne. induction l as [|[n x] l IH]; [done|].
  cbn [map]. rewrite !filter_cons. simpl.
  destruct (decide (n = col)) as [->|Hn]; simpl.
  - rewrite !decide_False by done. done.
  - destruct (decide (n = c')); by rewrite IH.
Qed.

Lemma cols_named_setitem_same y col d data :
  cols_named col y = [(col, data)] ->
  cols_named col (setitem y col d) = [(col, d)].
Proof.
  intros Hc. unfold setitem.
  assert (Hh : has_column y col = true).
  { apply has_column_true. destruct (decide (col ∈ columns y)) as [|Hn]; [done|].
    apply cols_named_nil in Hn. congruence. }
  rewrite Hh. unfold cols_named in *. simpl.
  by rewrite filter_replace_same, Hc.
Qed.

Lemma cols_named_setitem_other y col c d :
  c <> col -> cols_named c (setitem y col d) = cols_named c y.
Proof.
  intros Hne. unfold setitem, cols_named. destruct (has_column y col); simpl.
  - by apply filter_replace_other.
  - rewrite filter_app, filter_cons. simpl. rewrite decide_False by done.
    rewrite filter_nil. apply app_nil_r.
Qed.

Lemma columns_setitem_named y col d data :
  cols_named col y = [(col, data)] -> columns (setitem y col d) = columns y.
Proof.
  intros Hc. apply columns_setitem.
  destruct (decide (col ∈ columns y)) as [|Hn]; [done|].
  apply cols_named_nil in Hn. congruence.
Qed.


Lemma encode_column_step col y0 le classes data cl :
  cols_named col y0 = [(col, data)] ->
  unique_values data = Ok cl ->
  encode_column col (Some y0, le, classes) =
    Ok (Some (setitem y0 col (codes_of cl data)), mkLE (Some cl),
        <[col := cl]> classes).
Proof.
  intros Hc Hu. simpl. rewrite Hc. simpl.
  unfold LabelEncoder_fit_transform. rewrite Hu. reflexivity.
Qed.

Lemma for_each_encode_spec lec :
  NoDup lec ->
  forall y0 le classes0,
  (forall col, col ∈ lec ->
     exists data cl, cols_named col y0 = [(col, data)] /\
                     unique_values data = Ok cl) ->
  exists y1 le1 classes,
    for_each encode_column lec (Some y0, le, classes0)
      = Ok (Some y1, le1, classes) /\
    df_index y1 = df_index y0 /\
    columns y1 = columns y0 /\
    (forall col, col ∈ lec -> encoded y0 y1 classes col) /\
    (forall col, col ∉ lec ->
       cols_named col y1 = cols_named col y0 /\
       classes !! col = classes0 !! col).
Proof.
  induction 1 as [|col lec Hcol Hnd IH]; intros y0 le classes0 Hall.
  - exists y0, le, classes0. repeat split; try done.
    intros col Hc. by apply not_elem_of_nil in Hc.
  - destruct (Hall col) as (data & cl & Hc & Hu); [left|].
    rewrite for_each_cons, (encode_column_step _ _ _ _ _ _ Hc Hu).
    cbn [mbind result_bind].
    set (y' := setitem y0 col (codes_of cl data)).
    destruct (IH y' (mkLE (Some cl)) (<[col := cl]> classes0))
      as (y1 & le1 & classes & Hfor & Hidx & Hcols & Henc & Hrest).
    { intros c Hcin. destruct (Hall c) as (d & k & Hd & Hk); [by right|].
      exists d, k. split; [|done]. unfold y'.
      rewrite cols_named_setitem_other; [done|]. intros ->. done. }
    exists y1, le1, classes. split; [done|]. split; [|split; [|split]].
    + rewrite Hidx. apply setitem_index.
    + rewrite Hcols. unfold y'. by eapply columns_setitem_named.
    + intros c Hcin. apply elem_of_cons in Hcin as [->|Hcin].
      * exists data, cl. destruct (Hrest col Hcol) as [Hy1 Hcl].
        split; [done|]. split; [done|]. split.
        -- rewrite Hcl. apply lookup_insert_eq.
        -- rewrite Hy1. unfold y'. by eapply cols_named_setitem_same.
      * destruct (Henc c Hcin) as (d & k & Hd & Hk & Hcl & Hy1).
        exists d, k. split; [|done]. unfold y' in Hd.
        rewrite cols_named_setitem_other in Hd; [done|]. intros ->. done.
    + intros c Hcn. apply not_elem_of_cons in Hcn as [Hne Hcn].
      destruct (Hrest c Hcn) as [Hy1 Hcl]. split.
      * rewrite Hy1. unfold y'. by apply cols_named_setitem_other.
      * rewrite Hcl. by apply lookup_insert_ne.
Qed.

Lemma getitem_single df col data :
  cols_named col df = [(col, data)] -> getitem df col = Ok data.
Proof. intros H. unfold getitem. by rewrite H. Qed.

Section LabelEncoding.

Context (float_repr : float64 -> string).
Context (fit_transform : DataFrame -> result MapperFit).

(** X25.  The label encoding of names listed once.  When no name is
    repeated in [label_encode_cols] and every name in it labels exactly one
    column of the selected targets, a categorical column, the call returns;
    for every encoded column the classes are exactly the observed values,
    ascending (the missing marker last) and without repetition, every cell
    is replaced by the position of its value among the classes, decoding a
    code through the classes gives back the original cell, and the other
    columns are unchanged. *)
Theorem label_encoding_round_trip args nodes_csv subjects_csv
    nodes sessions fit targets tc lec y0 :
  unsupervised args = false ->
  prepare_nodes float_repr args nodes_csv = Ok (nodes, sessions) ->
  fit_transform nodes = Ok fit ->
  align_targets args (subjects_ fit) subjects_csv = Ok targets ->
  target_cols args = Some tc ->
  getitem_list targets tc = Ok y0 ->
  label_encode_cols args = Some lec ->
  lec ⊆ tc ->
  NoDup lec ->
  (forall col, col ∈ lec ->
     exists data, cols_named col y0 = [(col, data)] /\ categorical_column data) ->
  exists out y1 classes,
    load_afq_data float_repr fit_transform args nodes_csv subjects_csv = Ok out /\
    out_y out = Some (squeeze (to_numpy y1)) /\
    out_classes out = Some classes /\
    df_index y1 = df_index y0 /\
    columns y1 = columns y0 /\
    (forall col, col ∈ lec ->
       exists data cl codes,
         getitem y0 col = Ok data /\
         getitem y1 col = Ok codes /\
         classes !! col = Some cl /\
         (forall v, v ∈ cl <-> v ∈ data) /\
         StronglySorted class_lt cl /\
         NoDup cl /\
         codes = codes_of cl data /\
         Forall2 (fun code v => decode cl code = Some v) codes data) /\
    (forall col, col ∉ lec -> getitem y1 col = getitem y0 col).
Proof.
  intros Hu Hp Hf Ha Ht Hg Hl Hsub Hnd Hcat.
  destruct (for_each_encode_spec lec Hnd y0 LabelEncoder_new ∅)
    as (y1 & le1 & classes & Hfor & Hidx & Hcols & Henc & Hrest).
  { intros col Hc. destruct (Hcat col Hc) as (data & Hd & Hk).
    destruct (unique_values_categorical data Hk) as (cl & Hcl & _).
    eauto. }
  eexists _, y1, classes. split; [|split; [|split; [|split; [|split; [|split]]]]].
  - rewrite (load_afq_data_supervised _ _ _ _ _ _ _ _ Hu Hp Hf).
    unfold load_targets. rewrite Ha. cbn [mbind result_bind].
    unfold select_targets. rewrite Ht, Hg. cbn [mbind result_bind].
    unfold label_encode. rewrite Hl, Ht. cbn [mbind result_bind].
    rewrite bool_decide_eq_true_2 by done. rewrite Hfor.
    cbn [mbind result_bind squeeze_target]. reflexivity.
  - reflexivity.
  - reflexivity.
  - done.
  - done.
  - intros col Hc. destruct (Henc col Hc) as (data & cl & Hd & Hk & Hcl & Hy1).
    destruct (Hcat col Hc) as (data' & Hd' & Hcat').
    rewrite Hd in Hd'. injection Hd' as <-.
    destruct (unique_values_categorical data Hcat')
      as (cl' & Hk' & Hmem & Hsort & Hndc & Hdec).
    rewrite Hk in Hk'. injection Hk' as <-.
    exists data, cl, (codes_of cl data).
    repeat split; auto using getitem_single; by apply Hmem.
  - intros col Hc. destruct (Hrest col Hc) as [Hy1 _].
    unfold getitem. by rewrite Hy1.
Qed.

End LabelEncoding.

(** ** The target rows *)

Lemma encode_column_Ok_inv col yf le classes st' :
  encode_column col (Some yf, le, classes) = Ok st' ->
  exists data cl,
    cols_named col yf = [(col, data)] /\
    unique_values data = Ok cl /\
    st' = (Some (setitem yf col (codes_of cl data)), mkLE (Some cl),
           <[col := cl]> classes).
Proof.
  unfold encode_column.
  destruct (cols_named col yf) as [|[n data] [|c2 cs]] eqn:Hc;
    [discriminate| |discriminate].
  assert (Hn : n = col).
  { assert (Hin : (n, data) ∈ cols_named col yf) by (rewrite Hc; left).
    unfold cols_named in Hin. by apply list_elem_of_filter in Hin as [Hn _]. }
  subst n. unfold LabelEncoder_fit_transform. cbn [snd].
  destruct (unique_values data) as [cl|] eqn:Hu; cbn [mbind result_bind];
    [|discriminate].
  intros [= <-]. exists data, cl. split; [done|]. split; [done|]. reflexivity.
Qed.

Lemma for_each_encode_Ok_inv cols :
  forall yf le classes0 st',
  for_each encode_column cols (Some yf, le, classes0) = Ok st' ->
  exists yf',
    st'.1.1 = Some yf' /\
    columns yf' = columns yf /\
    df_index yf' = df_index yf /\
    forall c, is_Some (st'.2 !! c) <-> c ∈ cols \/ is_Some (classes0 !! c).
Proof.
  induction cols as [|col cols IH]; intros yf le classes0 st'.
  - intros [= <-]. exists yf. split; [done|]. split; [done|]. split; [done|].
    intros c. cbn [snd]. rewrite elem_of_nil. tauto.
  - rewrite for_each_cons.
    destruct (encode_column col (Some yf, le, classes0)) as [st1|] eqn:H1;
      cbn [mbind result_bind]; [|discriminate].
    apply encode_column_Ok_inv in H1 as (data & cl & Hc & _ & ->).
    intros Hrest. apply IH in Hrest as (yf' & Hy & Hcols & Hidx & Hkeys).
    exists yf'. split; [done|].
    split; [by rewrite Hcols, (columns_setitem_named _ _ _ data)|].
    split; [by rewrite Hidx, setitem_index|].
    intros c. rewrite Hkeys, elem_of_cons.
    destruct (decide (c = col)) as [->|Hne].
    + rewrite lookup_insert_eq. split; [by left; left|]. intros _. by right.
    + rewrite lookup_insert_ne by done. tauto.
Qed.

Lemma label_encode_Ok_inv args y0 y' classes :
  label_encode args (Some y0) = Ok (y', classes) ->
  exists y1,
    y' = Some y1 /\
    columns y1 = columns y0 /\
    df_index y1 = df_index y0 /\
    forall c, is_Some (classes !! c)
              <-> exists lec, label_encode_cols args = Some lec /\ c ∈ lec.
Proof.
  unfold label_encode. destruct (label_encode_cols args) as [lec|].
  - destruct (target_cols args) as [tc|]; cbn [mbind result_bind];
      [|discriminate].
    destruct (bool_decide (lec ⊆ tc)); [|discriminate].
    destruct (for_each encode_column lec (Some y0, LabelEncoder_new, ∅))
      as [[[y2 le2] classes2]|] eqn:Hf; cbn [mbind result_bind]; [|discriminate].
    intros [= <- <-].
    apply for_each_encode_Ok_inv in Hf as (y1 & Hy & Hcols & Hidx & Hkeys).
    cbn [fst snd] in *. exists y1.
    split; [done|]. split; [done|]. split; [done|]. intros c. split.
    + intros Hc. apply Hkeys in Hc as [Hc|Hc]; [by exists lec|].
      rewrite lookup_empty in Hc. by destruct Hc.
    + intros (lec' & [= <-] & Hc). apply Hkeys. by left.
  - intros [= <- <-]. exists y0.
    split; [done|]. split; [done|]. split; [done|]. intros c. split.
    + rewrite lookup_empty. by intros [].
    + by intros (lec & ? & _).
Qed.




Section TargetAlignment.

Context (float_repr : float64 -> string).
Context (fit_transform : DataFrame -> result MapperFit).


End TargetAlignment.

(** ** The synthetic subject *)









Lemma list_to_map_const (ks : list string) (v : value) k :
  k ∈ ks ->
  (list_to_map (map (fun key => (key, v)) ks) : gmap string value) !! k = Some v.
Proof.
  induction ks as [|k' ks IH]; intros Hk; [by apply not_elem_of_nil in Hk|].
  cbn [map list_to_map foldr]. simpl.
  destruct (decide (k' = k)) as [->|Hne].
  - apply lookup_insert_eq.
  - rewrite lookup_insert_ne by done. apply IH.
    apply elem_of_cons in Hk as [->|Hk]; done.
Qed.


Lemma run_bind {A B} (m : IO A) (k : A -> IO B) w :
  run (m ≫= k) w =
    match run m w with
    | (Ok a, w') => run (k a) w'
    | (Err e, w') => (Err e, w')
    end.
Proof. reflexivity. Qed.


Section Projection.

Context (abspath : string -> string).


Lemma same_path_never_runs beta_hat cols args w :
  abspath (workdir_in args) = abspath (workdir_out args) ->
  exists e, run (output_beta_to_afq abspath beta_hat cols args) w = (Err e, w).
Proof.
  intros Heq. unfold output_beta_to_afq. rewrite run_bind.
  unfold samefile. cbn [run]. rewrite <- Heq.
  destruct (dirs w !! abspath (workdir_in args)) as [i|]; [|eauto].
  rewrite bool_decide_eq_true_2 by done. eauto.
Qed.

(** C5.  When the input and the output directory are one directory (both
    paths exist and [os.stat] reports the same identity for them), the call
    raises the [ValueError] of the guard and leaves the world as it was: no
    file is read, written, created or modified. *)
Theorem same_directory_is_rejected beta_hat cols args w i :
  dirs w !! abspath (workdir_in args) = Some i ->
  dirs w !! abspath (workdir_out args) = Some i ->
  run (output_beta_to_afq abspath beta_hat cols args) w
  = (Err (ValueError
            ("output directory equals input directory, please "
             +:+ "output to a different directory to avoid "
             +:+ "overwriting your files.")), w).
Proof.
  intros Hi Hj. unfold output_beta_to_afq.
  rewrite run_bind. unfold samefile. cbn [run]. rewrite Hi, Hj.
  rewrite bool_decide_eq_true_2 by done. reflexivity.
Qed.

End Projection.

(** ** The theorems on the concrete tables *)

Import Example.



(** C2, on a call that encodes a column it does not select. *)
Lemma label_encode_cols_must_be_subset_witness :
  unsupervised (args None (Some ["age"]) (Some ["sex"])) = false /\
  label_encode_cols (args None (Some ["age"]) (Some ["sex"])) = Some ["sex"] /\
  target_cols (args None (Some ["age"]) (Some ["sex"])) = Some ["age"] /\
  ~ ["sex"] ⊆ ["age"] /\
  load (args None (Some ["age"]) (Some ["sex"])) nodes_csv subjects_csv
    = Err (ValueError (subset_message ["sex"])).
Proof.
  set (a := args None (Some ["age"]) (Some ["sex"])).
  assert (Hu : unsupervised a = false) by reflexivity.
  assert (Hl : label_encode_cols a = Some ["sex"]) by reflexivity.
  assert (Ht : target_cols a = Some ["age"]) by reflexivity.
  assert (Hn : ~ ["sex"] ⊆ ["age"]) by compute_done.
  split; [exact Hu|]. split; [exact Hl|]. split; [exact Ht|]. split; [exact Hn|].
  destruct (label_encode_cols_must_be_subset Pivot.float_repr Pivot.fit_transform
              a nodes_csv subjects_csv ["sex"] ["age"] Hu Hl Ht) as [Hfail _].
  destruct (Hfail Hn) as [_ Herr].
  eapply Herr; vm_compute; reflexivity.
Defined.

(** C3.  The subset check of line 162 compares sets, the loop of lines
    169-171 runs over the list: a column named twice in
    [label_encode_cols] passes the check and is encoded twice.  The classes
    returned for it are the codes of the first pass, not the class labels,
    and decoding a code does not give back the original string. *)
Theorem label_encoding_repeated_column :
  exists out classes,
    getitem subjects_csv "sex" = Ok [Str "M"; Str "F"] /\
    load (args None (Some ["sex"]) (Some ["sex"; "sex"])) nodes_csv subjects_csv
      = Ok out /\
    out_subjects out = [Str "A"; Str "B"] /\
    out_y out = Some (Array1 [Int 1; Int 0]) /\
    out_classes out = Some classes /\
    classes !! "sex" = Some [Int 0; Int 1] /\
    decode [Int 0; Int 1] (Int 1) = Some (Int 1) /\
    Int 1 <> Str "M".
Proof. vm_compute. eexists _, _. repeat split. discriminate. Qed.

(** X25, on the phenotype table of the two subjects. *)
Lemma label_encoding_round_trip_witness :
  NoDup ["sex"] /\ ["sex"] ⊆ ["sex"; "age"] /\
  categorical_column [Str "M"; Str "F"] /\
  exists out y1 classes codes cl,
    load (args None (Some ["sex"; "age"]) (Some ["sex"])) nodes_csv subjects_csv
      = Ok out /\
    out_y out = Some (squeeze (to_numpy y1)) /\
    out_classes out = Some classes /\
    getitem y1 "sex" = Ok codes /\
    classes !! "sex" = Some cl /\
    Forall2 (fun code v => decode cl code = Some v) codes [Str "M"; Str "F"].
Proof.
  set (a := args None (Some ["sex"; "age"]) (Some ["sex"])).
  assert (Hnd : NoDup ["sex"]) by compute_done.
  assert (Hsub : ["sex"] ⊆ ["sex"; "age"]) by compute_done.
  assert (Hcat : categorical_column [Str "M"; Str "F"]).
  { left. repeat constructor; right; reflexivity. }
  split; [exact Hnd|]. split; [exact Hsub|]. split; [exact Hcat|].
  edestruct (label_encoding_round_trip Pivot.float_repr Pivot.fit_transform
               a nodes_csv subjects_csv)
    as (out & y1 & classes & Hload & Hy & Hc & _ & _ & Henc & _).
  - reflexivity.
  - vm_compute. reflexivity.
  - vm_compute. reflexivity.
  - vm_compute. reflexivity.
  - reflexivity.
  - vm_compute. reflexivity.
  - reflexivity.
  - exact Hsub.
  - exact Hnd.
  - intros col Hcol. apply list_elem_of_singleton in Hcol as ->.
    exists [Str "M"; Str "F"]. split; [reflexivity | exact Hcat].
  - destruct (Henc "sex") as (data & cl & codes & Hd & Hcodes & Hcl & _ & _ & _ & _ & Hdec).
    { left. }
    vm_compute in Hd. injection Hd as <-.
    exists out, y1, classes, codes, cl. auto 10.
Defined.

(** ** The squeezed target *)

Lemma length_concat_rows {A} (rows : list (list A)) k :
  Forall (fun r => length r = k) rows ->
  length (concat rows) = (length rows * k)%nat.
Proof.
  induction 1 as [|r rows Hr _ IH]; [done|].
  simpl. rewrite length_app, IH, Hr. done.
Qed.

Lemma frame_rows_lengths df :
  length (frame_rows df) = n_rows df /\
  Forall (fun r => length r = n_cols df) (frame_rows df).
Proof.
  unfold frame_rows. split.
  - by rewrite length_map, length_seq.
  - apply Forall_forall. intros r Hr.
    apply list_elem_of_fmap in Hr as (i & -> & _).
    unfold row_at, n_cols. by rewrite length_map.
Qed.

(** [np.squeeze] keeps exactly the axes whose length is not one. *)
Lemma squeeze_to_numpy_shape df :
  shape (squeeze (to_numpy df))
  = filter (fun d => d <> 1%nat) [n_rows df; n_cols df].
Proof.
  destruct (frame_rows_lengths df) as [Hn Hk].
  pose proof (length_concat_rows _ _ Hk) as Hc. rewrite Hn in Hc.
  unfold to_numpy, squeeze. rewrite !filter_cons, filter_nil.
  destruct (decide (n_rows df = 1%nat)) as [Hn1|Hn1];
    destruct (decide (n_cols df = 1%nat)) as [Hk1|Hk1]; simpl.
  - rewrite decide_False by (intros H; by apply H).
    rewrite decide_False by (intros H; by apply H). done.
  - rewrite decide_False by (intros H; by apply H).
    rewrite decide_True by done. rewrite Hc, Hn1. f_equal. lia.
  - rewrite decide_True by done.
    rewrite decide_False by (intros H; by apply H). rewrite Hc, Hk1. f_equal. lia.
  - rewrite !decide_True by done. done.
Qed.

Lemma squeeze_one_target_column df :
  n_cols df = 1%nat -> n_rows df <> 1%nat ->
  shape (squeeze (to_numpy df)) = [n_rows df].
Proof.
  intros Hk Hn. rewrite squeeze_to_numpy_shape, !filter_cons, filter_nil, Hk.
  rewrite decide_True by done. rewrite decide_False by (intros H; by apply H). done.
Qed.

Lemma squeeze_several_target_columns df :
  n_cols df <> 1%nat -> n_rows df <> 1%nat ->
  shape (squeeze (to_numpy df)) = [n_rows df; n_cols df].
Proof.
  intros Hk Hn. rewrite squeeze_to_numpy_shape, !filter_cons, filter_nil.
  rewrite !decide_True by done. done.
Qed.

(** C4.  With a single subject the squeezed target loses its row axis: one
    target column gives a zero-dimensional array and two target columns
    give a one-dimensional array of length two, where the claim has a
    sequence of length one and a matrix of one row. *)
Theorem single_subject_target_loses_row_axis :
  (exists out y,
     load (args None (Some ["age"]) None) nodes_one subjects_csv = Ok out /\
     out_subjects out = [Str "A"] /\
     out_y out = Some y /\ y = Array0 (Int 20) /\ shape y = []) /\
  (exists out y,
     load (args None (Some ["sex"; "age"]) None) nodes_one subjects_csv = Ok out /\
     out_subjects out = [Str "A"] /\
     out_y out = Some y /\ y = Array1 [Str "M"; Int 20] /\ shape y = [2%nat]).
Proof. split; vm_compute; eexists _, _; repeat split. Qed.

(** C6.  The real subjects have a constant metric along the tract and the
    coefficients of the tract are all zero: both standard deviations are
    zero, their ratio is the float nan, which [replace] leaves in place, and
    the rescaled values written to the nodes file are nan. *)
Theorem rescaling_writes_nan_when_both_deviations_vanish :
  tract_stat nanstd (mkDF (range_index 4) nodes_table) (Str "CST")
    = Ok [("fa", S754_zero false)] /\
  scale_factor [("fa", S754_zero false)] [("fa", S754_zero false)]
    = [("fa", S754_nan)] /\
  exists w,
    project [F 0; F 0] (beta_args "/out" true) subjects_table
      = (Ok (mkOutputFiles "/out/nodes.csv" "/out/subjects.csv"), w) /\
    files w !! "/out/nodes.csv" =
      Some (CsvFile
              [("subjectID", [Str "A"; Str "A"; Str "B"; Str "B";
                              Str "beta_hat"; Str "beta_hat"]);
               ("tractID", [Str "CST"; Str "CST"; Str "CST"; Str "CST";
                            Str "CST"; Str "CST"]);
               ("nodeID", [Int 0; Int 1; Int 0; Int 1; Int 0; Int 1]);
               ("fa", [F 5; F 5; F 5; F 5; NaN; NaN])]).
Proof.
  split; [vm_compute; reflexivity|]. split; [vm_compute; reflexivity|].
  eexists. split; vm_compute; reflexivity.
Qed.

(** An infinite ratio of the deviations is replaced by one. *)
Lemma scale_factor_infinite m fs bs :
  is_inf (fdiv fs bs) = true ->
  scale_factor [(m, fs)] [(m, bs)] = [(m, float_of_Z 1)].
Proof.
  intros H. unfold scale_factor. simpl. rewrite decide_True by done. by rewrite H.
Qed.

(** A nan ratio is kept. *)
Lemma scale_factor_nan m fs bs :
  fdiv fs bs = S754_nan ->
  scale_factor [(m, fs)] [(m, bs)] = [(m, S754_nan)].
Proof.
  intros H. unfold scale_factor. simpl. rewrite decide_True by done. by rewrite H.
Qed.

(** C10, without and with [label_encode_cols]. *)
Lemma load_afq_data_target_cols_omitted_witness :
  unsupervised (args None None None) = false /\
  target_cols (args None None None) = None /\
  load (args None None None) nodes_csv subjects_csv
    = Err (UnboundLocalError "y") /\
  load (args None None (Some [])) nodes_csv subjects_csv
    = Err (TypeError "'NoneType' object is not iterable").
Proof.
  assert (Hu : forall e, unsupervised (args None None e) = false) by reflexivity.
  assert (Ht : forall e, target_cols (args None None e) = None) by reflexivity.
  split; [apply Hu|]. split; [apply Ht|]. split.
  - destruct (load_afq_data_target_cols_omitted Pivot.float_repr Pivot.fit_transform
                (args None None None) nodes_csv subjects_csv (Hu _) (Ht _))
      as [_ Herr].
    eapply Herr; vm_compute; reflexivity.
  - destruct (load_afq_data_target_cols_omitted Pivot.float_repr Pivot.fit_transform
                (args None None (Some [])) nodes_csv subjects_csv (Hu _) (Ht _))
      as [_ Herr].
    eapply Herr; vm_compute; reflexivity.
Defined.

(** C10 as stated fails: with [label_encode_cols] given, the subset check
    raises a [TypeError] before [y] is read. *)
Lemma target_cols_omitted_with_label_encode_cols :
  unsupervised (args None None (Some ["sex"])) = false /\
  target_cols (args None None (Some ["sex"])) = None /\
  load (args None None (Some ["sex"])) nodes_csv subjects_csv
    = Err (TypeError "'NoneType' object is not iterable") /\
  load (args None None (Some ["sex"])) nodes_csv subjects_csv
    <> Err (UnboundLocalError "y").
Proof. vm_compute. repeat split. discriminate. Qed.

(** C9, on the table of two subjects with two nodes each. *)
Lemma sessions_are_the_long_format_column_witness :
  getitem nodes_csv "sessionID" = Ok [Int 1; Int 1; Int 2; Int 2] /\
  return_sessions (mkArgs None None None "subjectID" true false true) = true /\
  exists out,
    load (mkArgs None None None "subjectID" true false true) nodes_csv subjects_csv
      = Ok out /\
    out_sessions out = Some (Some [Int 1; Int 1; Int 2; Int 2]).
Proof.
  set (a := mkArgs None None None "subjectID" true false true).
  assert (Hg : getitem nodes_csv "sessionID" = Ok [Int 1; Int 1; Int 2; Int 2])
    by reflexivity.
  assert (Hr : return_sessions a = true) by reflexivity.
  split; [exact Hg|]. split; [exact Hr|].
  destruct (load a nodes_csv subjects_csv) as [out|e] eqn:Hl;
    [|vm_compute in Hl; discriminate].
  exists out. split; [reflexivity|].
  destruct (sessions_are_the_long_format_column Pivot.float_repr Pivot.fit_transform
              a nodes_csv subjects_csv _ Hg Hr) as (_ & Hout & _).
  destruct (Hout out Hl) as [Hs _]. exact Hs.
Defined.

(** C9 as stated fails: four session entries are returned for two
    subjects. *)
Lemma sessions_are_not_one_per_subject :
  exists out sessions,
    load (mkArgs None None None "subjectID" true false true) nodes_csv subjects_csv
      = Ok out /\
    out_subjects out = [Str "A"; Str "B"] /\
    out_sessions out = Some (Some sessions) /\
    sessions = [Int 1; Int 1; Int 2; Int 2] /\
    length sessions <> length (out_subjects out).
Proof. vm_compute. eexists _, _. repeat split. discriminate. Qed.



(** C5, on the example directory used as input and output. *)
Lemma same_directory_is_rejected_witness :
  dirs (world subjects_table) !! "/in" = Some 1%nat /\
  exists msg,
    project [F 1; F 3] (beta_args "/in" false) subjects_table
      = (Err (ValueError msg), world subjects_table).
Proof.
  assert (Hi : dirs (world subjects_table) !! "/in" = Some 1%nat) by reflexivity.
  split; [exact Hi|]. eexists.
  exact (same_directory_is_rejected id [F 1; F 3] cols (beta_args "/in" false)
           (world subjects_table) 1%nat Hi Hi).
Defined.


(** * Further properties *)

(** ** The nodes table handed to the mapper *)

Lemma elem_of_unnamed_cols df c :
  c ∈ unnamed_cols df <-> c ∈ columns df /\ is_unnamed c = true.
Proof.
  unfold unnamed_cols. rewrite list_elem_of_In, filter_In, <- list_elem_of_In. done.
Qed.

Lemma getitem_column df name data : getitem df name = Ok data -> name ∈ columns df.
Proof. intros H. by apply has_column_true, (getitem_has_column _ _ data). Qed.

Section NodesTable.

Context (float_repr : float64 -> string).

(** X1.  The table handed to the mapper has only data columns.  Whatever
    the arguments are, every column of the nodes table that reaches
    [AFQDataFrameMapper] is a column of the nodes file, has no "Unnamed:" in
    its label and is not the sessionID column. *)
Theorem mapper_table_has_only_data_columns args nodes_csv nodes sessions :
  prepare_nodes float_repr args nodes_csv = Ok (nodes, sessions) ->
  forall c, c ∈ columns nodes ->
    c ∈ columns nodes_csv /\ is_unnamed c = false /\ c <> "sessionID".
Proof.
  unfold prepare_nodes.
  set (nodes0 := drop_columns (unnamed_cols nodes_csv) nodes_csv).
  destruct (if has_column nodes0 "sessionID" then _ else _) as [s|];
    cbn [mbind result_bind]; [|discriminate].
  assert (H0 : forall c, c ∈ columns nodes0 ->
                 c ∈ columns nodes_csv /\ is_unnamed c = false).
  { intros c [Hc Hn]%elem_of_columns_drop. split; [done|].
    destruct (is_unnamed c) eqn:Hu; [|done].
    exfalso. apply Hn. by apply elem_of_unnamed_cols. }
  assert (H2 : forall nodes1, columns nodes1 = columns nodes0 ->
            forall c, c ∈ columns (drop_columns ["sessionID"] nodes1) ->
                 c ∈ columns nodes_csv /\ is_unnamed c = false /\ c <> "sessionID").
  { intros nodes1 Hn1 c [Hc Hn]%elem_of_columns_drop. rewrite Hn1 in Hc.
    destruct (H0 c Hc). repeat split; try done. intros ->. apply Hn. left. }
  assert (H3 : forall nodes1, columns nodes1 = columns nodes0 ->
            (nodes2 ← match dwi_metrics args with
                     | Some ms =>
                         getitem_list (drop_columns ["sessionID"] nodes1)
                           (["tractID"; "nodeID"; "subjectID"] ++ ms)
                     | None => Ok (drop_columns ["sessionID"] nodes1)
                     end; Ok (nodes2, s)) = Ok (nodes, sessions) ->
            forall c, c ∈ columns nodes ->
              c ∈ columns nodes_csv /\ is_unnamed c = false /\ c <> "sessionID").
  { intros nodes1 Hn1. specialize (H2 nodes1 Hn1).
    destruct (dwi_metrics args) as [ms|].
    - destruct (getitem_list _ _) as [nodes3|] eqn:Hsel; cbn [mbind result_bind];
        [|discriminate].
      intros [= <- <-] c Hc. apply H2. eapply getitem_list_columns; eauto.
    - cbn [mbind result_bind]. intros [= <- <-]. exact H2. }
  destruct (concat_subject_session args).
  - destruct (getitem nodes0 "subjectID") as [sid|] eqn:Hsid;
      cbn [mbind result_bind]; [|discriminate].
    destruct (getitem nodes0 "sessionID") as [ses|];
      cbn [mbind result_bind]; [|discriminate].
    destruct (add_str_series sid _) as [new|]; cbn [mbind result_bind];
      [|discriminate].
    apply H3, columns_setitem. by eapply getitem_column.
  - cbn [mbind result_bind]. by apply H3.
Qed.

End NodesTable.

(** ** The file accesses of [output_beta_to_afq] *)

Lemma after_accesses_refl w : after_accesses w [] w.
Proof. split; [done|]. split; [by rewrite app_nil_r|]. done. Qed.

Lemma after_accesses_trans w t1 w1 t2 w2 :
  after_accesses w t1 w1 -> after_accesses w1 t2 w2 ->
  after_accesses w (t1 ++ t2) w2.
Proof.
  intros (Hd1 & Ht1 & Hk1 & Hf1) (Hd2 & Ht2 & Hk2 & Hf2).
  split; [congruence|]. split; [by rewrite Ht2, Ht1, app_assoc|].
  split; [auto|].
  intros p Hp. rewrite elem_of_app in Hp.
  rewrite Hf2, Hf1; [done| |]; intros H; apply Hp; tauto.
Qed.

Lemma after_accesses_read w p : after_accesses w [ReadFile p] (log (ReadFile p) w).
Proof. done. Qed.

Lemma after_accesses_write w t p c :
  WriteFile p ∈ t ->
  after_accesses w t (mkWorld (dirs w) (<[p := c]> (files w)) (trace w ++ t)).
Proof.
  intros Hin. split; [done|]. split; [done|]. cbn [files]. split.
  - intros q Hq. destruct (decide (p = q)) as [->|Hne].
    + rewrite lookup_insert_eq. by eexists.
    + by rewrite lookup_insert_ne.
  - intros q Hq. destruct (decide (p = q)) as [->|Hne]; [done|].
    by rewrite lookup_insert_ne.
Qed.

Section Accesses.

Context (abspath : string -> string).

Lemma output_beta_to_afq_Ok_inv beta_hat cols args w out w' :
  run (output_beta_to_afq abspath beta_hat cols args) w = (Ok out, w') ->
  exists i j t df_beta0 df_beta st tbl sl pa,
    dirs w !! abspath (workdir_in args) = Some i /\
    dirs w !! abspath (workdir_out args) = Some j /\ i <> j /\
    files w !! input_path abspath args (fn_nodes_in args) = Some (CsvFile t) /\
    beta_frame beta_hat cols t.*1 = Ok df_beta0 /\
    (if scale_beta args
     then scale_beta_frame (mkDF (range_index (table_rows t)) t) df_beta0
     else Ok df_beta0) = Ok df_beta /\
    let files1 :=
      <[output_path abspath args (fn_nodes_out args) :=
          CsvFile (df_cols (concat_rows (mkDF (range_index (table_rows t)) t)
                                        df_beta))]> (files w) in
    files1 !! input_path abspath args (fn_subjects_in args) = Some (CsvFile st) /\
    add_subject_row st = Ok tbl /\
    let files2 :=
      <[output_path abspath args (fn_subjects_out args) := CsvFile tbl]> files1 in
    files2 !! input_path abspath args "streamlines.json" = Some sl /\
    let files3 := <[output_path abspath args "streamlines.json" := sl]> files2 in
    files3 !! input_path abspath args "params.json" = Some pa /\
    out = mkOutputFiles (output_path abspath args (fn_nodes_out args))
                        (output_path abspath args (fn_subjects_out args)) /\
    w' = mkWorld (dirs w)
           (<[output_path abspath args "params.json" := pa]> files3)
           (trace w ++ full_trace abspath args).
Proof.
  unfold output_beta_to_afq, input_path, output_path, full_trace.
  rewrite run_bind. unfold samefile at 1. cbn [run].
  destruct (dirs w !! abspath (workdir_in args)) as [i|] eqn:Hi; [|discriminate].
  destruct (dirs w !! abspath (workdir_out args)) as [j|] eqn:Hj; [|discriminate].
  destruct (bool_decide (i = j)) eqn:Hij; [discriminate|].
  apply bool_decide_eq_false in Hij.
  rewrite run_bind. unfold read_csv at 1. cbn [run].
  destruct (files w !! _) as [[t|]|] eqn:Hn; [|discriminate|discriminate].
  rewrite run_bind. unfold lift at 1. cbn [run].
  change (columns (mkDF (range_index (table_rows t)) t)) with (t.*1).
  destruct (beta_frame beta_hat cols t.*1) as [df_beta0|] eqn:Hb; [|discriminate].
  rewrite run_bind.
  assert (Hs : exists r,
    (if scale_beta args
     then scale_beta_frame (mkDF (range_index (table_rows t)) t) df_beta0
     else Ok df_beta0) = r /\
    run (if scale_beta args
         then lift (scale_beta_frame (mkDF (range_index (table_rows t)) t) df_beta0)
         else mret df_beta0) (log (ReadFile (path_join (abspath (workdir_in args)) (fn_nodes_in args))) w)
    = (r, log (ReadFile (path_join (abspath (workdir_in args)) (fn_nodes_in args))) w)).
  { eexists. split; [done|]. by destruct (scale_beta args). }
  destruct Hs as (r & Hr & ->). destruct r as [df_beta|]; [|discriminate].
  rewrite run_bind. unfold write_file at 1. cbn [run dirs files trace log].
  rewrite run_bind. unfold read_csv at 1. cbn [run dirs files trace log].
  destruct (_ !! path_join (abspath (workdir_in args)) (fn_subjects_in args))
    as [[st|]|] eqn:Hst; [|discriminate|discriminate].
  rewrite run_bind. unfold lift at 1. cbn [run dirs files trace log].
  change (df_cols (mkDF (range_index (table_rows st)) st)) with st.
  destruct (add_subject_row st) as [tbl|] eqn:Htbl; [|discriminate].
  rewrite run_bind. unfold write_file at 1. cbn [run dirs files trace log].
  rewrite run_bind. unfold copyfile at 1. cbn [run dirs files trace log].
  destruct (_ !! path_join (abspath (workdir_in args)) "streamlines.json")
    as [sl|] eqn:Hsl; [|discriminate].
  rewrite run_bind. unfold copyfile at 1. cbn [run dirs files trace log].
  destruct (_ !! path_join (abspath (workdir_in args)) "params.json")
    as [pa|] eqn:Hpa; [|discriminate].
  cbn [run mret IO_ret]. intros [= <- <-].
  exists i, j, t, df_beta0, df_beta, st, tbl, sl, pa.
  split; [done|]. split; [done|]. split; [done|]. split; [done|].
  split; [done|]. split; [done|]. cbv zeta.
  split; [done|]. split; [done|]. split; [done|]. split; [done|].
  split; [done|]. f_equal. by rewrite <- !app_assoc.
Qed.

End Accesses.

Lemma run_samefile p q w : exists r, run (samefile p q) w = (r, w).
Proof.
  unfold samefile. cbn [run].
  destruct (dirs w !! p); [|by eexists]. destruct (dirs w !! q); by eexists.
Qed.

Lemma run_read_csv p w :
  (exists e, run (read_csv p) w = (Err e, w)) \/
  (exists r w', run (read_csv p) w = (r, w') /\ after_accesses w [ReadFile p] w').
Proof.
  unfold read_csv. cbn [run].
  destruct (files w !! p) as [[t|b]|]; [right|right|left; by eexists];
    eexists _, _; (split; [done|apply after_accesses_read]).
Qed.

Lemma run_write_file p c w :
  exists w', run (write_file p c) w = (Ok (), w') /\
             after_accesses w [WriteFile p] w'.
Proof.
  eexists. split; [done|]. apply after_accesses_write. left.
Qed.

Lemma run_copyfile src dst w :
  (exists e, run (copyfile src dst) w = (Err e, w)) \/
  (exists w', run (copyfile src dst) w = (Ok (), w') /\
              after_accesses w [ReadFile src; WriteFile dst] w').
Proof.
  unfold copyfile. cbn [run].
  destruct (files w !! src) as [c|]; [right|left; by eexists].
  eexists. split; [done|]. apply after_accesses_write. right. left.
Qed.

Lemma run_lift {A} (r : result A) w : run (lift r) w = (r, w).
Proof. done. Qed.

Lemma output_paths_written abspath args p :
  WriteFile p ∈ full_trace abspath args -> p ∈ output_paths abspath args.
Proof.
  unfold full_trace, output_paths. rewrite !elem_of_cons, !elem_of_nil.
  intros H. repeat destruct H as [H|H]; try discriminate; try done;
    injection H as ->; tauto.
Qed.

Section Prefix.

Context (abspath : string -> string).

(** X2.  Whatever the outcome, the file accesses of a run are an initial part
    of the eight accesses of a complete run, complete exactly when the call
    returns; no directory is created or removed, no file is removed, and a
    file that is none of the four output paths keeps its content. *)
Theorem accesses_are_an_initial_part_of_the_full_run beta_hat cols args w :
  exists t,
    after_accesses w t (run (output_beta_to_afq abspath beta_hat cols args) w).2 /\
    t `prefix_of` full_trace abspath args /\
    ((exists out, (run (output_beta_to_afq abspath beta_hat cols args) w).1 = Ok out)
     <-> t = full_trace abspath args) /\
    (forall p, p ∉ output_paths abspath args ->
       files (run (output_beta_to_afq abspath beta_hat cols args) w).2 !! p
       = files w !! p).
Proof.
  cut (exists t,
    after_accesses w t (run (output_beta_to_afq abspath beta_hat cols args) w).2 /\
    t `prefix_of` full_trace abspath args /\
    ((exists out, (run (output_beta_to_afq abspath beta_hat cols args) w).1 = Ok out)
     <-> t = full_trace abspath args)).
  { intros (t & Ha & Hp & Hok). exists t. split; [done|]. split; [done|].
    split; [done|]. intros p Hout. destruct Ha as (_ & _ & _ & Hf). apply Hf.
    intros Hin. apply Hout, output_paths_written.
    destruct Hp as [k ->]. apply elem_of_app. by left. }
  unfold output_beta_to_afq, full_trace, input_path, output_path.
  set (nin := path_join (abspath (workdir_in args)) (fn_nodes_in args)).
  set (sin := path_join (abspath (workdir_in args)) (fn_subjects_in args)).
  set (nout := path_join (abspath (workdir_out args)) (fn_nodes_out args)).
  set (sout := path_join (abspath (workdir_out args)) (fn_subjects_out args)).
  set (lin := path_join (abspath (workdir_in args)) "streamlines.json").
  set (lout := path_join (abspath (workdir_out args)) "streamlines.json").
  set (pin := path_join (abspath (workdir_in args)) "params.json").
  set (pout := path_join (abspath (workdir_out args)) "params.json").
  assert (Hstop : forall (r : result OutputFiles) w' t e,
    after_accesses w t w' -> r = Err e ->
    t `prefix_of` [ReadFile nin; WriteFile nout; ReadFile sin; WriteFile sout;
                   ReadFile lin; WriteFile lout; ReadFile pin; WriteFile pout] ->
    (length t < 8)%nat ->
    exists t,
      after_accesses w t (r, w').2 /\
      t `prefix_of` [ReadFile nin; WriteFile nout; ReadFile sin; WriteFile sout;
                     ReadFile lin; WriteFile lout; ReadFile pin; WriteFile pout] /\
      ((exists out, (r, w').1 = Ok out) <->
       t = [ReadFile nin; WriteFile nout; ReadFile sin; WriteFile sout;
            ReadFile lin; WriteFile lout; ReadFile pin; WriteFile pout])).
  { intros r w' t e Ha -> Hp Hl. exists t. split; [done|]. split; [done|].
    split; [by intros [? [=]]|]. intros ->. cbn in Hl. lia. }
  rewrite run_bind. destruct (run_samefile (abspath (workdir_in args))
                                (abspath (workdir_out args)) w) as [same ->].
  destruct same as [[|]|e].
  { eapply Hstop; [apply after_accesses_refl|done|apply prefix_nil|cbn; lia]. }
  2: { eapply Hstop; [apply after_accesses_refl|done|apply prefix_nil|cbn; lia]. }
  rewrite run_bind.
  destruct (run_read_csv nin w) as [[e ->]|(r1 & w1 & -> & H1)].
  { eapply Hstop; [apply after_accesses_refl|done|apply prefix_nil|cbn; lia]. }
  destruct r1 as [df_nodes|e].
  2: { eapply Hstop; [exact H1|done|by eexists|cbn; lia]. }
  rewrite run_bind, run_lift.
  destruct (beta_frame beta_hat cols (columns df_nodes)) as [df_beta0|e].
  2: { eapply Hstop; [exact H1|done|by eexists|cbn; lia]. }
  rewrite run_bind.
  assert (Hs : exists r,
    run (if scale_beta args then lift (scale_beta_frame df_nodes df_beta0)
         else mret df_beta0) w1 = (r, w1)).
  { destruct (scale_beta args); by eexists. }
  destruct Hs as [[df_beta|e] ->].
  2: { eapply Hstop; [exact H1|done|by eexists|cbn; lia]. }
  rewrite run_bind.
  destruct (run_write_file nout (CsvFile (df_cols (concat_rows df_nodes df_beta))) w1)
    as (w2 & -> & H2).
  pose proof (after_accesses_trans _ _ _ _ _ H1 H2) as H12. cbn [app] in H12.
  rewrite run_bind.
  destruct (run_read_csv sin w2) as [[e ->]|(r3 & w3 & -> & H3)].
  { eapply Hstop; [exact H12|done|by eexists|cbn; lia]. }
  pose proof (after_accesses_trans _ _ _ _ _ H12 H3) as H13. cbn [app] in H13.
  destruct r3 as [df_subjects|e].
  2: { eapply Hstop; [exact H13|done|by eexists|cbn; lia]. }
  rewrite run_bind, run_lift.
  destruct (add_subject_row (df_cols df_subjects)) as [table|e].
  2: { eapply Hstop; [exact H13|done|by eexists|cbn; lia]. }
  rewrite run_bind.
  destruct (run_write_file sout (CsvFile table) w3) as (w4 & -> & H4).
  pose proof (after_accesses_trans _ _ _ _ _ H13 H4) as H14. cbn [app] in H14.
  rewrite run_bind.
  destruct (run_copyfile lin lout w4) as [[e ->]|(w5 & -> & H5)].
  { eapply Hstop; [exact H14|done|by eexists|cbn; lia]. }
  pose proof (after_accesses_trans _ _ _ _ _ H14 H5) as H15. cbn [app] in H15.
  rewrite run_bind.
  destruct (run_copyfile pin pout w5) as [[e ->]|(w6 & -> & H6)].
  { eapply Hstop; [exact H15|done|by eexists|cbn; lia]. }
  pose proof (after_accesses_trans _ _ _ _ _ H15 H6) as H16. cbn [app] in H16.
  eexists. split; [exact H16|]. split; [done|]. split; [done|].
  intros _. by eexists.
Qed.

End Prefix.

Lemma elem_of_columns_setitem df name data c :
  c ∈ columns (setitem df name data) -> c ∈ columns df \/ c = name.
Proof.
  unfold setitem, columns. destruct (has_column df name); cbn [df_cols].
  - rewrite !list_elem_of_fmap. intros ([n d] & -> & Hin).
    apply list_elem_of_fmap in Hin as ([n' d'] & Heq & Hin).
    cbn [fst] in *. destruct (decide (n' = name)) as [->|Hne].
    + injection Heq as -> ->. by right.
    + injection Heq as -> ->. left. by exists (n', d').
  - rewrite fmap_app, elem_of_app. cbn. rewrite list_elem_of_singleton. tauto.
Qed.

Lemma beta_frame_malformed beta_hat cols nodes_columns :
  length beta_hat <> length cols \/ ~ NoDup cols \/
  (exists c, c ∈ nodes_columns /\ (c ∉ key_columns) /\
             forall k : ColumnKey, k ∈ cols -> k.1.2 <> c) ->
  exists e, beta_frame beta_hat cols nodes_columns = Err e /\
            ((exists msg, e = ValueError msg) \/
             (exists k, e = KeyError k /\ k ∈ nodes_columns)).
Proof.
  intros Hbad. unfold beta_frame.
  destruct (decide (cols = [])) as [Hnil|Hnil]; cbn [mbind result_bind].
  { eexists. split; [done|]. left. by eexists. }
  destruct (decide (length beta_hat = length cols)) as [Hlen|Hlen];
    cbn [mbind result_bind].
  2: { eexists. split; [done|]. left. by eexists. }
  destruct (decide (NoDup cols)) as [Hnd|Hnd]; cbn [mbind result_bind].
  2: { eexists. split; [done|]. left. by eexists. }
  destruct (bool_decide ("nodeID" ∈ _)) eqn:Hn; cbn [mbind result_bind].
  { eexists. split; [done|]. left. by eexists. }
  destruct (bool_decide ("tractID" ∈ _)) eqn:Ht; cbn [mbind result_bind].
  { eexists. split; [done|]. left. by eexists. }
  destruct Hbad as [Hbad|[Hbad|(c & Hc & Hkey & Hmetric)]]; [done|done|].
  unfold getitem_list.
  match goal with
  | |- context [select_cols nodes_columns ?df] =>
      destruct (select_cols_absent nodes_columns df c Hc) as (k & -> & Hk & _)
  end.
  - intros Hin. apply elem_of_columns_setitem in Hin as [Hin| ->].
    + unfold columns in Hin. cbn [df_cols fmap list_fmap fst] in Hin.
      rewrite !elem_of_cons in Hin. destruct Hin as [->|[->|Hin]].
      * apply Hkey. unfold key_columns. rewrite !elem_of_cons. tauto.
      * apply Hkey. unfold key_columns. rewrite !elem_of_cons. tauto.
      * change (c ∈ (map (fun m : string => (m, map (fun r : string * Z =>
                   coefficient (r.1, m, r.2) (zip cols beta_hat))
                   (sorted_unique pair_compare
                      (map (fun k : ColumnKey => (k.1.1, k.2)) cols))))
                 (sorted_unique String.compare
                    (map (fun k : ColumnKey => k.1.2) cols))).*1) in Hin.
        apply list_elem_of_fmap in Hin as ([m d] & -> & Hin).
        apply list_elem_of_fmap in Hin as (m' & [= -> ->] & Hin).
        rewrite (elem_of_sorted_unique String.compare) in Hin.
        apply list_elem_of_fmap in Hin as (k & Hk' & Hin). cbn [fst].
        by apply (Hmetric k).
    + apply Hkey. unfold key_columns. rewrite !elem_of_cons. tauto.
  - cbn [mbind result_bind]. eexists. split; [done|]. right. by eexists.
Qed.

Section Failures.

Context (abspath : string -> string).

Lemma run_until_beta_frame beta_hat cols args w i j t :
  dirs w !! abspath (workdir_in args) = Some i ->
  dirs w !! abspath (workdir_out args) = Some j -> i <> j ->
  files w !! input_path abspath args (fn_nodes_in args) = Some (CsvFile t) ->
  run (output_beta_to_afq abspath beta_hat cols args) w =
    match beta_frame beta_hat cols t.*1 with
    | Err e => (Err e, log (ReadFile (input_path abspath args (fn_nodes_in args))) w)
    | Ok df_beta0 =>
        match (if scale_beta args
               then scale_beta_frame (mkDF (range_index (table_rows t)) t) df_beta0
               else Ok df_beta0) with
        | Err e =>
            (Err e, log (ReadFile (input_path abspath args (fn_nodes_in args))) w)
        | Ok df_beta =>
            run (df_subjects ← read_csv (input_path abspath args (fn_subjects_in args));
                 table ← lift (add_subject_row (df_cols df_subjects));
                 _ ← write_file (output_path abspath args (fn_subjects_out args))
                       (CsvFile table);
                 _ ← copyfile (input_path abspath args "streamlines.json")
                              (output_path abspath args "streamlines.json");
                 _ ← copyfile (input_path abspath args "params.json")
                              (output_path abspath args "params.json");
                 mret (mkOutputFiles
                         (output_path abspath args (fn_nodes_out args))
                         (output_path abspath args (fn_subjects_out args))))
              (mkWorld (dirs w)
                 (<[output_path abspath args (fn_nodes_out args) :=
                      CsvFile (df_cols (concat_rows
                                 (mkDF (range_index (table_rows t)) t) df_beta))]>
                    (files w))
                 (trace w ++ [ReadFile (input_path abspath args (fn_nodes_in args));
                              WriteFile (output_path abspath args (fn_nodes_out args))]))
        end
    end.
Proof.
  intros Hi Hj Hij Hn.
  unfold output_beta_to_afq, input_path, output_path in *.
  rewrite run_bind. unfold samefile at 1. cbn [run]. rewrite Hi, Hj.
  rewrite bool_decide_eq_false_2 by done.
  rewrite run_bind. unfold read_csv at 1. cbn [run]. rewrite Hn.
  rewrite run_bind, run_lift.
  change (columns (mkDF (range_index (table_rows t)) t)) with (t.*1).
  destruct (beta_frame beta_hat cols t.*1) as [df_beta0|e]; [|done].
  rewrite run_bind.
  destruct (scale_beta args).
  - rewrite run_lift. destruct (scale_beta_frame _ _) as [df_beta|e]; [|done].
    rewrite run_bind. unfold write_file at 1. cbn [run dirs files trace log].
    by rewrite <- app_assoc.
  - cbn [run mret IO_ret].
    rewrite run_bind. unfold write_file at 1. cbn [run dirs files trace log].
    by rewrite <- app_assoc.
Qed.

(** X3.  Coefficients that do not fit the nodes table (a different number of
    values and column keys, a repeated column key, or a column of the nodes
    file, such as sessionID, that is neither a key column nor a metric of
    the column keys) make the call fail with [ValueError] or [KeyError]
    after the nodes file has been read and before anything is written. *)
Theorem malformed_coefficients_stop_before_any_write
    beta_hat cols args w i j t :
  dirs w !! abspath (workdir_in args) = Some i ->
  dirs w !! abspath (workdir_out args) = Some j -> i <> j ->
  files w !! input_path abspath args (fn_nodes_in args) = Some (CsvFile t) ->
  length beta_hat <> length cols \/ ~ NoDup cols \/
  (exists c, c ∈ t.*1 /\ (c ∉ key_columns) /\
             forall k : ColumnKey, k ∈ cols -> k.1.2 <> c) ->
  exists e,
    run (output_beta_to_afq abspath beta_hat cols args) w
      = (Err e, log (ReadFile (input_path abspath args (fn_nodes_in args))) w) /\
    ((exists msg, e = ValueError msg) \/ (exists k, e = KeyError k /\ k ∈ t.*1)).
Proof.
  intros Hi Hj Hij Hn Hbad.
  destruct (beta_frame_malformed beta_hat cols t.*1 Hbad) as (e & He & Hkind).
  exists e. split; [|done].
  by rewrite (run_until_beta_frame _ _ _ _ i j t), He.
Qed.

(** X4.  The call is not atomic.  When the subjects file is missing, the call
    fails with [FileNotFoundError] after the nodes output has been
    written; the output directory then holds a nodes file and nothing
    else of the call. *)
Theorem missing_subjects_file_leaves_the_nodes_output
    beta_hat cols args w i j t df_beta :
  dirs w !! abspath (workdir_in args) = Some i ->
  dirs w !! abspath (workdir_out args) = Some j -> i <> j ->
  files w !! input_path abspath args (fn_nodes_in args) = Some (CsvFile t) ->
  beta_frame beta_hat cols t.*1 = Ok df_beta ->
  scale_beta args = false ->
  files w !! input_path abspath args (fn_subjects_in args) = None ->
  input_path abspath args (fn_subjects_in args)
    <> output_path abspath args (fn_nodes_out args) ->
  run (output_beta_to_afq abspath beta_hat cols args) w =
    (Err (FileNotFoundError (input_path abspath args (fn_subjects_in args))),
     mkWorld (dirs w)
       (<[output_path abspath args (fn_nodes_out args) :=
            CsvFile (df_cols (concat_rows (mkDF (range_index (table_rows t)) t)
                                          df_beta))]> (files w))
       (trace w ++ [ReadFile (input_path abspath args (fn_nodes_in args));
                    WriteFile (output_path abspath args (fn_nodes_out args))])).
Proof.
  intros Hi Hj Hij Hn Hb Hs Hsub Hne.
  rewrite (run_until_beta_frame _ _ _ _ i j t), Hb, Hs by done.
  rewrite run_bind. unfold read_csv at 1. cbn [run dirs files trace log].
  by rewrite lookup_insert_ne, Hsub.
Qed.

(** X5.  When a sidecar file is missing, the call fails with
    [FileNotFoundError] although both tables have been written. *)
Theorem missing_sidecar_leaves_both_tables
    beta_hat cols args w i j t df_beta st tbl :
  dirs w !! abspath (workdir_in args) = Some i ->
  dirs w !! abspath (workdir_out args) = Some j -> i <> j ->
  files w !! input_path abspath args (fn_nodes_in args) = Some (CsvFile t) ->
  beta_frame beta_hat cols t.*1 = Ok df_beta ->
  scale_beta args = false ->
  files w !! input_path abspath args (fn_subjects_in args) = Some (CsvFile st) ->
  input_path abspath args (fn_subjects_in args)
    <> output_path abspath args (fn_nodes_out args) ->
  add_subject_row st = Ok tbl ->
  files w !! input_path abspath args "streamlines.json" = None ->
  input_path abspath args "streamlines.json"
    ∉ [output_path abspath args (fn_nodes_out args);
       output_path abspath args (fn_subjects_out args)] ->
  run (output_beta_to_afq abspath beta_hat cols args) w =
    (Err (FileNotFoundError (input_path abspath args "streamlines.json")),
     mkWorld (dirs w)
       (<[output_path abspath args (fn_subjects_out args) := CsvFile tbl]>
          (<[output_path abspath args (fn_nodes_out args) :=
               CsvFile (df_cols (concat_rows
                          (mkDF (range_index (table_rows t)) t) df_beta))]>
             (files w)))
       (trace w ++ [ReadFile (input_path abspath args (fn_nodes_in args));
                    WriteFile (output_path abspath args (fn_nodes_out args));
                    ReadFile (input_path abspath args (fn_subjects_in args));
                    WriteFile (output_path abspath args (fn_subjects_out args))])).
Proof.
  intros Hi Hj Hij Hn Hb Hs Hsub Hne Htbl Hsl Hout.
  rewrite !not_elem_of_cons in Hout. destruct Hout as (Hout1 & Hout2 & _).
  rewrite (run_until_beta_frame _ _ _ _ i j t), Hb, Hs by done.
  rewrite run_bind. unfold read_csv at 1. cbn [run dirs files trace log].
  rewrite lookup_insert_ne, Hsub by done.
  rewrite run_bind, run_lift.
  change (df_cols (mkDF (range_index (table_rows st)) st)) with st.
  rewrite Htbl.
  rewrite run_bind. unfold write_file at 1. cbn [run dirs files trace log].
  rewrite run_bind. unfold copyfile at 1. cbn [run dirs files trace log].
  rewrite !lookup_insert_ne, Hsl by done.
  by rewrite <- !app_assoc.
Qed.

(** X6.  A call that returns has found two different directories, returns
    the two output table paths, and has copied the two sidecar files
    unchanged, provided no output path is one of the sidecar inputs. *)
Theorem sidecar_files_are_copied_unchanged beta_hat cols args w out w' :
  run (output_beta_to_afq abspath beta_hat cols args) w = (Ok out, w') ->
  input_path abspath args "streamlines.json"
    ∉ [output_path abspath args (fn_nodes_out args);
       output_path abspath args (fn_subjects_out args)] ->
  input_path abspath args "params.json" ∉ output_paths abspath args ->
  output_path abspath args "streamlines.json"
    <> output_path abspath args "params.json" ->
  out = mkOutputFiles (output_path abspath args (fn_nodes_out args))
                      (output_path abspath args (fn_subjects_out args)) /\
  (exists i j, dirs w !! abspath (workdir_in args) = Some i /\
               dirs w !! abspath (workdir_out args) = Some j /\ i <> j) /\
  (exists sl pa,
     files w !! input_path abspath args "streamlines.json" = Some sl /\
     files w' !! output_path abspath args "streamlines.json" = Some sl /\
     files w !! input_path abspath args "params.json" = Some pa /\
     files w' !! output_path abspath args "params.json" = Some pa).
Proof.
  intros Hrun Hl Hp Hlp.
  apply output_beta_to_afq_Ok_inv in Hrun
    as (i & j & t & df0 & df & st & tbl & sl & pa & Hi & Hj & Hij & _ & _ & _
        & _ & _ & Hsl & Hpa & -> & ->).
  unfold output_paths in Hp.
  rewrite !not_elem_of_cons in Hl. rewrite !not_elem_of_cons in Hp.
  destruct Hl as (Hl1 & Hl2 & _). destruct Hp as (Hp1 & Hp2 & Hp3 & _ & _).
  rewrite !lookup_insert_ne in Hsl by done.
  rewrite !lookup_insert_ne in Hpa by done.
  split; [done|]. split; [by exists i, j|].
  exists sl, pa. cbn [files]. split; [done|]. split.
  - by rewrite lookup_insert_ne, lookup_insert_eq.
  - split; [done|]. by rewrite lookup_insert_eq.
Qed.

End Failures.

(** ** The placeholder row of the subjects table *)

Lemma update_rows_lookup mask (f : value -> value) data p :
  update_rows mask f data !! p =
    (fun d => if default false (mask !! p) then f d else d) <$> data !! p.
Proof.
  revert data p. induction mask as [|b mask IH]; intros data p.
  - cbn. destruct data; cbn; by destruct (_ !! p).
  - destruct data as [|d data]; [done|]. destruct p as [|p]; [done|].
    cbn. apply IH.
Qed.

Lemma length_update_rows mask (f : value -> value) data :
  length (update_rows mask f data) = length data.
Proof.
  revert data. induction mask as [|b mask IH]; intros [|d data]; cbn; auto.
Qed.

Lemma subject_row_cell (names : list string) name :
  name ∈ names ->
  row_cell (<["subjectID" := Str "beta_hat"]>
              (list_to_map (map (fun key => (key, Str "")) names)))
           name
  = placeholder_cell name.
Proof.
  intros Hin. unfold row_cell, placeholder_cell.
  destruct (decide (name = "subjectID")) as [->|Hne].
  - by rewrite lookup_insert_eq.
  - rewrite lookup_insert_ne by done. by rewrite list_to_map_const.
Qed.

(** X7.  The placeholder row is written at the row label equal to the number
    of subjects.  When the index column of the subjects file already
    carries that label (a numbering that starts at one, say), no row is
    appended: every row with that label is overwritten by the placeholder
    and all other rows are kept. *)
Theorem placeholder_row_overwrites_the_row_of_its_label
    index_name index subject_cols :
  Int (Z.of_nat (length index)) ∈ index ->
  exists cols',
    add_subject_row ((index_name, index) :: subject_cols)
      = Ok ((index_name, index) :: cols') /\
    cols'.*1 = subject_cols.*1 /\
    Forall2 (fun c c' : string * list value =>
               length c'.2 = length c.2 /\
               forall p d, c.2 !! p = Some d ->
                 c'.2 !! p =
                   Some (if decide (index !! p
                                    = Some (Int (Z.of_nat (length index))))
                         then placeholder_cell c.1 else d))
            subject_cols cols'.
Proof.
  intros Hin. unfold add_subject_row, loc_set_row, n_rows.
  cbn [df_index df_cols]. rewrite bool_decide_eq_true_2 by done.
  cbn [mbind result_bind df_index df_cols].
  eexists. split; [done|]. split.
  - rewrite <- list_fmap_compose. by apply list_fmap_ext.
  - apply Forall2_fmap_r, Forall_Forall2_diag, Forall_forall.
    intros [name data] Hc. unfold compose. cbv beta. cbn [fst snd]. split; [apply length_update_rows|].
    intros p d Hd. cbn [fst snd]. rewrite update_rows_lookup, Hd. cbn [fmap option_fmap option_map].
    rewrite list_lookup_fmap.
    assert (Hname : name ∈ columns (mkDF index subject_cols)).
    { apply elem_of_columns. by exists data. }
    destruct (index !! p) as [l|] eqn:Hl; cbn [fmap option_fmap option_map default].
    + destruct (decide (Some l = Some (Int (Z.of_nat (length index))))) as [[= ->]|Hne].
      * rewrite bool_decide_eq_true_2 by done. by rewrite subject_row_cell.
      * rewrite bool_decide_eq_false_2; [done|]. congruence.
    + by rewrite decide_False.
Qed.

Section Directories.

Context (abspath : string -> string).

(** X8.  The output directory is not created.  When the input directory
    exists and the output directory does not, the call fails with
    [FileNotFoundError] for the output directory, and nothing has been read
    or written. *)
Theorem missing_output_directory_is_not_created beta_hat cols args w i :
  dirs w !! abspath (workdir_in args) = Some i ->
  dirs w !! abspath (workdir_out args) = None ->
  run (output_beta_to_afq abspath beta_hat cols args) w
    = (Err (FileNotFoundError (abspath (workdir_out args))), w).
Proof.
  intros Hi Hj. unfold output_beta_to_afq.
  rewrite run_bind. unfold samefile at 1. cbn [run]. by rewrite Hi, Hj.
Qed.

End Directories.

(** ** The scaling loop *)

Lemma traverse_names {A} (g : string * list value -> result A)
    (l : list (string * list value)) (ys : list (string * A)) :
  traverse (fun c : string * list value => xs ← g c; Ok (c.1, xs)) l = Ok ys ->
  ys.*1 = l.*1.
Proof.
  revert ys. induction l as [|c l IH]; intros ys; cbn [traverse].
  - by intros [= <-].
  - destruct (g c) as [x|]; cbn [mbind result_bind]; [|discriminate].
    destruct (traverse _ l) as [ys'|]; cbn [mbind result_bind]; [|discriminate].
    intros [= <-]. cbn. f_equal. by apply IH.
Qed.

Lemma tract_stat_names stat df tract s :
  tract_stat stat df tract = Ok s ->
  forall m, m ∈ s.*1 -> m ∉ key_columns.
Proof.
  unfold tract_stat, drop_strict.
  destruct (List.filter _ key_columns); cbn [mbind result_bind]; [|discriminate].
  destruct (tract_mask df tract) as [mask|]; cbn [mbind result_bind];
    [|discriminate].
  intros Ht m Hm.
  assert (Hn : s.*1 = (df_cols (drop_columns key_columns df)).*1).
  { apply (traverse_names
             (fun c => xs ← traverse as_float (select_rows mask c.2);
                       Ok (stat xs))).
    rewrite <- Ht. clear.
    induction (df_cols (drop_columns key_columns df)) as [|c l IH]; [done|].
    cbn [traverse]. destruct (traverse as_float _); cbn [mbind result_bind];
      [|done].
    by rewrite IH. }
  rewrite Hn in Hm. change (m ∈ columns (drop_columns key_columns df)) in Hm.
  by apply elem_of_columns_drop in Hm as [_ Hm].
Qed.

Lemma rescaled_column_refl tracts tcol c : rescaled_column tracts tcol c c.
Proof. done. Qed.

Lemma rescaled_column_trans t tracts tcol c c' c'' :
  rescaled_column [t] tcol c c' -> rescaled_column tracts tcol c' c'' ->
  rescaled_column (t :: tracts) tcol c c''.
Proof.
  intros (Hn1 & Hl1 & Hk1 & Hr1) (Hn2 & Hl2 & Hk2 & Hr2).
  split; [congruence|]. split; [congruence|]. split.
  - intros Hkey. rewrite Hk2, Hk1; [done..|]. by rewrite Hn1.
  - intros p v Hv Hnot. rewrite (Hr2 p v), (Hr1 p v); [done|done| |done|].
    + intros t' ->%list_elem_of_singleton. apply Hnot. left.
    + intros t' Ht'. apply Hnot. by right.
Qed.

Lemma rescaled_columns_getitem tracts tcol cs cs' idx idx' name :
  Forall2 (rescaled_column tracts tcol) cs cs' ->
  name ∈ key_columns ->
  getitem (mkDF idx' cs') name = getitem (mkDF idx cs) name.
Proof.
  intros Hf Hkey. unfold getitem, cols_named. cbn [df_cols].
  induction Hf as [|[n d] [n' d'] cs cs' (Hn & _ & Hk & _) Hf IH]; [done|].
  cbn [fst snd] in *. subst n'. rewrite !filter_cons. cbn [fst].
  destruct (decide (n = name)) as [->|Hne]; [|exact IH].
  by rewrite Hk.
Qed.

Section ScalingLoop.

Context (mean std mean_b std_b : list float64 -> float64).

Lemma scale_tract_columns df_nodes tract df_beta df' tcol :
  scale_tract_with mean std mean_b std_b df_nodes tract df_beta = Ok df' ->
  getitem df_beta "tractID" = Ok tcol ->
  df_index df' = df_index df_beta /\
  Forall2 (rescaled_column [tract] tcol) (df_cols df_beta) (df_cols df').
Proof.
  unfold scale_tract_with. intros Hs Htcol.
  destruct (tract_stat mean df_nodes tract) as [f_mean|];
    cbn [mbind result_bind] in Hs; [|discriminate].
  destruct (tract_stat std df_nodes tract) as [f_std|];
    cbn [mbind result_bind] in Hs; [|discriminate].
  destruct (tract_stat mean_b df_beta tract) as [b_mean|] eqn:Hb;
    cbn [mbind result_bind] in Hs; [|discriminate].
  destruct (tract_stat std_b df_beta tract) as [b_std|];
    cbn [mbind result_bind] in Hs; [|discriminate].
  unfold tract_mask in Hs. rewrite Htcol in Hs. cbn [mbind result_bind] in Hs.
  injection Hs as <-. cbn [df_index df_cols]. split; [done|].
  apply Forall2_fmap_r, Forall_Forall2_diag, Forall_forall.
  intros [n d] _. unfold compose. cbv beta. cbn [fst snd].
  destruct (bool_decide (n ∈ b_mean.*1)) eqn:Hm; [|apply rescaled_column_refl].
  apply bool_decide_eq_true in Hm.
  split; [done|]. cbn [fst snd]. split; [apply length_update_rows|]. split.
  - intros Hkey. by apply (tract_stat_names _ _ _ _ Hb) in Hm.
  - intros p v Hv Hnot. rewrite update_rows_lookup, list_lookup_fmap, Hv.
    cbn [fmap option_fmap option_map default].
    rewrite Hnot by left. by destruct (d !! p).
Qed.

Lemma elem_of_distinct (l : list value) t : t ∈ distinct l -> t ∈ l.
Proof.
  induction l as [|v l IH]; [done|]. cbn [distinct].
  rewrite !elem_of_cons, list_elem_of_filter. tauto.
Qed.

Lemma scale_loop_columns df_nodes tracts :
  forall df_beta df' tcol,
  for_each (scale_tract_with mean std mean_b std_b df_nodes) tracts df_beta = Ok df' ->
  getitem df_beta "tractID" = Ok tcol ->
  df_index df' = df_index df_beta /\
  Forall2 (rescaled_column tracts tcol) (df_cols df_beta) (df_cols df').
Proof.
  induction tracts as [|t tracts IH]; intros df_beta df' tcol.
  - intros [= <-] _. split; [done|].
    apply Forall_Forall2_diag, Forall_forall. intros c _.
    apply rescaled_column_refl.
  - rewrite for_each_cons.
    destruct (scale_tract_with mean std mean_b std_b df_nodes t df_beta) as [df1|] eqn:H1;
      cbn [mbind result_bind]; [|discriminate].
    intros Hrest Htcol.
    destruct (scale_tract_columns _ _ _ _ _ H1 Htcol) as [Hi1 Hc1].
    assert (Htcol1 : getitem df1 "tractID" = Ok tcol).
    { rewrite <- Htcol. destruct df1 as [i1 c1], df_beta as [i0 c0].
      eapply rescaled_columns_getitem; [exact Hc1|].
      unfold key_columns. left. }
    destruct (IH _ _ _ Hrest Htcol1) as [Hi2 Hc2].
    split; [congruence|].
    clear -Hc1 Hc2. revert Hc2. generalize (df_cols df').
    induction Hc1 as [|c c1 cs cs1 Hc Hcs IHc]; intros l Hc2.
    + inversion Hc2. constructor.
    + inversion Hc2 as [|? c2 ? cs2 Hc' Hcs']; subst. constructor.
      * by eapply rescaled_column_trans.
      * by apply IHc.
Qed.

End ScalingLoop.

(** X9.  Scaling keeps the shape of the synthetic rows.  When the loop of
    [scale_beta] returns, the row labels, the column labels and the length
    of every column are as before, every key column (tractID, subjectID,
    nodeID) is unchanged, and so is every row whose tract does not occur in
    the nodes table. *)
Theorem scaling_keeps_shape_and_key_columns df_nodes df_beta df' ntracts tcol :
  scale_beta_frame df_nodes df_beta = Ok df' ->
  getitem df_nodes "tractID" = Ok ntracts ->
  getitem df_beta "tractID" = Ok tcol ->
  df_index df' = df_index df_beta /\
  columns df' = columns df_beta /\
  Forall2 (rescaled_column ntracts tcol) (df_cols df_beta) (df_cols df').
Proof.
  unfold scale_beta_frame, scale_beta_frame_with. intros Hs Hn Ht.
  rewrite Hn in Hs. cbn [mbind result_bind] in Hs.
  destruct (scale_loop_columns _ _ _ _ _ _ _ _ _ Hs Ht) as [Hi Hc].
  split; [done|].
  assert (Hc' : Forall2 (rescaled_column ntracts tcol) (df_cols df_beta) (df_cols df')).
  { eapply Forall2_impl; [exact Hc|].
    intros c c' (H1 & H2 & H3 & H4). repeat split; try done.
    intros p v Hv Hnot. apply (H4 p v Hv).
    intros t Hin. by apply Hnot, elem_of_distinct. }
  split; [|done]. unfold columns.
  clear -Hc'. induction Hc' as [|c c' cs cs' (Hn & _) _ IH]; [done|].
  cbn. by rewrite Hn, IH.
Qed.

(** ** The order of the coefficients *)

Lemma sorted_unique_perm {A} (cmp : A -> A -> comparison) `{!OrderCompare cmp}
    (l l' : list A) :
  l ≡ₚ l' -> sorted_unique cmp l = sorted_unique cmp l'.
Proof.
  intros Hp. apply (StronglySorted_unique_strong (cmp_lt cmp)).
  - intros x y _ _ Hxy Hyx. exfalso. apply (cmp_lt_irrefl cmp x).
    unfold cmp_lt in *. by apply (compare_trans x y x).
  - apply sorted_unique_sorted, _.
  - apply sorted_unique_sorted, _.
  - apply NoDup_Permutation; [apply sorted_unique_NoDup, _..|].
    intros x. rewrite !(elem_of_sorted_unique cmp). by rewrite Hp.
Qed.

Lemma coefficient_absent key (cells : list (ColumnKey * value)) :
  key ∉ cells.*1 -> coefficient key cells = NaN.
Proof.
  induction cells as [|[k v] cells IH]; [done|]. cbn [coefficient fmap list_fmap fst].
  rewrite not_elem_of_cons. intros [Hne Hnot].
  rewrite decide_False by done. by apply IH.
Qed.

Lemma coefficient_present key v (cells : list (ColumnKey * value)) :
  NoDup cells.*1 -> (key, v) ∈ cells -> coefficient key cells = v.
Proof.
  induction cells as [|[k v'] cells IH]; [by intros _ ?%elem_of_nil|].
  cbn [coefficient fmap list_fmap fst]. rewrite NoDup_cons, elem_of_cons.
  intros [Hk Hnd] [[= <- <-]|Hin].
  - by rewrite decide_True.
  - rewrite decide_False; [by apply IH|].
    intros ->. apply Hk. apply list_elem_of_fmap. by exists (key, v).
Qed.

Lemma coefficient_perm key (cells cells' : list (ColumnKey * value)) :
  NoDup cells.*1 -> cells ≡ₚ cells' ->
  coefficient key cells = coefficient key cells'.
Proof.
  intros Hnd Hp.
  assert (Hnd' : NoDup cells'.*1) by by rewrite <- Hp.
  destruct (decide (key ∈ cells.*1)) as [Hin|Hnot].
  - apply list_elem_of_fmap in Hin as ([k v] & -> & Hin). cbn [fst].
    rewrite (coefficient_present k v cells) by done.
    rewrite (coefficient_present k v cells'); [done|done|]. by rewrite <- Hp.
  - rewrite !coefficient_absent; [done| |done]. by rewrite <- Hp.
Qed.

(** X10.  The order in which the coefficients are passed is irrelevant.  Two
    calls whose (column key, coefficient) pairs are the same up to their
    order build the same synthetic rows, or fail alike. *)
Theorem coefficient_order_is_irrelevant
    beta_hat cols beta_hat' cols' nodes_columns :
  length beta_hat = length cols ->
  length beta_hat' = length cols' ->
  zip cols beta_hat ≡ₚ zip cols' beta_hat' ->
  beta_frame beta_hat cols nodes_columns
  = beta_frame beta_hat' cols' nodes_columns.
Proof.
  intros Hlen Hlen' Hp.
  assert (Hcols : cols ≡ₚ cols').
  { rewrite <- (fst_zip cols beta_hat), <- (fst_zip cols' beta_hat') by lia.
    by rewrite Hp. }
  unfold beta_frame.
  destruct (decide (cols = [])) as [->|Hnil].
  { apply Permutation_nil in Hcols as ->. reflexivity. }
  rewrite (decide_False (P := cols' = [])).
  2: { intros ->. by apply Hnil, Permutation_nil_r. }
  rewrite (decide_True (P := length beta_hat = length cols)) by done.
  rewrite (decide_True (P := length beta_hat' = length cols')) by done.
  cbn [mbind result_bind].
  destruct (decide (NoDup cols)) as [Hnd|Hnd].
  2: { rewrite (decide_False (P := NoDup cols')); [done|]. by rewrite <- Hcols. }
  rewrite (decide_True (P := NoDup cols')) by by rewrite <- Hcols.
  cbn [mbind result_bind].
  rewrite <- (sorted_unique_perm String.compare _ _
                (Permutation_map (fun k : ColumnKey => k.1.2) Hcols)).
  rewrite <- (sorted_unique_perm pair_compare _ _
                (Permutation_map (fun k : ColumnKey => (k.1.1, k.2)) Hcols)).
  destruct (bool_decide ("nodeID" ∈ _)); [done|].
  destruct (bool_decide ("tractID" ∈ _)); [done|].
  cbn [mbind result_bind].
  do 5 f_equal. apply map_ext. intros m. f_equal. apply map_ext. intros r.
  apply coefficient_perm; [|done]. by rewrite fst_zip by lia.
Qed.

(** ** The loader: sessions, groups and the returned tuple *)

Lemma subjectID_not_unnamed df : "subjectID" ∉ unnamed_cols df.
Proof. intros H. by apply unnamed_cols_spec in H. Qed.

Lemma getitem_absent df name :
  name ∉ columns df -> getitem df name = Err (KeyError name).
Proof. intros H. unfold getitem. by apply cols_named_nil in H as ->. Qed.

Lemma getitem_present df name :
  name ∈ columns df -> exists data, getitem df name = Ok data.
Proof.
  intros H. unfold getitem.
  destruct (cols_named name df) as [|c cs] eqn:Hc; [|by eexists].
  by apply cols_named_nil in Hc.
Qed.

Lemma elem_of_group_names_of (feature_names : list ColumnKey) t m :
  (t, m) ∈ group_names_of feature_names <-> (t, m, 0) ∈ feature_names.
Proof.
  unfold group_names_of. rewrite list_elem_of_In, in_map_iff. split.
  - intros ([[t' m'] n] & [= -> ->] & Hin). cbn [fst snd] in *.
    apply filter_In in Hin as [Hin Hn]. cbn [snd] in Hn.
    apply Z.eqb_eq in Hn as ->. by apply list_elem_of_In.
  - intros Hin. exists (t, m, 0). split; [done|].
    apply filter_In. split; [by apply list_elem_of_In|done].
Qed.

Lemma NoDup_group_names_of (feature_names : list ColumnKey) :
  NoDup feature_names -> NoDup (group_names_of feature_names).
Proof.
  unfold group_names_of. induction 1 as [|[[t m] n] l Hnot Hnd IH]; cbn.
  { constructor. }
  destruct (Z.eqb_spec n 0) as [->|Hn]; [|done]. cbn. constructor; [|done].
  intros Hin. apply Hnot. by apply elem_of_group_names_of.
Qed.

Section Tuple.

Context (float_repr : float64 -> string).
Context (fit_transform : DataFrame -> result MapperFit).

Lemma prepare_nodes_without_sessions args nodes_csv nodes sessions :
  "sessionID" ∉ columns nodes_csv ->
  prepare_nodes float_repr args nodes_csv = Ok (nodes, sessions) ->
  sessions = None /\ concat_subject_session args = false.
Proof.
  intros Hno. unfold prepare_nodes.
  assert (Hno' : "sessionID" ∉
            columns (drop_columns (unnamed_cols nodes_csv) nodes_csv)).
  { intros [H _]%elem_of_columns_drop. by apply Hno. }
  assert (Hh : has_column (drop_columns (unnamed_cols nodes_csv) nodes_csv)
                 "sessionID" = false).
  { destruct (has_column _ _) eqn:Hh; [|done]. by apply has_column_true in Hh. }
  rewrite Hh. cbn [mbind result_bind].
  destruct (concat_subject_session args).
  - destruct (getitem _ "subjectID"); cbn [mbind result_bind]; [|discriminate].
    rewrite (getitem_absent _ _ Hno'). discriminate.
  - cbn [mbind result_bind].
    destruct (match dwi_metrics args with Some _ => _ | None => _ end);
      cbn [mbind result_bind]; [|discriminate].
    by intros [= <- <-].
Qed.

Lemma load_afq_data_Ok_tuple args nodes_csv subjects_csv out :
  load_afq_data float_repr fit_transform args nodes_csv subjects_csv = Ok out ->
  exists nodes sessions fit,
    prepare_nodes float_repr args nodes_csv = Ok (nodes, sessions) /\
    fit_transform nodes = Ok fit /\
    out_groups out = groups_ fit /\
    out_feature_names out = feature_names_ fit /\
    out_group_names out = group_names_of (feature_names_ fit) /\
    out_sessions out = (if return_sessions args then Some sessions else None) /\
    (if unsupervised args
     then out_y out = None /\ out_classes out = None
     else exists y classes,
            load_targets args (subjects_ fit) subjects_csv = Ok (y, classes) /\
            out_y out = Some y /\ out_classes out = Some classes).
Proof.
  unfold load_afq_data.
  destruct (prepare_nodes float_repr args nodes_csv) as [[nodes sessions]|];
    cbn [mbind result_bind]; [|discriminate].
  destruct (fit_transform nodes) as [fit|] eqn:Hfit; cbn [mbind result_bind];
    [|discriminate].
  destruct (unsupervised args).
  - intros [= <-]. by exists nodes, sessions, fit.
  - destruct (load_targets args (subjects_ fit) subjects_csv)
      as [[y classes]|] eqn:Ht; cbn [mbind result_bind]; [|discriminate].
    intros [= <-]. exists nodes, sessions, fit. cbn.
    split; [done|]. split; [done|]. split; [done|]. split; [done|].
    split; [done|]. split; [done|]. exists y, classes. by rewrite Ht.
Qed.

(** X11.  Subject and session cannot be concatenated without a session
    column.  With [concat_subject_session=True] and a nodes table that has
    no sessionID column, the call fails with [KeyError]: for sessionID when
    the table has a subjectID column, and for subjectID otherwise. *)
Theorem concatenation_needs_a_session_column args nodes_csv subjects_csv :
  concat_subject_session args = true ->
  "sessionID" ∉ columns nodes_csv ->
  load_afq_data float_repr fit_transform args nodes_csv subjects_csv
  = Err (KeyError (if has_column nodes_csv "subjectID"
                   then "sessionID" else "subjectID")).
Proof.
  intros Hc Hno. unfold load_afq_data, prepare_nodes.
  assert (Hno' : "sessionID" ∉
            columns (drop_columns (unnamed_cols nodes_csv) nodes_csv)).
  { intros [H _]%elem_of_columns_drop. by apply Hno. }
  assert (Hh : has_column (drop_columns (unnamed_cols nodes_csv) nodes_csv)
                 "sessionID" = false).
  { destruct (has_column _ _) eqn:Hh; [|done]. by apply has_column_true in Hh. }
  rewrite Hh, Hc. cbn [mbind result_bind].
  rewrite (getitem_drop "subjectID") by apply subjectID_not_unnamed.
  destruct (has_column nodes_csv "subjectID") eqn:Hs.
  - apply has_column_true, getitem_present in Hs as [sid ->].
    cbn [mbind result_bind]. by rewrite (getitem_absent _ _ Hno').
  - rewrite (getitem_absent nodes_csv "subjectID"); [reflexivity|].
    intros H%has_column_true. congruence.
Qed.

(** X12.  Without a session column there are no sessions.  When the nodes
    table has no sessionID column and the call returns, the sessions
    component is [None] if [return_sessions] is set (and absent otherwise),
    and subject and session were not concatenated. *)
Theorem sessions_are_none_without_a_session_column
    args nodes_csv subjects_csv out :
  "sessionID" ∉ columns nodes_csv ->
  load_afq_data float_repr fit_transform args nodes_csv subjects_csv = Ok out ->
  out_sessions out = (if return_sessions args then Some None else None) /\
  concat_subject_session args = false.
Proof.
  intros Hno Hload.
  apply load_afq_data_Ok_tuple in Hload
    as (nodes & sessions & fit & Hprep & _ & _ & _ & _ & Hs & _).
  destruct (prepare_nodes_without_sessions _ _ _ _ Hno Hprep) as [-> Hc].
  by split.
Qed.

(** X13.  The group names are the (tract, metric) pairs of the features at
    node 0, in the order of the feature names.  A pair is a group name
    exactly when its node 0 is a feature, so a mapper whose nodes are not
    numbered from 0 yields no group names; distinct feature names give
    distinct group names. *)
Theorem group_names_are_the_features_at_node_zero
    args nodes_csv subjects_csv out :
  load_afq_data float_repr fit_transform args nodes_csv subjects_csv = Ok out ->
  (forall t m, (t, m) ∈ out_group_names out
               <-> (t, m, 0) ∈ out_feature_names out) /\
  ((forall k : ColumnKey, k ∈ out_feature_names out -> k.2 <> 0) ->
   out_group_names out = []) /\
  (NoDup (out_feature_names out) -> NoDup (out_group_names out)).
Proof.
  intros Hload.
  apply load_afq_data_Ok_tuple in Hload
    as (nodes & sessions & fit & _ & _ & _ & -> & -> & _).
  split; [apply elem_of_group_names_of|]. split; [|apply NoDup_group_names_of].
  intros Hnone. destruct (group_names_of (feature_names_ fit)) as [|[t m] l] eqn:Hg;
    [done|].
  assert (Hin : (t, m) ∈ group_names_of (feature_names_ fit)) by (rewrite Hg; left).
  apply elem_of_group_names_of in Hin. by apply Hnone in Hin.
Qed.

(** X14.  The length of the returned tuple depends on the two flags only:
    five components, two more (y and classes) for a supervised call and one
    more (sessions) with [return_sessions]. *)
Theorem tuple_length_follows_the_flags args nodes_csv subjects_csv out :
  load_afq_data float_repr fit_transform args nodes_csv subjects_csv = Ok out ->
  tuple_length out
  = (5 + (if unsupervised args then 0 else 2)
       + (if return_sessions args then 1 else 0))%nat.
Proof.
  intros Hload.
  apply load_afq_data_Ok_tuple in Hload
    as (nodes & sessions & fit & _ & _ & _ & _ & _ & Hs & Hy).
  unfold tuple_length. rewrite Hs.
  destruct (unsupervised args).
  - destruct Hy as [-> ->]. by destruct (return_sessions args).
  - destruct Hy as (y & classes & _ & -> & ->). by destruct (return_sessions args).
Qed.

(** X15.  An unsupervised call does not depend on the subjects file or on the
    target arguments.  Two unsupervised calls on the same nodes table that
    agree on [dwi_metrics], [concat_subject_session] and [return_sessions]
    have the same outcome whatever the subjects tables and the other
    arguments are, and a returned tuple has neither y nor classes. *)
Theorem unsupervised_call_ignores_the_subjects_file
    args args' nodes_csv subjects_csv subjects_csv' :
  unsupervised args = true -> unsupervised args' = true ->
  dwi_metrics args = dwi_metrics args' ->
  concat_subject_session args = concat_subject_session args' ->
  return_sessions args = return_sessions args' ->
  load_afq_data float_repr fit_transform args nodes_csv subjects_csv
  = load_afq_data float_repr fit_transform args' nodes_csv subjects_csv' /\
  forall out,
    load_afq_data float_repr fit_transform args nodes_csv subjects_csv = Ok out ->
    out_y out = None /\ out_classes out = None.
Proof.
  intros Hu Hu' Hd Hc Hr. split.
  - unfold load_afq_data, prepare_nodes. by rewrite Hu, Hu', Hd, Hc, Hr.
  - intros out Hload.
    apply load_afq_data_Ok_tuple in Hload
      as (nodes & sessions & fit & _ & _ & _ & _ & _ & _ & Hy).
    by rewrite Hu in Hy.
Qed.

End Tuple.

(** ** The loader: the phenotype table aligned with the subjects *)

Lemma columns_merge_left_index keys right :
  columns (merge_left_index keys right) = columns right.
Proof.
  unfold merge_left_index, columns. cbn [df_cols].
  rewrite <- list_fmap_compose. by apply list_fmap_ext.
Qed.

Lemma merge_left_index_lengths keys right :
  Forall (fun c : string * list value =>
            length c.2 = n_rows (merge_left_index keys right))
         (df_cols (merge_left_index keys right)).
Proof.
  unfold merge_left_index, n_rows. cbn [df_cols df_index].
  apply Forall_forall. intros c Hc.
  apply list_elem_of_fmap in Hc as (c0 & -> & _). cbn [snd].
  by rewrite length_map, length_fmap.
Qed.

Lemma join_plan_labels keys labels :
  (join_plan keys labels).*1
  = keys ≫= (fun k => replicate (max 1 (length (positions k labels))) k).
Proof.
  unfold join_plan. induction keys as [|k keys IH]; [done|].
  rewrite !bind_cons, fmap_app, IH. f_equal.
  destruct (positions k labels) as [|p ps]; [done|].
  change (max 1 (length (p :: ps))) with (length (p :: ps)).
  generalize (p :: ps). clear. intros ps.
  induction ps as [|q ps IH]; [done|]. cbn. f_equal. exact IH.
Qed.

Lemma length_repeated_keys (count : value -> nat) (keys : list value) :
  (length keys
   <= length (keys ≫= (fun k => replicate (max 1 (count k)) k)))%nat /\
  (length (keys ≫= (fun k => replicate (max 1 (count k)) k)) = length keys
   <-> Forall (fun k => (count k <= 1)%nat) keys).
Proof.
  induction keys as [|k keys [IH1 IH2]]; [by split|].
  rewrite bind_cons, length_app, length_replicate. cbn [length]. split; [lia|].
  rewrite Forall_cons. split.
  - intros H. split; [lia|]. apply IH2. lia.
  - intros [Hk Hrest]. apply IH2 in Hrest. lia.
Qed.

Lemma columns_set_index name raw labels c :
  c ∈ columns (mkDF labels
                 (filter (fun c : string * list value => c.1 ≠ name)
                         (df_cols raw)))
  <-> c ∈ columns raw /\ c <> name.
Proof.
  unfold columns. cbn [df_cols]. rewrite !list_elem_of_fmap. split.
  - intros ([n d] & -> & [Hne Hin]%list_elem_of_filter). cbn [fst] in *.
    split; [|done]. by exists (n, d).
  - intros [([n d] & -> & Hin) Hne]. exists (n, d). split; [done|].
    by apply list_elem_of_filter.
Qed.

Lemma align_targets_unfold args subjects subjects_csv labels :
  getitem subjects_csv (index_col args) = Ok labels ->
  align_targets args subjects subjects_csv =
    Ok (merge_left_index subjects
          (drop_columns
             (unnamed_cols
                (mkDF labels
                   (filter (fun c : string * list value => c.1 ≠ index_col args)
                           (df_cols subjects_csv))))
             (mkDF labels
                (filter (fun c : string * list value => c.1 ≠ index_col args)
                        (df_cols subjects_csv))))).
Proof.
  intros Hl. unfold align_targets. by rewrite (set_index_col_getitem _ _ labels).
Qed.

(** X16.  The aligned phenotype table for any subjects file.  Every subject
    keeps its place and stands once for each phenotype row that carries
    its label, and once when there is none; every column has one cell per
    row.  So the target never has fewer rows than there are subjects, and
    it has as many exactly when no subject is repeated in the subjects
    file. *)
Theorem phenotype_rows_repeat_with_the_subject
    args subjects subjects_csv labels :
  getitem subjects_csv (index_col args) = Ok labels ->
  exists targets,
    align_targets args subjects subjects_csv = Ok targets /\
    df_index targets
    = subjects ≫= (fun s => replicate (max 1 (length (positions s labels))) s) /\
    Forall (fun c : string * list value => length c.2 = n_rows targets)
           (df_cols targets) /\
    (length subjects <= n_rows targets)%nat /\
    (n_rows targets = length subjects
     <-> Forall (fun s => (length (positions s labels) <= 1)%nat) subjects).
Proof.
  intros Hl. eexists. split; [by apply align_targets_unfold|].
  assert (Hidx : forall right, df_index right = labels ->
    df_index (merge_left_index subjects right)
    = subjects ≫= (fun s => replicate (max 1 (length (positions s labels))) s)).
  { intros right <-. apply join_plan_labels. }
  split; [by apply Hidx|]. split; [apply merge_left_index_lengths|].
  unfold n_rows. rewrite Hidx by done.
  apply (length_repeated_keys (fun s => length (positions s labels))).
Qed.

Section Targets.

Context (float_repr : float64 -> string).
Context (fit_transform : DataFrame -> result MapperFit).

(** X17.  A target column must be a data column of the subjects file.  When
    [target_cols] names the index column, a column with "Unnamed:" in its
    label, or a label that the subjects file does not have, a supervised
    call that gets as far as the targets fails with [KeyError] for one of
    the names in [target_cols]. *)
Theorem target_column_must_be_a_phenotype_column
    args nodes_csv subjects_csv nodes sessions fit labels tc c :
  unsupervised args = false ->
  prepare_nodes float_repr args nodes_csv = Ok (nodes, sessions) ->
  fit_transform nodes = Ok fit ->
  getitem subjects_csv (index_col args) = Ok labels ->
  target_cols args = Some tc ->
  c ∈ tc ->
  c = index_col args \/ is_unnamed c = true \/ c ∉ columns subjects_csv ->
  exists k,
    load_afq_data float_repr fit_transform args nodes_csv subjects_csv
      = Err (KeyError k) /\
    k ∈ tc.
Proof.
  intros Hu Hprep Hfit Hl Htc Hc Hbad.
  rewrite (load_afq_data_supervised _ _ _ _ _ nodes sessions fit) by done.
  unfold load_targets. rewrite (align_targets_unfold _ _ _ labels) by done.
  cbn [mbind result_bind]. unfold select_targets, getitem_list. rewrite Htc.
  match goal with
  | |- context [select_cols tc ?df] =>
      destruct (select_cols_absent tc df c Hc) as (k & -> & Hk & _)
  end.
  - rewrite columns_merge_left_index.
    intros [Hin Hun]%elem_of_columns_drop.
    pose proof Hin as [Hraw Hne]%columns_set_index.
    destruct Hbad as [->|[Hbad|Hbad]]; [done| |done].
    apply Hun, elem_of_unnamed_cols. by split.
  - cbn [mbind result_bind]. by exists k.
Qed.

End Targets.

(** ** The loader: label encoding and the target array *)

Lemma select_cols_length names df cs :
  select_cols names df = Ok cs -> (length names <= length cs)%nat.
Proof.
  revert cs. induction names as [|n names IH]; intros cs; cbn [select_cols].
  - intros [= <-]. done.
  - destruct (cols_named n df) as [|c cs0]; [discriminate|].
    destruct (select_cols names df) as [rest|]; cbn [mbind result_bind];
      [|discriminate].
    intros [= <-]. specialize (IH rest eq_refl).
    cbn [app length]. rewrite length_app. lia.
Qed.

Lemma align_targets_Ok_inv args subjects subjects_csv targets :
  align_targets args subjects subjects_csv = Ok targets ->
  (length subjects <= n_rows targets)%nat /\
  Forall (fun c : string * list value => length c.2 = n_rows targets)
         (df_cols targets).
Proof.
  unfold align_targets.
  destruct (set_index_col (index_col args) subjects_csv) as [t0|];
    cbn [mbind result_bind]; [|discriminate].
  intros [= <-]. split; [|apply merge_left_index_lengths].
  unfold n_rows, merge_left_index. cbn [df_index].
  rewrite join_plan_labels.
  apply (length_repeated_keys
           (fun s => length (positions s (df_index
              (drop_columns (unnamed_cols t0) t0))))).
Qed.

Lemma concat_map_singleton {A B} (f : A -> B) (l : list A) :
  concat (map (fun i => [f i]) l) = map f l.
Proof. induction l as [|x l IH]; [done|]. cbn. by rewrite IH. Qed.

Lemma lookups_along_seq (data : list value) :
  map (fun i => default NaN (data !! i)) (seq 0 (length data)) = data.
Proof.
  apply list_eq. intros i.
  change (map ?f ?l) with (f <$> l). rewrite list_lookup_fmap.
  destruct (decide (i < length data)%nat) as [Hi|Hi].
  - rewrite lookup_seq_lt by done. cbn.
    destruct (lookup_lt_is_Some_2 data i Hi) as [v Hv]. by rewrite Hv.
  - rewrite lookup_seq_ge by lia. cbn. symmetry. apply lookup_ge_None_2. lia.
Qed.

Lemma frame_rows_single idx name (data : list value) :
  length data = length idx ->
  concat (frame_rows (mkDF idx [(name, data)])) = data.
Proof.
  intros Hlen. unfold frame_rows, row_at, n_rows. cbn [df_index df_cols map snd].
  rewrite <- Hlen.
  rewrite (concat_map_singleton (fun i => default NaN (data !! i))).
  apply lookups_along_seq.
Qed.

Section Encoded.

Context (float_repr : float64 -> string).
Context (fit_transform : DataFrame -> result MapperFit).

(** X18.  The classes dictionary of a supervised call that returns has one
    entry for each name in [label_encode_cols] and no other entry; it is
    empty when [label_encode_cols] is omitted. *)
Theorem classes_has_one_entry_per_encoded_column
    args nodes_csv subjects_csv out :
  unsupervised args = false ->
  load_afq_data float_repr fit_transform args nodes_csv subjects_csv = Ok out ->
  exists classes,
    out_classes out = Some classes /\
    (forall c, is_Some (classes !! c)
               <-> exists lec, label_encode_cols args = Some lec /\ c ∈ lec) /\
    (label_encode_cols args = None -> classes = ∅).
Proof.
  intros Hu Hload.
  apply load_afq_data_Ok_inv in Hload
    as (nodes & sessions & fit & _ & _ & _ & _ & _ & Hsup).
  destruct (Hsup Hu) as (y & classes & Ht & _ & Hcl).
  apply load_targets_Ok_inv in Ht as (targets & tc & y0 & y1 & _ & _ & _ & Hle & _).
  exists classes. split; [done|].
  pose proof Hle as (y1' & _ & _ & _ & Hkeys)%label_encode_Ok_inv.
  split; [done|]. intros Hnone. apply map_eq. intros c. rewrite lookup_empty.
  destruct (classes !! c) eqn:Hc; [|done].
  assert (Hs : is_Some (classes !! c)) by by rewrite Hc.
  apply Hkeys in Hs as (lec & Hlec & _). congruence.
Qed.

(** X19.  The shape of the target of any supervised call that returns.  The
    target has the rows of the aligned phenotype table, at least one per
    subject, and at least one column per name in [target_cols]; of these
    two axes the returned array keeps those whose length is not one. *)
Theorem target_keeps_the_axes_longer_than_one
    args nodes_csv subjects_csv out :
  unsupervised args = false ->
  load_afq_data float_repr fit_transform args nodes_csv subjects_csv = Ok out ->
  exists y targets tc y0,
    out_y out = Some y /\
    target_cols args = Some tc /\
    align_targets args (out_subjects out) subjects_csv = Ok targets /\
    getitem_list targets tc = Ok y0 /\
    shape y = filter (fun d => d <> 1%nat) [n_rows targets; n_cols y0] /\
    (length (out_subjects out) <= n_rows targets)%nat /\
    (length tc <= n_cols y0)%nat.
Proof.
  intros Hu Hload.
  apply load_afq_data_Ok_inv in Hload
    as (nodes & sessions & fit & _ & _ & _ & Hsub & _ & Hsup).
  destruct (Hsup Hu) as (y & classes & Ht & Hy & _).
  apply load_targets_Ok_inv in Ht
    as (targets & tc & y0 & y1 & Htc & Ha & Hsel & Hle & ->).
  rewrite Hsub. exists (squeeze (to_numpy y1)), targets, tc, y0.
  split; [done|]. split; [done|]. split; [done|]. split; [done|].
  apply label_encode_Ok_inv in Hle as (y1' & [= <-] & Hcols & Hidx & _).
  pose proof (getitem_list_index _ _ _ Hsel) as Hidx0.
  split.
  - rewrite squeeze_to_numpy_shape. unfold n_rows, n_cols.
    rewrite Hidx, Hidx0.
    assert (Hlen : length (df_cols y1) = length (df_cols y0)).
    { unfold columns in Hcols.
      by rewrite <- (length_fmap fst (df_cols y1)), Hcols, length_fmap. }
    by rewrite Hlen.
  - split; [by apply (align_targets_Ok_inv _ _ _ _ Ha)|].
    unfold getitem_list in Hsel.
    destruct (select_cols tc targets) as [cs|] eqn:Hcs; [|discriminate].
    cbn [mbind result_bind] in Hsel. injection Hsel as <-.
    unfold n_cols. cbn [df_cols]. by apply (select_cols_length _ _ _ Hcs).
Qed.

(** X20.  One label-encoded target column, the call of the test module
    [load_afq_data(workdir, target_cols=[c], label_encode_cols=[c])].  When
    it returns, column [c] is carried by exactly one column of the aligned
    phenotype table, the classes dictionary is [{c: classes}] for the
    sorted distinct values of that column, and y is the vector of the codes
    of the column, one per row (a scalar when there is a single row). *)
Theorem single_encoded_target_is_a_code_vector
    args nodes_csv subjects_csv c out :
  unsupervised args = false ->
  target_cols args = Some [c] ->
  label_encode_cols args = Some [c] ->
  load_afq_data float_repr fit_transform args nodes_csv subjects_csv = Ok out ->
  exists targets data cl,
    align_targets args (out_subjects out) subjects_csv = Ok targets /\
    cols_named c targets = [(c, data)] /\
    length data = n_rows targets /\
    unique_values data = Ok cl /\
    out_classes out = Some {[c := cl]} /\
    out_y out = Some (match codes_of cl data with
                      | [v] => Array0 v
                      | codes => Array1 codes
                      end).
Proof.
  intros Hu Htc Hlec Hload.
  apply load_afq_data_Ok_inv in Hload
    as (nodes & sessions & fit & _ & _ & _ & Hsub & _ & Hsup).
  destruct (Hsup Hu) as (y & classes & Ht & Hy & Hcl).
  apply load_targets_Ok_inv in Ht
    as (targets & tc & y0 & y1 & Htc' & Ha & Hsel & Hle & ->).
  rewrite Htc in Htc'. injection Htc' as <-. rewrite Hsub.
  unfold getitem_list in Hsel. cbn [select_cols] in Hsel.
  destruct (cols_named c targets) as [|c1 cs1] eqn:Hnamed; [discriminate|].
  cbn [mbind result_bind] in Hsel. rewrite app_nil_r in Hsel.
  injection Hsel as <-.
  unfold label_encode in Hle. rewrite Hlec, Htc in Hle.
  cbn [mbind result_bind] in Hle.
  rewrite bool_decide_eq_true_2 in Hle by done.
  rewrite for_each_cons in Hle.
  destruct (encode_column c _) as [st1|] eqn:Henc; cbn [mbind result_bind] in Hle;
    [|discriminate].
  apply encode_column_Ok_inv in Henc as (data & cl & Hc & Hun & ->).
  cbn [for_each mbind result_bind] in Hle. injection Hle as <- <-.
  assert (Hcols : c1 :: cs1 = [(c, data)]).
  { unfold cols_named in Hc, Hnamed. cbn [df_cols] in Hc.
    rewrite <- Hnamed in Hc |- *. rewrite <- Hc, list_filter_filter.
    apply list_filter_iff. tauto. }
  rewrite Hcols in *.
  destruct (align_targets_Ok_inv _ _ _ _ Ha) as [_ Hlens].
  assert (Hlen : length data = n_rows targets).
  { rewrite Forall_forall in Hlens. apply (Hlens (c, data)).
    assert (Hin : (c, data) ∈ cols_named c targets) by (rewrite Hnamed; left).
    unfold cols_named in Hin. by apply list_elem_of_filter in Hin as [_ Hin]. }
  exists targets, data, cl.
  split; [done|]. split; [done|]. split; [done|]. split; [done|].
  split; [by rewrite Hcl, insert_empty|].
  rewrite Hy. f_equal.
  assert (Hset : setitem (mkDF (df_index targets) [(c, data)]) c
                   (codes_of cl data)
                 = mkDF (df_index targets) [(c, codes_of cl data)]).
  { unfold setitem, has_column, columns. cbn [df_cols app fmap list_fmap fst].
    rewrite bool_decide_eq_true_2 by left. cbn [df_index df_cols map fst].
    by rewrite decide_True. }
  rewrite Hset.
  assert (Hcodes : length (codes_of cl data) = length (df_index targets)).
  { unfold codes_of. by rewrite length_map. }
  unfold to_numpy, squeeze, n_rows, n_cols. cbn [df_index df_cols length].
  rewrite (frame_rows_single _ _ _ Hcodes).
  destruct (decide (length (df_index targets) = 1%nat)) as [H1|H1];
    (destruct (decide (_ = 1%nat)) as [_|Hk]; [|by destruct Hk]).
  - rewrite H1 in Hcodes.
    destruct (codes_of cl data) as [|v [|v' l]]; try discriminate. done.
  - rewrite <- Hcodes in H1.
    destruct (codes_of cl data) as [|v [|v' l]]; try done.
Qed.

End Encoded.

(** ** The loader: subject and session concatenated *)

Lemma add_str_series_lookup left right new i s b :
  add_str_series left right = Ok new ->
  left !! i = Some (Str s) -> right !! i = Some b ->
  new !! i = Some (Str (s +:+ b)).
Proof.
  revert right new i.
  induction left as [|a left IH]; intros [|b' right] new i; try done.
  cbn [add_str_series].
  destruct (add_str a b') as [v|] eqn:Hv; cbn [mbind result_bind]; [|discriminate].
  destruct (add_str_series left right) as [vs|] eqn:Hvs;
    cbn [mbind result_bind]; [|discriminate].
  intros [= <-]. destruct i as [|i]; cbn.
  - intros [= ->] [= ->]. cbn in Hv. by injection Hv as <-.
  - by apply IH.
Qed.

Lemma filter_named_other (name n : string) (l : list (string * list value)) :
  n <> name ->
  filter (fun c : string * list value => c.1 = name)
         (filter (fun c : string * list value => c.1 = n) l) = [].
Proof.
  intros Hne. rewrite list_filter_filter.
  induction l as [|c l IH]; [done|]. rewrite filter_cons.
  destruct (decide (c.1 = name /\ c.1 = n)) as [[H1 H2]|_]; [congruence|done].
Qed.

Lemma filter_named_same (name : string) (l : list (string * list value)) :
  filter (fun c : string * list value => c.1 = name)
         (filter (fun c : string * list value => c.1 = name) l)
  = filter (fun c : string * list value => c.1 = name) l.
Proof. rewrite list_filter_filter. apply list_filter_iff. tauto. Qed.

Lemma select_cols_cons_Ok n names df cs :
  select_cols (n :: names) df = Ok cs ->
  exists rest,
    cols_named n df <> [] /\
    select_cols names df = Ok rest /\
    cs = cols_named n df ++ rest.
Proof.
  cbn [select_cols].
  destruct (cols_named n df) as [|c0 cs0]; [discriminate|].
  destruct (select_cols names df) as [rest|]; cbn [mbind result_bind];
    [|discriminate].
  intros [= <-]. by exists rest.
Qed.

Lemma select_cols_getitem names df cs idx name :
  select_cols names df = Ok cs -> name ∈ names ->
  getitem (mkDF idx cs) name = getitem df name.
Proof.
  revert cs. induction names as [|n names IH]; intros cs Hsel Hin.
  { by apply elem_of_nil in Hin. }
  apply select_cols_cons_Ok in Hsel as (rest & Hn & Hrest & ->).
  unfold getitem at 1, cols_named at 1. cbn [df_cols].
  rewrite filter_app. unfold cols_named at 1.
  destruct (decide (n = name)) as [->|Hne].
  - rewrite filter_named_same. unfold getitem. fold (cols_named name df).
    by destruct (cols_named name df).
  - rewrite filter_named_other by done. cbn [app].
    apply elem_of_cons in Hin as [->|Hin]; [done|].
    by apply (IH rest).
Qed.

Lemma getitem_setitem df name data :
  name ∈ columns df -> getitem (setitem df name data) name = Ok data.
Proof.
  intros Hin. unfold getitem, cols_named, setitem.
  rewrite (proj2 (has_column_true df name) Hin). cbn [df_cols].
  rewrite filter_replace_same.
  destruct (filter _ (df_cols df)) as [|c l] eqn:Hf; [|done].
  change (cols_named name df = []) in Hf. by apply cols_named_nil in Hf.
Qed.

Section Concatenated.

Context (float_repr : float64 -> string).

(** X21.  With [concat_subject_session=True] the subject labels handed to the
    mapper are the subject labels of the nodes table, each followed by the
    text of the session label of its row, while the sessions that are
    returned are the session labels as they were read. *)
Theorem subject_labels_carry_the_session
    args nodes_csv nodes sessions sid ses :
  concat_subject_session args = true ->
  getitem nodes_csv "subjectID" = Ok sid ->
  getitem nodes_csv "sessionID" = Ok ses ->
  prepare_nodes float_repr args nodes_csv = Ok (nodes, sessions) ->
  sessions = Some ses /\
  exists new,
    getitem nodes "subjectID" = Ok new /\
    add_str_series sid (map (astype_str float_repr) ses) = Ok new /\
    forall i s v,
      sid !! i = Some (Str s) -> ses !! i = Some v ->
      new !! i = Some (Str (s +:+ astype_str float_repr v)).
Proof.
  intros Hc Hsid Hses Hprep.
  split; [by apply (prepare_nodes_sessions _ _ _ _ _ _ Hses Hprep)|].
  unfold prepare_nodes in Hprep. rewrite Hc in Hprep.
  rewrite (getitem_drop "subjectID") in Hprep by apply subjectID_not_unnamed.
  rewrite !(getitem_drop "sessionID") in Hprep by apply sessionID_not_unnamed.
  rewrite Hsid, Hses in Hprep.
  destruct (has_column _ "sessionID"); cbn [mbind result_bind] in Hprep.
  all: destruct (add_str_series sid (map (astype_str float_repr) ses))
         as [new|] eqn:Hnew; cbn [mbind result_bind] in Hprep; [|discriminate].
  all: exists new.
  all: assert (Hget : getitem
         (drop_columns ["sessionID"]
            (setitem (drop_columns (unnamed_cols nodes_csv) nodes_csv)
                     "subjectID" new)) "subjectID" = Ok new)
       by (rewrite getitem_drop by (by intros ?%list_elem_of_singleton);
           apply getitem_setitem, elem_of_columns_drop;
           split; [by eapply getitem_column|apply subjectID_not_unnamed]).
  all: assert (Hnodes : getitem nodes "subjectID" = Ok new)
       by (destruct (dwi_metrics args) as [ms|];
           [ unfold getitem_list in Hprep;
             destruct (select_cols _ _) as [cs|] eqn:Hcs;
               cbn [mbind result_bind] in Hprep; [|discriminate];
             injection Hprep as <- _;
             rewrite (select_cols_getitem _ _ _ _ _ Hcs); [exact Hget|];
             cbn [app]; rewrite !elem_of_cons; tauto
           | cbn [mbind result_bind] in Hprep; by injection Hprep as <- _ ]).
  all: split; [done|]; split; [done|].
  all: intros i s v Hs Hv; apply (add_str_series_lookup _ _ _ _ _ _ Hnew Hs).
  all: change (map ?f ?l) with (f <$> l); by rewrite list_lookup_fmap, Hv.
Qed.

End Concatenated.

(** ** The rescaled cells *)

Lemma py_eq_unique v t t' : py_eq v t = true -> t' <> t -> py_eq v t' = false.
Proof.
  unfold py_eq. intros H Hne.
  apply andb_true_iff in H as [_ H%bool_decide_eq_true]. subst t.
  destruct (negb (is_missing v) && negb (is_missing t')); [|done].
  cbn. apply bool_decide_eq_false. congruence.
Qed.

Lemma rescaled_column_other tracts tcol c c' t p v :
  rescaled_column tracts tcol c c' -> t ∉ tracts ->
  tcol !! p = Some v -> py_eq v t = true ->
  c'.2 !! p = c.2 !! p.
Proof.
  intros (_ & _ & _ & Hrows) Hnot Hv Ht. apply (Hrows p v Hv).
  intros t' Hin. apply (py_eq_unique v t); [done|]. by intros ->.
Qed.

Lemma select_rows_agree (mask : list bool) (d d' : list value) :
  length d' = length d ->
  (forall p, mask !! p = Some true -> d' !! p = d !! p) ->
  select_rows mask d' = select_rows mask d.
Proof.
  revert d d'. induction mask as [|b mask IH]; intros d d' Hlen Hag.
  { by destruct d, d'. }
  destruct d as [|x d], d' as [|x' d']; try discriminate; [done|].
  cbn [select_rows]. cbn in Hlen.
  rewrite (IH d d') by (lia || (intros p Hp; apply (Hag (S p) Hp))).
  destruct b; [|done].
  specialize (Hag 0%nat eq_refl). cbn in Hag. by injection Hag as ->.
Qed.

Lemma rescaled_columns_names tracts tcol cs cs' :
  Forall2 (rescaled_column tracts tcol) cs cs' -> cs'.*1 = cs.*1.
Proof.
  induction 1 as [|c c' cs cs' (Hn & _) _ IH]; [done|]. cbn. by rewrite Hn, IH.
Qed.

Lemma rescaled_columns_filter tracts tcol (names : list string) cs cs' :
  Forall2 (rescaled_column tracts tcol) cs cs' ->
  Forall2 (rescaled_column tracts tcol)
    (filter (fun c : string * list value => c.1 ∉ names) cs)
    (filter (fun c : string * list value => c.1 ∉ names) cs').
Proof.
  induction 1 as [|c c' cs cs' Hc _ IH]; [constructor|].
  rewrite !filter_cons. destruct Hc as (Hn & Hrest). rewrite Hn.
  destruct (decide (c.1 ∉ names)); [|done]. constructor; [|done].
  by split.
Qed.

Lemma traverse_rescaled (stat : list float64 -> float64) mask tracts tcol cs cs' :
  Forall2 (rescaled_column tracts tcol) cs cs' ->
  (forall c c' : string * list value,
     rescaled_column tracts tcol c c' ->
     select_rows mask c'.2 = select_rows mask c.2) ->
  traverse (fun c : string * list value =>
              xs ← traverse as_float (select_rows mask c.2); Ok (c.1, stat xs)) cs'
  = traverse (fun c : string * list value =>
                xs ← traverse as_float (select_rows mask c.2); Ok (c.1, stat xs)) cs.
Proof.
  intros Hf Hsel. induction Hf as [|c c' cs cs' Hc _ IH]; [done|].
  cbn [traverse]. rewrite IH, (Hsel c c' Hc). by destruct Hc as (-> & _).
Qed.

Lemma tract_stat_rescaled stat tracts tcol df df' t :
  Forall2 (rescaled_column tracts tcol) (df_cols df) (df_cols df') ->
  getitem df "tractID" = Ok tcol ->
  t ∉ tracts ->
  tract_stat stat df' t = tract_stat stat df t.
Proof.
  intros Hf Htcol Hnot. unfold tract_stat, drop_strict, tract_mask.
  assert (Hcols : columns df' = columns df)
    by apply (rescaled_columns_names _ _ _ _ Hf).
  assert (Hhas : forall n, has_column df' n = has_column df n).
  { intros n. unfold has_column. by rewrite Hcols. }
  rewrite (List.filter_ext _ _ (fun n => f_equal negb (Hhas n))).
  destruct (List.filter _ key_columns); [|done]. cbn [mbind result_bind].
  assert (Htcol' : getitem df' "tractID" = Ok tcol).
  { rewrite <- Htcol. destruct df as [i0 c0], df' as [i1 c1].
    eapply rescaled_columns_getitem; [exact Hf|]. unfold key_columns. left. }
  rewrite Htcol, Htcol'. cbn [mbind result_bind].
  unfold drop_columns. cbn [df_cols].
  apply (traverse_rescaled stat _ tracts tcol).
  - by apply rescaled_columns_filter.
  - intros c c' Hc. apply select_rows_agree; [apply Hc|].
    intros p Hp. change (map ?f ?l) with (f <$> l) in Hp.
    rewrite list_lookup_fmap in Hp.
    destruct (tcol !! p) as [v|] eqn:Hv; [|discriminate].
    cbn in Hp. injection Hp as Hp.
    by apply (rescaled_column_other tracts tcol c c' t p v).
Qed.

Lemma Forall2_compose {A} (P Q R : A -> A -> Prop) l1 l2 l3 :
  (forall a b c, P a b -> Q b c -> R a c) ->
  Forall2 P l1 l2 -> Forall2 Q l2 l3 -> Forall2 R l1 l3.
Proof.
  intros Hc H1. revert l3. induction H1 as [|a b l1 l2 Hab _ IH]; intros l3 H2.
  - inversion H2. constructor.
  - inversion H2 as [|? c ? l3' Hbc H3]; subst. constructor; eauto.
Qed.

Lemma tract_stat_columns stat df tract s :
  tract_stat stat df tract = Ok s ->
  forall m, m ∈ s.*1 <-> m ∈ columns df /\ m ∉ key_columns.
Proof.
  unfold tract_stat, drop_strict.
  destruct (List.filter _ key_columns); cbn [mbind result_bind]; [|discriminate].
  destruct (tract_mask df tract) as [mask|]; cbn [mbind result_bind];
    [|discriminate].
  intros Ht m.
  assert (Hn : s.*1 = (df_cols (drop_columns key_columns df)).*1).
  { apply (traverse_names
             (fun c => xs ← traverse as_float (select_rows mask c.2);
                       Ok (stat xs))).
    rewrite <- Ht. clear.
    induction (df_cols (drop_columns key_columns df)) as [|c l IH]; [done|].
    cbn [traverse]. destruct (traverse as_float _); cbn [mbind result_bind];
      [|done].
    by rewrite IH. }
  rewrite Hn. change (m ∈ columns (drop_columns key_columns df)
                      <-> m ∈ columns df /\ m ∉ key_columns).
  apply elem_of_columns_drop.
Qed.

Section ScaledCells.

Context (mean std mean_b std_b : list float64 -> float64).

Lemma scale_tract_formula df_nodes t df_beta df1 tcol :
  scale_tract_with mean std mean_b std_b df_nodes t df_beta = Ok df1 ->
  getitem df_beta "tractID" = Ok tcol ->
  exists f_mean f_std b_mean b_std,
    tract_stat mean df_nodes t = Ok f_mean /\
    tract_stat std df_nodes t = Ok f_std /\
    tract_stat mean_b df_beta t = Ok b_mean /\
    tract_stat std_b df_beta t = Ok b_std /\
    Forall2 (scaled_column t tcol f_mean f_std b_mean b_std)
            (df_cols df_beta) (df_cols df1).
Proof.
  unfold scale_tract_with. intros Hs Htcol.
  destruct (tract_stat mean df_nodes t) as [f_mean|];
    cbn [mbind result_bind] in Hs; [|discriminate].
  destruct (tract_stat std df_nodes t) as [f_std|];
    cbn [mbind result_bind] in Hs; [|discriminate].
  destruct (tract_stat mean_b df_beta t) as [b_mean|];
    cbn [mbind result_bind] in Hs; [|discriminate].
  destruct (tract_stat std_b df_beta t) as [b_std|];
    cbn [mbind result_bind] in Hs; [|discriminate].
  unfold tract_mask in Hs. rewrite Htcol in Hs. cbn [mbind result_bind] in Hs.
  injection Hs as <-. cbn [df_cols].
  exists f_mean, f_std, b_mean, b_std.
  split; [done|]. split; [done|]. split; [done|]. split; [done|].
  apply Forall2_fmap_r, Forall_Forall2_diag, Forall_forall.
  intros [n d] _. unfold compose. cbv beta. cbn [fst snd].
  intros p v x Hv Ht Hx Hm. cbn [fst snd] in *.
  rewrite bool_decide_eq_true_2 by done. cbn [snd].
  rewrite update_rows_lookup, Hx. change (map ?f ?l) with (f <$> l).
  rewrite list_lookup_fmap, Hv. cbn. by rewrite Ht.
Qed.

Lemma NoDup_distinct (l : list value) : NoDup (distinct l).
Proof.
  induction l as [|v l IH]; [constructor|]. cbn [distinct].
  constructor; [|by apply NoDup_filter].
  rewrite list_elem_of_filter. by intros [Hne _].
Qed.

Lemma elem_of_distinct_2 (l : list value) t : t ∈ l -> t ∈ distinct l.
Proof.
  induction l as [|v l IH]; [done|]. cbn [distinct].
  rewrite !elem_of_cons, list_elem_of_filter.
  destruct (decide (t = v)) as [->|Hne]; [by left|].
  intros [?|Hin]; [done|]. right. split; [done|]. by apply IH.
Qed.

Lemma scale_loop_formula df_nodes tracts :
  NoDup tracts ->
  forall df_beta df' tcol t,
  for_each (scale_tract_with mean std mean_b std_b df_nodes) tracts df_beta = Ok df' ->
  getitem df_beta "tractID" = Ok tcol ->
  t ∈ tracts ->
  exists f_mean f_std b_mean b_std,
    tract_stat mean df_nodes t = Ok f_mean /\
    tract_stat std df_nodes t = Ok f_std /\
    tract_stat mean_b df_beta t = Ok b_mean /\
    tract_stat std_b df_beta t = Ok b_std /\
    Forall2 (scaled_column t tcol f_mean f_std b_mean b_std)
            (df_cols df_beta) (df_cols df').
Proof.
  induction 1 as [|t1 tracts Hnot Hnd IH]; intros df_beta df' tcol t Hloop Htcol Hin.
  { by apply elem_of_nil in Hin. }
  rewrite for_each_cons in Hloop.
  destruct (scale_tract_with mean std mean_b std_b df_nodes t1 df_beta) as [df1|] eqn:H1;
    cbn [mbind result_bind] in Hloop; [|discriminate].
  destruct (scale_tract_columns _ _ _ _ _ _ _ _ _ H1 Htcol) as [_ Hc1].
  assert (Htcol1 : getitem df1 "tractID" = Ok tcol).
  { rewrite <- Htcol. destruct df1 as [i1 c1], df_beta as [i0 c0].
    eapply rescaled_columns_getitem; [exact Hc1|]. unfold key_columns. left. }
  destruct (scale_loop_columns _ _ _ _ _ _ _ _ _ Hloop Htcol1) as [_ Hc2].
  apply elem_of_cons in Hin as [->|Hin].
  - destruct (scale_tract_formula _ _ _ _ _ H1 Htcol)
      as (f_mean & f_std & b_mean & b_std & Hfm & Hfs & Hbm & Hbs & Hf).
    exists f_mean, f_std, b_mean, b_std.
    split; [done|]. split; [done|]. split; [done|]. split; [done|].
    eapply Forall2_compose; [|exact Hf|exact Hc2].
    intros a b c Hab Hbc p v x Hv Ht Hx Hm.
    rewrite (rescaled_column_other tracts tcol b c t1 p v) by done.
    by apply (Hab p v x).
  - assert (Hne : t <> t1) by (by intros ->).
    destruct (IH df1 df' tcol t Hloop Htcol1 Hin)
      as (f_mean & f_std & b_mean & b_std & Hfm & Hfs & Hbm & Hbs & Hf).
    assert (Hnot1 : t ∉ [t1]) by (by intros ?%list_elem_of_singleton).
    rewrite (tract_stat_rescaled _ [t1] tcol df_beta df1 t) in Hbm by done.
    rewrite (tract_stat_rescaled _ [t1] tcol df_beta df1 t) in Hbs by done.
    exists f_mean, f_std, b_mean, b_std.
    split; [done|]. split; [done|]. split; [done|]. split; [done|].
    eapply Forall2_compose; [|exact Hc1|exact Hf].
    intros a b c Hab Hbc p v x Hv Ht Hx Hm.
    pose proof (rescaled_column_other [t1] tcol a b t p v Hab Hnot1 Hv Ht) as Hsame.
    destruct Hab as (Hn & _). rewrite <- Hn.
    apply (Hbc p v x); [done|done|by rewrite Hsame|by rewrite Hn].
Qed.

(** X22.  The rescaled cells, for whatever numbers the two reductions of
    pandas return.  When the scaling loop returns, for every tract [t] of
    the nodes table the four statistics of the loop exist (the mean and the
    standard deviation, per metric column, of the cells of the rows of [t]
    in the nodes table and in the synthetic rows as they were before the
    loop), and every metric cell [x] of a synthetic row of tract [t] has
    become the binary64 value [f_mean + (x - b_mean) * factor], where
    [factor] is [f_std / b_std] with an infinite ratio replaced by 1. *)
Theorem scaled_cells_follow_the_formula
    df_nodes df_beta df' ntracts tcol t :
  scale_beta_frame_with mean std mean_b std_b df_nodes df_beta = Ok df' ->
  getitem df_nodes "tractID" = Ok ntracts ->
  getitem df_beta "tractID" = Ok tcol ->
  t ∈ ntracts ->
  exists f_mean f_std b_mean b_std,
    tract_stat mean df_nodes t = Ok f_mean /\
    tract_stat std df_nodes t = Ok f_std /\
    tract_stat mean_b df_beta t = Ok b_mean /\
    tract_stat std_b df_beta t = Ok b_std /\
    (forall m, m ∈ b_mean.*1 <-> m ∈ columns df_beta /\ m ∉ key_columns) /\
    Forall2 (scaled_column t tcol f_mean f_std b_mean b_std)
            (df_cols df_beta) (df_cols df').
Proof.
  unfold scale_beta_frame_with. intros Hs Hn Ht Hin. rewrite Hn in Hs.
  cbn [mbind result_bind] in Hs.
  destruct (scale_loop_formula df_nodes (distinct ntracts) (NoDup_distinct _)
              df_beta df' tcol t Hs Ht (elem_of_distinct_2 _ _ Hin))
    as (f_mean & f_std & b_mean & b_std & Hfm & Hfs & Hbm & Hbs & Hf).
  exists f_mean, f_std, b_mean, b_std.
  split; [done|]. split; [done|]. split; [done|]. split; [done|].
  split; [|done]. by apply (tract_stat_columns _ _ _ _ Hbm).
Qed.

End ScaledCells.

(** ** The rows appended to the nodes table *)

Lemma setitem_lengths df name data n :
  Forall (fun c : string * list value => length c.2 = n) (df_cols df) ->
  length data = n ->
  Forall (fun c : string * list value => length c.2 = n)
         (df_cols (setitem df name data)).
Proof.
  intros Hf Hd. unfold setitem. destruct (has_column df name); cbn [df_cols].
  - apply Forall_forall. intros c Hc.
    apply list_elem_of_In, in_map_iff in Hc as (c0 & <- & Hc0).
    destruct (decide (c0.1 = name)); [done|].
    rewrite Forall_forall in Hf. by apply Hf, list_elem_of_In.
  - apply Forall_app. split; [done|]. by constructor.
Qed.

Lemma NoDup_columns_setitem df name data :
  NoDup (columns df) -> NoDup (columns (setitem df name data)).
Proof.
  intros Hnd. destruct (has_column df name) eqn:Hh.
  - by rewrite columns_setitem by by apply has_column_true.
  - unfold setitem. rewrite Hh. unfold columns. cbn [df_cols].
    rewrite fmap_app. apply NoDup_app. split; [done|].
    split; [|apply NoDup_singleton].
    intros x Hx Hx'. cbn in Hx'. apply list_elem_of_singleton in Hx'. subst x.
    pose proof (proj2 (has_column_true df name) Hx). congruence.
Qed.

Lemma beta_frame_shape beta_hat cols nodes_columns df :
  beta_frame beta_hat cols nodes_columns = Ok df ->
  columns df = nodes_columns /\
  Forall (fun c : string * list value => length c.2 = length (beta_rows cols))
         (df_cols df).
Proof.
  unfold beta_frame.
  destruct (decide (cols = [])) as [|_]; [discriminate|].
  destruct (decide (length beta_hat = length cols)) as [_|]; [|discriminate].
  cbn [mbind result_bind].
  destruct (decide (NoDup cols)) as [_|]; [|discriminate].
  cbn [mbind result_bind].
  fold (beta_rows cols). fold (metric_names cols).
  destruct (bool_decide ("nodeID" ∈ metric_names cols)) eqn:Hn; [discriminate|].
  destruct (bool_decide ("tractID" ∈ metric_names cols)) eqn:Ht; [discriminate|].
  apply bool_decide_eq_false in Hn, Ht. cbn [mbind result_bind].
  set (rows := beta_rows cols).
  set (metric_cols :=
         map (fun m => (m, map (fun r : string * Z =>
                                  coefficient (r.1, m, r.2) (zip cols beta_hat))
                               rows))
             (metric_names cols)).
  set (df0 := mkDF (range_index (length rows))
                (("tractID", map (fun r : string * Z => Str r.1) rows)
                 :: ("nodeID", map (fun r : string * Z => Int r.2) rows)
                 :: metric_cols)).
  assert (Hmc : metric_cols.*1 = metric_names cols).
  { unfold metric_cols. change (map ?f ?l) with (f <$> l).
    rewrite <- list_fmap_compose. apply list_fmap_id. }
  assert (Hlen0 : Forall (fun c : string * list value => length c.2 = length rows)
                         (df_cols df0)).
  { unfold df0. cbn [df_cols].
    constructor; [cbn [snd]; by rewrite length_map|].
    constructor; [cbn [snd]; by rewrite length_map|].
    apply Forall_forall. intros c Hc.
    apply list_elem_of_In, in_map_iff in Hc as (m & <- & _).
    cbn [snd]. by rewrite length_map. }
  assert (Hnd0 : NoDup (columns df0)).
  { change (NoDup ("tractID" :: "nodeID" :: metric_cols.*1)). rewrite Hmc.
    constructor.
    - rewrite not_elem_of_cons. by split.
    - constructor; [done|]. apply (sorted_unique_NoDup String.compare). }
  pose proof (setitem_lengths df0 "subjectID"
                (replicate (length rows) (Str "beta_hat")) (length rows)
                Hlen0 (length_replicate _ _)) as Hlen1.
  pose proof (NoDup_columns_setitem df0 "subjectID"
                (replicate (length rows) (Str "beta_hat")) Hnd0) as Hnd1.
  set (df1 := setitem df0 "subjectID" (replicate (length rows) (Str "beta_hat")))
    in *.
  unfold getitem_list.
  destruct (select_cols nodes_columns df1) as [cs|] eqn:Hcs; [|discriminate].
  cbn [mbind result_bind]. intros [= <-]. unfold columns. cbn [df_cols]. split.
  - destruct (select_cols_present nodes_columns df1 Hnd1)
      as (cs' & Hcs' & Hnames & _).
    + intros nm Hin. destruct (decide (nm ∈ columns df1)) as [|Hno]; [done|].
      destruct (select_cols_absent nodes_columns df1 nm Hin Hno) as (k & Hk & _).
      congruence.
    + congruence.
  - apply Forall_forall. intros c Hc.
    rewrite Forall_forall in Hlen1. apply Hlen1.
    by apply (select_cols_members _ _ _ Hcs).
Qed.

Lemma scale_tract_tract_column df_nodes t df_beta df1 :
  scale_tract df_nodes t df_beta = Ok df1 ->
  exists tcol, getitem df_beta "tractID" = Ok tcol.
Proof.
  unfold scale_tract, scale_tract_with.
  destruct (tract_stat nanmean df_nodes t); cbn [mbind result_bind];
    [|discriminate].
  destruct (tract_stat nanstd df_nodes t); cbn [mbind result_bind];
    [|discriminate].
  destruct (tract_stat nanmean df_beta t); cbn [mbind result_bind];
    [|discriminate].
  destruct (tract_stat nanstd df_beta t); cbn [mbind result_bind];
    [|discriminate].
  unfold tract_mask. destruct (getitem df_beta "tractID"); [by eexists|discriminate].
Qed.

Lemma scale_beta_frame_lengths df_nodes df_beta df' :
  scale_beta_frame df_nodes df_beta = Ok df' ->
  Forall2 (fun c c' : string * list value =>
             c'.1 = c.1 /\ length c'.2 = length c.2)
          (df_cols df_beta) (df_cols df').
Proof.
  unfold scale_beta_frame, scale_beta_frame_with.
  destruct (getitem df_nodes "tractID") as [ntracts|]; cbn [mbind result_bind];
    [|discriminate].
  intros Hloop. fold scale_tract in Hloop.
  destruct (getitem df_beta "tractID") as [tcol|] eqn:Htcol.
  - destruct (scale_loop_columns _ _ _ _ _ _ _ _ _ Hloop Htcol) as [_ Hc].
    eapply Forall2_impl; [exact Hc|]. intros c c' (H1 & H2 & _). by split.
  - destruct (distinct ntracts) as [|t ts].
    + injection Hloop as <-. apply Forall_Forall2_diag, Forall_forall. by intros.
    + rewrite for_each_cons in Hloop.
      destruct (scale_tract df_nodes t df_beta) as [df1|] eqn:H1;
        [|discriminate].
      apply scale_tract_tract_column in H1 as [tcol Ht]. congruence.
Qed.

Lemma synthetic_rows_appended beta_hat cols (scale : bool) idx t df0 df :
  beta_frame beta_hat cols t.*1 = Ok df0 ->
  (if scale then scale_beta_frame (mkDF idx t) df0 else Ok df0) = Ok df ->
  Forall2 (fun c c' : string * list value =>
             c'.1 = c.1 /\
             exists d, c'.2 = c.2 ++ d /\ length d = length (beta_rows cols))
          t (df_cols (concat_rows (mkDF idx t) df)).
Proof.
  intros Hb Hsc.
  apply beta_frame_shape in Hb as [Hcols0 Hlen0].
  assert (Hshape : Forall2 (fun c c' : string * list value =>
                              c'.1 = c.1 /\ length c'.2 = length c.2)
                           (df_cols df0) (df_cols df)).
  { destruct scale.
    - by apply (scale_beta_frame_lengths _ _ _ Hsc).
    - injection Hsc as <-. apply Forall_Forall2_diag, Forall_forall. by intros. }
  assert (Hcols : columns df = t.*1).
  { rewrite <- Hcols0. unfold columns. clear -Hshape.
    induction Hshape as [|c c' l l' [Hn _] _ IH]; [done|]. cbn. by rewrite Hn, IH. }
  assert (Hlen : Forall (fun c : string * list value =>
                           length c.2 = length (beta_rows cols)) (df_cols df)).
  { clear -Hshape Hlen0. induction Hshape as [|c c' l l' [_ Hl] _ IH].
    - constructor.
    - inversion Hlen0; subst. constructor; [congruence|auto]. }
  unfold concat_rows. cbn [df_cols].
  apply Forall2_fmap_r, Forall_Forall2_diag, Forall_forall.
  intros [n d] Hin. unfold compose. cbv beta. cbn [fst snd].
  split; [done|].
  assert (Hn' : n ∈ columns df).
  { rewrite Hcols. apply list_elem_of_fmap. by exists (n, d). }
  destruct (getitem_present df n Hn') as [d' Hd']. rewrite Hd'.
  exists d'. split; [done|].
  apply getitem_cols_named in Hd' as [cs Hcs].
  assert (Hmem : (n, d') ∈ df_cols df).
  { assert (H : (n, d') ∈ cols_named n df) by (rewrite Hcs; left).
    unfold cols_named in H. by apply list_elem_of_filter in H as [_ H]. }
  rewrite Forall_forall in Hlen. by apply (Hlen (n, d')).
Qed.

Section Appended.

Context (abspath : string -> string).

(** X23.  The rows of the real subjects are kept and one row per (tract,
    node) pair is appended, with or without scaling.  After any call that
    returns, the nodes output file holds the columns of the nodes input
    file, in the same order and under the same labels, each with the cells
    of the input column followed by as many cells as the column keys have
    distinct (tractID, nodeID) pairs (provided the nodes output path is
    none of the three paths written later). *)
Theorem real_rows_are_kept_and_synthetic_rows_appended
    beta_hat cols args w out w' :
  run (output_beta_to_afq abspath beta_hat cols args) w = (Ok out, w') ->
  output_path abspath args (fn_nodes_out args)
    ∉ [output_path abspath args (fn_subjects_out args);
       output_path abspath args "streamlines.json";
       output_path abspath args "params.json"] ->
  exists t table,
    files w !! input_path abspath args (fn_nodes_in args) = Some (CsvFile t) /\
    files w' !! output_path abspath args (fn_nodes_out args)
      = Some (CsvFile table) /\
    Forall2 (fun c c' : string * list value =>
               c'.1 = c.1 /\
               exists d, c'.2 = c.2 ++ d /\ length d = length (beta_rows cols))
            t table.
Proof.
  intros Hrun Hout. rewrite !not_elem_of_cons in Hout.
  destruct Hout as (Hs & Hl & Hp & _).
  apply output_beta_to_afq_Ok_inv in Hrun
    as (i & j & t & df0 & df & st & tbl & sl & pa & _ & _ & _ & Hn & Hb & Hsc
        & _ & _ & _ & _ & _ & ->).
  exists t. eexists. split; [done|]. cbn [files]. split.
  { rewrite !lookup_insert_ne by done. by rewrite lookup_insert_eq. }
  by apply (synthetic_rows_appended beta_hat cols (scale_beta args) _ _ df0).
Qed.

End Appended.

(** ** Output file names *)

Lemma path_join_absolute a b : String.prefix "/" b = true -> path_join a b = b.
Proof. intros H. unfold path_join. by rewrite H. Qed.

Section Names.

Context (abspath : string -> string).

(** X24.  The guard compares the two directories only.  An absolute
    [fn_nodes_out] is used as it is, whatever [workdir_out] is: a call that
    returns reports that path as the nodes file and has written there the
    table of the nodes input file with the rows of the synthetic subject
    appended (unless a later write of the call goes to the same path), even
    when the path lies in the input directory, where it may be the nodes
    input file itself. *)
Theorem absolute_output_name_leaves_the_output_directory
    beta_hat cols args w out w' :
  String.prefix "/" (fn_nodes_out args) = true ->
  run (output_beta_to_afq abspath beta_hat cols args) w = (Ok out, w') ->
  nodes_file out = fn_nodes_out args /\
  exists t df_beta0 df_beta,
    files w !! input_path abspath args (fn_nodes_in args) = Some (CsvFile t) /\
    beta_frame beta_hat cols t.*1 = Ok df_beta0 /\
    (if scale_beta args
     then scale_beta_frame (mkDF (range_index (table_rows t)) t) df_beta0
     else Ok df_beta0) = Ok df_beta /\
    Forall2 (fun c c' : string * list value =>
               c'.1 = c.1 /\
               exists d, c'.2 = c.2 ++ d /\ length d = length (beta_rows cols))
            t (df_cols (concat_rows (mkDF (range_index (table_rows t)) t)
                                    df_beta)) /\
    (fn_nodes_out args
       ∉ [output_path abspath args (fn_subjects_out args);
          output_path abspath args "streamlines.json";
          output_path abspath args "params.json"] ->
     files w' !! fn_nodes_out args
     = Some (CsvFile
               (df_cols (concat_rows (mkDF (range_index (table_rows t)) t)
                                     df_beta)))).
Proof.
  intros Habs Hrun.
  apply output_beta_to_afq_Ok_inv in Hrun
    as (i & j & t & df0 & df & st & tbl & sl & pa & _ & _ & _ & Hn & Hb & Hsc
        & _ & _ & _ & _ & -> & ->).
  assert (Hp : output_path abspath args (fn_nodes_out args) = fn_nodes_out args)
    by by apply path_join_absolute.
  rewrite Hp. split; [done|]. exists t, df0, df.
  split; [done|]. split; [done|]. split; [done|].
  split; [by apply (synthetic_rows_appended beta_hat cols (scale_beta args)
                      _ _ df0)|].
  intros Hout. rewrite !not_elem_of_cons in Hout.
  destruct Hout as (Hs & Hl & Hpa & _).
  cbn [files]. rewrite !lookup_insert_ne by done.
  by rewrite lookup_insert_eq.
Qed.

End Names.

(** ** The further properties on the example tables *)

Import More.

Lemma mapper_table_has_only_data_columns_witness :
  exists nodes sessions,
    prepare_nodes Pivot.float_repr (args None None None) nodes_csv
      = Ok (nodes, sessions) /\
    forall c, c ∈ columns nodes ->
      c ∈ columns nodes_csv /\ is_unnamed c = false /\ c <> "sessionID".
Proof.
  destruct (prepare_nodes Pivot.float_repr (args None None None) nodes_csv)
    as [[nodes sessions]|e] eqn:Hp; [|vm_compute in Hp; discriminate].
  exists nodes, sessions. split; [reflexivity|].
  exact (mapper_table_has_only_data_columns Pivot.float_repr _ _ _ _ Hp).
Defined.

Lemma malformed_coefficients_stop_before_any_write_witness :
  dirs (world_with (Some (CsvFile nodes_table_sessions))
          (Some (CsvFile subjects_table)) (Some (DataFile "{}"))) !! "/in"
    = Some 1%nat /\
  dirs (world_with (Some (CsvFile nodes_table_sessions))
          (Some (CsvFile subjects_table)) (Some (DataFile "{}"))) !! "/out"
    = Some 2%nat /\
  files (world_with (Some (CsvFile nodes_table_sessions))
           (Some (CsvFile subjects_table)) (Some (DataFile "{}")))
    !! "/in/nodes.csv" = Some (CsvFile nodes_table_sessions) /\
  "sessionID" ∈ nodes_table_sessions.*1 /\
  ("sessionID" ∉ key_columns) /\
  exists e,
    run (output_beta_to_afq id [F 1; F 3] cols (beta_args "/out" false))
        (world_with (Some (CsvFile nodes_table_sessions))
           (Some (CsvFile subjects_table)) (Some (DataFile "{}")))
    = (Err e,
       log (ReadFile "/in/nodes.csv")
         (world_with (Some (CsvFile nodes_table_sessions))
            (Some (CsvFile subjects_table)) (Some (DataFile "{}")))) /\
    ((exists msg, e = ValueError msg) \/
     (exists k, e = KeyError k /\ k ∈ nodes_table_sessions.*1)).
Proof.
  set (w := world_with (Some (CsvFile nodes_table_sessions))
              (Some (CsvFile subjects_table)) (Some (DataFile "{}"))).
  assert (Hi : dirs w !! id (workdir_in (beta_args "/out" false)) = Some 1%nat)
    by reflexivity.
  assert (Hj : dirs w !! id (workdir_out (beta_args "/out" false)) = Some 2%nat)
    by reflexivity.
  assert (Hn : files w !! input_path id (beta_args "/out" false)
                             (fn_nodes_in (beta_args "/out" false))
               = Some (CsvFile nodes_table_sessions)) by reflexivity.
  assert (Hc : "sessionID" ∈ nodes_table_sessions.*1) by compute_done.
  assert (Hk : "sessionID" ∉ key_columns) by compute_done.
  assert (Hm : forall k : ColumnKey, k ∈ cols -> k.1.2 <> "sessionID").
  { intros k Hin. unfold cols in Hin. rewrite !elem_of_cons, elem_of_nil in Hin.
    destruct Hin as [->|[->|[]]]; discriminate. }
  split; [exact Hi|]. split; [exact Hj|]. split; [exact Hn|].
  split; [exact Hc|]. split; [exact Hk|].
  apply (malformed_coefficients_stop_before_any_write id [F 1; F 3] cols
           (beta_args "/out" false) w 1%nat 2%nat nodes_table_sessions Hi Hj).
  - discriminate.
  - exact Hn.
  - right. right. exists "sessionID". split; [exact Hc|]. split; [exact Hk|exact Hm].
Defined.

Lemma missing_subjects_file_leaves_the_nodes_output_witness :
  files (world_with (Some (CsvFile nodes_table)) None (Some (DataFile "{}")))
    !! "/in/subjects.csv" = None /\
  exists df_beta,
    beta_frame [F 1; F 3] cols nodes_table.*1 = Ok df_beta /\
    run (output_beta_to_afq id [F 1; F 3] cols (beta_args "/out" false))
        (world_with (Some (CsvFile nodes_table)) None (Some (DataFile "{}")))
    = (Err (FileNotFoundError "/in/subjects.csv"),
       mkWorld
         (dirs (world_with (Some (CsvFile nodes_table)) None
                  (Some (DataFile "{}"))))
         (<["/out/nodes.csv" :=
              CsvFile (df_cols (concat_rows
                         (mkDF (range_index (table_rows nodes_table)) nodes_table)
                         df_beta))]>
            (files (world_with (Some (CsvFile nodes_table)) None
                      (Some (DataFile "{}")))))
         [ReadFile "/in/nodes.csv"; WriteFile "/out/nodes.csv"]).
Proof.
  set (w := world_with (Some (CsvFile nodes_table)) None (Some (DataFile "{}"))).
  assert (Hs : files w !! input_path id (beta_args "/out" false)
                             (fn_subjects_in (beta_args "/out" false)) = None)
    by reflexivity.
  split; [exact Hs|].
  destruct (beta_frame [F 1; F 3] cols nodes_table.*1) as [df_beta|e] eqn:Hb;
    [|vm_compute in Hb; discriminate].
  exists df_beta. split; [reflexivity|].
  apply (missing_subjects_file_leaves_the_nodes_output id [F 1; F 3] cols
           (beta_args "/out" false) w 1%nat 2%nat nodes_table df_beta).
  - reflexivity.
  - reflexivity.
  - discriminate.
  - reflexivity.
  - exact Hb.
  - reflexivity.
  - exact Hs.
  - discriminate.
Defined.

Lemma missing_sidecar_leaves_both_tables_witness :
  files (world_with (Some (CsvFile nodes_table)) (Some (CsvFile subjects_table))
           None) !! "/in/streamlines.json" = None /\
  exists df_beta tbl,
    beta_frame [F 1; F 3] cols nodes_table.*1 = Ok df_beta /\
    add_subject_row subjects_table = Ok tbl /\
    run (output_beta_to_afq id [F 1; F 3] cols (beta_args "/out" false))
        (world_with (Some (CsvFile nodes_table)) (Some (CsvFile subjects_table))
           None)
    = (Err (FileNotFoundError "/in/streamlines.json"),
       mkWorld
         (dirs (world_with (Some (CsvFile nodes_table))
                  (Some (CsvFile subjects_table)) None))
         (<["/out/subjects.csv" := CsvFile tbl]>
            (<["/out/nodes.csv" :=
                 CsvFile (df_cols (concat_rows
                            (mkDF (range_index (table_rows nodes_table))
                                  nodes_table)
                            df_beta))]>
               (files (world_with (Some (CsvFile nodes_table))
                         (Some (CsvFile subjects_table)) None))))
         [ReadFile "/in/nodes.csv"; WriteFile "/out/nodes.csv";
          ReadFile "/in/subjects.csv"; WriteFile "/out/subjects.csv"]).
Proof.
  set (w := world_with (Some (CsvFile nodes_table))
              (Some (CsvFile subjects_table)) None).
  assert (Hs : files w !! input_path id (beta_args "/out" false)
                             "streamlines.json" = None) by reflexivity.
  split; [exact Hs|].
  destruct (beta_frame [F 1; F 3] cols nodes_table.*1) as [df_beta|e] eqn:Hb;
    [|vm_compute in Hb; discriminate].
  destruct (add_subject_row subjects_table) as [tbl|e] eqn:Ht;
    [|vm_compute in Ht; discriminate].
  exists df_beta, tbl. split; [reflexivity|]. split; [reflexivity|].
  apply (missing_sidecar_leaves_both_tables id [F 1; F 3] cols
           (beta_args "/out" false) w 1%nat 2%nat nodes_table df_beta
           subjects_table tbl).
  - reflexivity.
  - reflexivity.
  - discriminate.
  - reflexivity.
  - exact Hb.
  - reflexivity.
  - reflexivity.
  - discriminate.
  - exact Ht.
  - exact Hs.
  - compute_done.
Defined.

Lemma sidecar_files_are_copied_unchanged_witness :
  exists out w',
    project [F 1; F 3] (beta_args "/out" false) subjects_table = (Ok out, w') /\
    out = mkOutputFiles "/out/nodes.csv" "/out/subjects.csv" /\
    exists sl pa,
      files (world subjects_table) !! "/in/streamlines.json" = Some sl /\
      files w' !! "/out/streamlines.json" = Some sl /\
      files (world subjects_table) !! "/in/params.json" = Some pa /\
      files w' !! "/out/params.json" = Some pa.
Proof.
  destruct (project [F 1; F 3] (beta_args "/out" false) subjects_table)
    as [[out|e] w'] eqn:Hrun; [|vm_compute in Hrun; discriminate].
  exists out, w'. split; [reflexivity|].
  destruct (sidecar_files_are_copied_unchanged id [F 1; F 3] cols
              (beta_args "/out" false) (world subjects_table) out w' Hrun)
    as (Hout & _ & Hcopy).
  - compute_done.
  - compute_done.
  - discriminate.
  - split; [exact Hout|exact Hcopy].
Defined.

Lemma placeholder_row_overwrites_the_row_of_its_label_witness :
  Int 2 ∈ [Int 1; Int 2] /\
  exists cols',
    add_subject_row subjects_one_based = Ok (("", [Int 1; Int 2]) :: cols') /\
    cols'.*1 = ["subjectID"; "age"].
Proof.
  assert (Hin : Int (Z.of_nat (length [Int 1; Int 2])) ∈ [Int 1; Int 2])
    by compute_done.
  split; [exact Hin|].
  destruct (placeholder_row_overwrites_the_row_of_its_label ""
              [Int 1; Int 2] (tail subjects_one_based) Hin)
    as (cols' & Hadd & Hnames & _).
  exists cols'. split; [exact Hadd|exact Hnames].
Defined.

Lemma missing_output_directory_is_not_created_witness :
  dirs (world subjects_table) !! "/in" = Some 1%nat /\
  dirs (world subjects_table) !! "/nowhere" = None /\
  project [F 1; F 3] (beta_args "/nowhere" false) subjects_table
  = (Err (FileNotFoundError "/nowhere"), world subjects_table).
Proof.
  assert (Hi : dirs (world subjects_table)
               !! id (workdir_in (beta_args "/nowhere" false)) = Some 1%nat)
    by reflexivity.
  assert (Hj : dirs (world subjects_table)
               !! id (workdir_out (beta_args "/nowhere" false)) = None)
    by reflexivity.
  split; [exact Hi|]. split; [exact Hj|].
  exact (missing_output_directory_is_not_created id [F 1; F 3] cols
           (beta_args "/nowhere" false) (world subjects_table) 1%nat Hi Hj).
Defined.

Lemma scaling_keeps_shape_and_key_columns_witness :
  exists df_beta df' ntracts tcol,
    beta_frame [F 1; F 3] cols nodes_table.*1 = Ok df_beta /\
    scale_beta_frame (mkDF (range_index 4) nodes_table) df_beta = Ok df' /\
    getitem (mkDF (range_index 4) nodes_table) "tractID" = Ok ntracts /\
    getitem df_beta "tractID" = Ok tcol /\
    df_index df' = df_index df_beta /\
    columns df' = columns df_beta.
Proof.
  destruct (beta_frame [F 1; F 3] cols nodes_table.*1) as [df_beta|e] eqn:Hb;
    [|vm_compute in Hb; discriminate].
  assert (Hb' : df_beta =
            mkDF [Int 0; Int 1]
              [("subjectID", [Str "beta_hat"; Str "beta_hat"]);
               ("tractID", [Str "CST"; Str "CST"]);
               ("nodeID", [Int 0; Int 1]);
               ("fa", [F 1; F 3])]).
  { vm_compute in Hb. injection Hb as <-. vm_compute. reflexivity. }
  destruct (scale_beta_frame (mkDF (range_index 4) nodes_table) df_beta)
    as [df'|e] eqn:Hs; [|rewrite Hb' in Hs; vm_compute in Hs; discriminate].
  assert (Hn : getitem (mkDF (range_index 4) nodes_table) "tractID"
               = Ok [Str "CST"; Str "CST"; Str "CST"; Str "CST"]) by reflexivity.
  assert (Ht : getitem df_beta "tractID" = Ok [Str "CST"; Str "CST"])
    by (rewrite Hb'; reflexivity).
  exists df_beta, df', [Str "CST"; Str "CST"; Str "CST"; Str "CST"],
         [Str "CST"; Str "CST"].
  split; [reflexivity|]. split; [exact Hs|]. split; [exact Hn|].
  split; [exact Ht|].
  destruct (scaling_keeps_shape_and_key_columns _ _ _ _ _ Hs Hn Ht)
    as (Hidx & Hcols & _).
  split; [exact Hidx|exact Hcols].
Defined.

Lemma coefficient_order_is_irrelevant_witness :
  length [F 1; F 3] = length cols /\
  length [F 3; F 1] = length (reverse cols) /\
  zip cols [F 1; F 3] ≡ₚ zip (reverse cols) [F 3; F 1] /\
  beta_frame [F 1; F 3] cols nodes_table.*1
  = beta_frame [F 3; F 1] (reverse cols) nodes_table.*1.
Proof.
  assert (H1 : length [F 1; F 3] = length cols) by reflexivity.
  assert (H2 : length [F 3; F 1] = length (reverse cols)) by reflexivity.
  assert (H3 : zip cols [F 1; F 3] ≡ₚ zip (reverse cols) [F 3; F 1])
    by apply perm_swap.
  split; [exact H1|]. split; [exact H2|]. split; [exact H3|].
  exact (coefficient_order_is_irrelevant _ _ _ _ nodes_table.*1 H1 H2 H3).
Defined.

Lemma concatenation_needs_a_session_column_witness :
  concat_subject_session (mkArgs None (Some ["age"]) None "subjectID" false true false)
    = true /\
  ("sessionID" ∉ columns nodes_plain) /\
  load (mkArgs None (Some ["age"]) None "subjectID" false true false)
       nodes_plain subjects_csv
  = Err (KeyError "sessionID").
Proof.
  set (a := mkArgs None (Some ["age"]) None "subjectID" false true false).
  assert (Hc : concat_subject_session a = true) by reflexivity.
  assert (Hno : "sessionID" ∉ columns nodes_plain) by compute_done.
  split; [exact Hc|]. split; [exact Hno|].
  exact (concatenation_needs_a_session_column Pivot.float_repr Pivot.fit_transform
           a nodes_plain subjects_csv Hc Hno).
Defined.

Lemma sessions_are_none_without_a_session_column_witness :
  ("sessionID" ∉ columns nodes_plain) /\
  exists out,
    load (args None (Some ["age"]) None) nodes_plain subjects_csv = Ok out /\
    out_sessions out = Some None.
Proof.
  set (a := args None (Some ["age"]) None).
  assert (Hno : "sessionID" ∉ columns nodes_plain) by compute_done.
  split; [exact Hno|].
  destruct (load a nodes_plain subjects_csv) as [out|e] eqn:Hl;
    [|vm_compute in Hl; discriminate].
  exists out. split; [reflexivity|].
  exact (proj1 (sessions_are_none_without_a_session_column Pivot.float_repr
                  Pivot.fit_transform a nodes_plain subjects_csv out Hno Hl)).
Defined.

Lemma group_names_are_the_features_at_node_zero_witness :
  exists out,
    load (args None (Some ["age"]) None) nodes_csv subjects_csv = Ok out /\
    (forall t m, (t, m) ∈ out_group_names out
                 <-> (t, m, 0) ∈ out_feature_names out) /\
    (NoDup (out_feature_names out) -> NoDup (out_group_names out)).
Proof.
  set (a := args None (Some ["age"]) None).
  destruct (load a nodes_csv subjects_csv) as [out|e] eqn:Hl;
    [|vm_compute in Hl; discriminate].
  exists out. split; [reflexivity|].
  destruct (group_names_are_the_features_at_node_zero Pivot.float_repr
              Pivot.fit_transform a nodes_csv subjects_csv out Hl)
    as (Hiff & _ & Hnd).
  split; [exact Hiff|exact Hnd].
Defined.

Lemma tuple_length_follows_the_flags_witness :
  exists out,
    load (mkArgs None (Some ["sex"]) (Some ["sex"]) "subjectID" false false false)
         nodes_csv subjects_csv = Ok out /\
    tuple_length out = 7%nat.
Proof.
  set (a := mkArgs None (Some ["sex"]) (Some ["sex"]) "subjectID" false false false).
  destruct (load a nodes_csv subjects_csv) as [out|e] eqn:Hl;
    [|vm_compute in Hl; discriminate].
  exists out. split; [reflexivity|].
  exact (tuple_length_follows_the_flags Pivot.float_repr Pivot.fit_transform
           a nodes_csv subjects_csv out Hl).
Defined.

Lemma unsupervised_call_ignores_the_subjects_file_witness :
  unsupervised (mkArgs None None None "subjectID" true false false) = true /\
  unsupervised (mkArgs None (Some ["age"]) (Some ["sex"]) "nobody" true false false)
    = true /\
  load (mkArgs None None None "subjectID" true false false) nodes_csv subjects_csv
  = load (mkArgs None (Some ["age"]) (Some ["sex"]) "nobody" true false false)
         nodes_csv subjects_partial.
Proof.
  set (a := mkArgs None None None "subjectID" true false false).
  set (a' := mkArgs None (Some ["age"]) (Some ["sex"]) "nobody" true false false).
  assert (Hu : unsupervised a = true) by reflexivity.
  assert (Hu' : unsupervised a' = true) by reflexivity.
  split; [exact Hu|]. split; [exact Hu'|].
  exact (proj1 (unsupervised_call_ignores_the_subjects_file Pivot.float_repr
                  Pivot.fit_transform a a' nodes_csv subjects_csv subjects_partial
                  Hu Hu' eq_refl eq_refl eq_refl)).
Defined.

Lemma phenotype_rows_repeat_with_the_subject_witness :
  getitem subjects_repeated "subjectID" = Ok [Str "A"; Str "A"] /\
  exists targets,
    align_targets (args None None None) [Str "A"; Str "B"] subjects_repeated
      = Ok targets /\
    df_index targets
    = [Str "A"; Str "B"]
        ≫= (fun s => replicate (max 1 (length (positions s [Str "A"; Str "A"]))) s) /\
    (length [Str "A"; Str "B"] <= n_rows targets)%nat.
Proof.
  assert (Hg : getitem subjects_repeated (index_col (args None None None))
               = Ok [Str "A"; Str "A"]) by reflexivity.
  split; [exact Hg|].
  destruct (phenotype_rows_repeat_with_the_subject (args None None None)
              [Str "A"; Str "B"] subjects_repeated _ Hg)
    as (targets & Ha & Hidx & _ & Hle & _).
  exists targets. split; [exact Ha|]. split; [exact Hidx|exact Hle].
Defined.

Lemma target_column_must_be_a_phenotype_column_witness :
  unsupervised (args None (Some ["age"; "subjectID"]) None) = false /\
  getitem subjects_csv "subjectID" = Ok [Str "A"; Str "B"] /\
  "subjectID" ∈ ["age"; "subjectID"] /\
  exists k,
    load (args None (Some ["age"; "subjectID"]) None) nodes_csv subjects_csv
      = Err (KeyError k) /\
    k ∈ ["age"; "subjectID"].
Proof.
  set (a := args None (Some ["age"; "subjectID"]) None).
  assert (Hu : unsupervised a = false) by reflexivity.
  assert (Hg : getitem subjects_csv (index_col a) = Ok [Str "A"; Str "B"])
    by reflexivity.
  assert (Hin : "subjectID" ∈ ["age"; "subjectID"]) by compute_done.
  split; [exact Hu|]. split; [exact Hg|]. split; [exact Hin|].
  destruct (prepare_nodes Pivot.float_repr a nodes_csv)
    as [[nodes sessions]|e] eqn:Hp; [|vm_compute in Hp; discriminate].
  destruct (Pivot.fit_transform nodes) as [fit|e] eqn:Hf.
  2: { vm_compute in Hp. injection Hp as <- _. vm_compute in Hf. discriminate. }
  apply (target_column_must_be_a_phenotype_column Pivot.float_repr
           Pivot.fit_transform a nodes_csv subjects_csv nodes sessions fit
           [Str "A"; Str "B"] ["age"; "subjectID"] "subjectID" Hu Hp Hf Hg
           eq_refl Hin).
  by left.
Defined.

Lemma classes_has_one_entry_per_encoded_column_witness :
  unsupervised (args None (Some ["sex"; "age"]) (Some ["sex"])) = false /\
  exists out classes,
    load (args None (Some ["sex"; "age"]) (Some ["sex"])) nodes_csv subjects_csv
      = Ok out /\
    out_classes out = Some classes /\
    (forall c, is_Some (classes !! c)
               <-> exists lec,
                     label_encode_cols (args None (Some ["sex"; "age"]) (Some ["sex"]))
                       = Some lec /\ c ∈ lec).
Proof.
  set (a := args None (Some ["sex"; "age"]) (Some ["sex"])).
  assert (Hu : unsupervised a = false) by reflexivity.
  split; [exact Hu|].
  destruct (load a nodes_csv subjects_csv) as [out|e] eqn:Hl;
    [|vm_compute in Hl; discriminate].
  destruct (classes_has_one_entry_per_encoded_column Pivot.float_repr
              Pivot.fit_transform a nodes_csv subjects_csv out Hu Hl)
    as (classes & Hcl & Hkeys & _).
  exists out, classes. split; [reflexivity|]. split; [exact Hcl|exact Hkeys].
Defined.

Lemma target_keeps_the_axes_longer_than_one_witness :
  unsupervised (args None (Some ["sex"; "age"]) None) = false /\
  exists out y targets y0,
    load (args None (Some ["sex"; "age"]) None) nodes_csv subjects_csv = Ok out /\
    out_y out = Some y /\
    shape y = filter (fun d => d <> 1%nat) [n_rows targets; n_cols y0] /\
    (length (out_subjects out) <= n_rows targets)%nat /\
    (length ["sex"; "age"] <= n_cols y0)%nat.
Proof.
  set (a := args None (Some ["sex"; "age"]) None).
  assert (Hu : unsupervised a = false) by reflexivity.
  split; [exact Hu|].
  destruct (load a nodes_csv subjects_csv) as [out|e] eqn:Hl;
    [|vm_compute in Hl; discriminate].
  destruct (target_keeps_the_axes_longer_than_one Pivot.float_repr
              Pivot.fit_transform a nodes_csv subjects_csv out Hu Hl)
    as (y & targets & tc & y0 & Hy & Htc & _ & _ & Hshape & Hrows & Hcols).
  injection Htc as <-.
  exists out, y, targets, y0. split; [reflexivity|]. split; [exact Hy|].
  split; [exact Hshape|]. split; [exact Hrows|exact Hcols].
Defined.

Lemma single_encoded_target_is_a_code_vector_witness :
  unsupervised (args None (Some ["sex"]) (Some ["sex"])) = false /\
  exists out targets data cl,
    load (args None (Some ["sex"]) (Some ["sex"])) nodes_csv subjects_csv = Ok out /\
    cols_named "sex" targets = [("sex", data)] /\
    unique_values data = Ok cl /\
    out_classes out = Some {["sex" := cl]} /\
    out_y out = Some (match codes_of cl data with
                      | [v] => Array0 v
                      | codes => Array1 codes
                      end).
Proof.
  set (a := args None (Some ["sex"]) (Some ["sex"])).
  assert (Hu : unsupervised a = false) by reflexivity.
  split; [exact Hu|].
  destruct (load a nodes_csv subjects_csv) as [out|e] eqn:Hl;
    [|vm_compute in Hl; discriminate].
  destruct (single_encoded_target_is_a_code_vector Pivot.float_repr
              Pivot.fit_transform a nodes_csv subjects_csv "sex" out Hu
              eq_refl eq_refl Hl)
    as (targets & data & cl & _ & Hc & _ & Hun & Hcl & Hy).
  exists out, targets, data, cl. split; [reflexivity|]. split; [exact Hc|].
  split; [exact Hun|]. split; [exact Hcl|exact Hy].
Defined.

Lemma subject_labels_carry_the_session_witness :
  concat_subject_session (mkArgs None None None "subjectID" false true true) = true /\
  getitem nodes_csv "subjectID" = Ok [Str "A"; Str "A"; Str "B"; Str "B"] /\
  getitem nodes_csv "sessionID" = Ok [Int 1; Int 1; Int 2; Int 2] /\
  exists nodes sessions new,
    prepare_nodes Pivot.float_repr
      (mkArgs None None None "subjectID" false true true) nodes_csv
      = Ok (nodes, sessions) /\
    sessions = Some [Int 1; Int 1; Int 2; Int 2] /\
    getitem nodes "subjectID" = Ok new /\
    new !! 2%nat = Some (Str ("B" +:+ astype_str Pivot.float_repr (Int 2))).
Proof.
  set (a := mkArgs None None None "subjectID" false true true).
  assert (Hc : concat_subject_session a = true) by reflexivity.
  assert (Hsid : getitem nodes_csv "subjectID"
                 = Ok [Str "A"; Str "A"; Str "B"; Str "B"]) by reflexivity.
  assert (Hses : getitem nodes_csv "sessionID"
                 = Ok [Int 1; Int 1; Int 2; Int 2]) by reflexivity.
  split; [exact Hc|]. split; [exact Hsid|]. split; [exact Hses|].
  destruct (prepare_nodes Pivot.float_repr a nodes_csv)
    as [[nodes sessions]|e] eqn:Hp; [|vm_compute in Hp; discriminate].
  destruct (subject_labels_carry_the_session Pivot.float_repr a nodes_csv
              nodes sessions _ _ Hc Hsid Hses Hp)
    as (Hs & new & Hget & _ & Hpt).
  exists nodes, sessions, new. split; [reflexivity|]. split; [exact Hs|].
  split; [exact Hget|]. exact (Hpt 2%nat "B" (Int 2) eq_refl eq_refl).
Defined.

Lemma scaled_cells_follow_the_formula_witness :
  getitem nodes_frame "tractID"
    = Ok [Str "CST"; Str "CST"; Str "CST"; Str "CST"] /\
  getitem synthetic_rows "tractID" = Ok [Str "CST"; Str "CST"] /\
  Str "CST" ∈ [Str "CST"; Str "CST"; Str "CST"; Str "CST"] /\
  exists df' f_mean f_std b_mean b_std,
    scale_beta_frame nodes_frame synthetic_rows = Ok df' /\
    tract_stat nanmean nodes_frame (Str "CST") = Ok f_mean /\
    tract_stat nanstd nodes_frame (Str "CST") = Ok f_std /\
    tract_stat nanmean synthetic_rows (Str "CST") = Ok b_mean /\
    tract_stat nanstd synthetic_rows (Str "CST") = Ok b_std /\
    Forall2 (scaled_column (Str "CST") [Str "CST"; Str "CST"]
               f_mean f_std b_mean b_std)
            (df_cols synthetic_rows) (df_cols df').
Proof.
  assert (Hn : getitem nodes_frame "tractID"
               = Ok [Str "CST"; Str "CST"; Str "CST"; Str "CST"]) by reflexivity.
  assert (Ht : getitem synthetic_rows "tractID" = Ok [Str "CST"; Str "CST"])
    by reflexivity.
  assert (Hin : Str "CST" ∈ [Str "CST"; Str "CST"; Str "CST"; Str "CST"])
    by compute_done.
  split; [exact Hn|]. split; [exact Ht|]. split; [exact Hin|].
  destruct (scale_beta_frame nodes_frame synthetic_rows) as [df'|e] eqn:Hs;
    [|vm_compute in Hs; discriminate].
  destruct (scaled_cells_follow_the_formula nanmean nanstd nanmean nanstd
              nodes_frame synthetic_rows df' _ _ (Str "CST") Hs Hn Ht Hin)
    as (f_mean & f_std & b_mean & b_std & Hfm & Hfs & Hbm & Hbs & _ & Hf).
  exists df', f_mean, f_std, b_mean, b_std.
  split; [reflexivity|]. split; [exact Hfm|]. split; [exact Hfs|].
  split; [exact Hbm|]. split; [exact Hbs|exact Hf].
Defined.

Lemma real_rows_are_kept_and_synthetic_rows_appended_witness :
  exists out w' table,
    project [F 1; F 3] (beta_args "/out" true) subjects_table = (Ok out, w') /\
    files (world subjects_table) !! "/in/nodes.csv" = Some (CsvFile nodes_table) /\
    files w' !! "/out/nodes.csv" = Some (CsvFile table) /\
    Forall2 (fun c c' : string * list value =>
               c'.1 = c.1 /\
               exists d, c'.2 = c.2 ++ d /\ length d = length (beta_rows cols))
            nodes_table table.
Proof.
  destruct (project [F 1; F 3] (beta_args "/out" true) subjects_table)
    as [[out|e] w'] eqn:Hrun; [|vm_compute in Hrun; discriminate].
  destruct (real_rows_are_kept_and_synthetic_rows_appended id [F 1; F 3] cols
              (beta_args "/out" true) (world subjects_table) out w' Hrun)
    as (t & table & Hin & Hout & Hrows).
  - compute_done.
  - assert (Ht : t = nodes_table).
    { assert (H : files (world subjects_table) !! "/in/nodes.csv"
                  = Some (CsvFile nodes_table)) by reflexivity.
      change (input_path id (beta_args "/out" true)
                (fn_nodes_in (beta_args "/out" true)))
        with "/in/nodes.csv" in Hin.
      rewrite H in Hin. by injection Hin as <-. }
    subst t. exists out, w', table.
    split; [reflexivity|]. split; [exact Hin|]. split; [exact Hout|exact Hrows].
Defined.

Lemma absolute_output_name_leaves_the_output_directory_witness :
  String.prefix "/" "/in/nodes.csv" = true /\
  files (world subjects_table) !! "/in/nodes.csv" = Some (CsvFile nodes_table) /\
  exists out w',
    run (output_beta_to_afq id [F 1; F 3] cols
           (mkBetaArgs "/in" "/out" "nodes.csv" "subjects.csv" "/in/nodes.csv"
              "subjects.csv" false))
        (world subjects_table) = (Ok out, w') /\
    nodes_file out = "/in/nodes.csv" /\
    files w' !! "/in/nodes.csv"
    = Some (CsvFile
              [("subjectID", [Str "A"; Str "A"; Str "B"; Str "B";
                              Str "beta_hat"; Str "beta_hat"]);
               ("tractID", [Str "CST"; Str "CST"; Str "CST"; Str "CST";
                            Str "CST"; Str "CST"]);
               ("nodeID", [Int 0; Int 1; Int 0; Int 1; Int 0; Int 1]);
               ("fa", [F 5; F 5; F 5; F 5; F 1; F 3])]).
Proof.
  set (a := mkBetaArgs "/in" "/out" "nodes.csv" "subjects.csv" "/in/nodes.csv"
              "subjects.csv" false).
  assert (Habs : String.prefix "/" (fn_nodes_out a) = true) by reflexivity.
  assert (Hfile : files (world subjects_table) !! "/in/nodes.csv"
                  = Some (CsvFile nodes_table)) by reflexivity.
  split; [exact Habs|]. split; [exact Hfile|].
  destruct (run (output_beta_to_afq id [F 1; F 3] cols a) (world subjects_table))
    as [[out|e] w'] eqn:Hrun; [|vm_compute in Hrun; discriminate].
  destruct (absolute_output_name_leaves_the_output_directory id [F 1; F 3] cols
              a (world subjects_table) out w' Habs Hrun)
    as (Hname & t & df0 & df & Hin & Hb & Hsc & _ & Hout).
  exists out, w'. split; [reflexivity|]. split; [exact Hname|].
  change (input_path id a (fn_nodes_in a)) with "/in/nodes.csv" in Hin.
  rewrite Hfile in Hin. injection Hin as <-.
  vm_compute in Hb. injection Hb as <-.
  vm_compute in Hsc. injection Hsc as <-.
  change (fn_nodes_out a) with "/in/nodes.csv" in Hout.
  rewrite Hout by compute_done. reflexivity.
Defined.
